(** * CESIzen: credential store, token issuer/validator and access guard

    Shallow embedding of the CESIzen backend:
    - [auth_service/database/user_repository.py]  (module [UserRepository]),
    - [auth_service/database/mongodb.py]          (module [MongoDB]),
    - [auth_service/main.py]                      (module [AuthService]),
    - [info_service/main.py]       (modules [InfoService], [InfoContent]),
    - [user_service/main.py]       (modules [UserService], [UserAccounts]).

    Python dictionaries are [gmap string value], or the list of their items
    where the order of insertion matters; the MongoDB collection is a list
    of documents in natural order together with its unique indexes;
    exceptions are an explicit [result]; code that touches the collection
    runs in a state-and-exception monad.  The wall clock
    ([datetime.utcnow()]) and the bcrypt salt are explicit arguments; the
    clock is in whole epoch seconds, which is how the token library reads
    it, except where an instant is given in microseconds and passed
    through [Py.timegm]. *)

From stdpp Require Import base strings gmap list pretty.
From Stdlib Require Import ZArith Lia Ascii.

Open Scope Z_scope.

(** ** Python values, dictionaries, exceptions *)

Module Py.

Inductive value :=
| VNone
| VBool (b : bool)
| VInt (n : Z)
| VStr (s : string)
| VOid (n : nat).

#[global] Instance value_eq_dec : EqDecision value.
Proof. solve_decision. Defined.

(** Python truthiness of a string and of a dictionary, as [if x:] and
    [if not x:] test it. *)
Definition str_truthy (s : string) : bool := negb (bool_decide (s = "")).

Definition dict_truthy (d : gmap string value) : bool :=
  negb (bool_decide (d = ∅)).

(** [d.get(k, dflt)] *)
Definition get (d : gmap string value) (k : string) (dflt : value) : value :=
  default dflt (d !! k).

(** [Optional[str]] and [Optional[bool]] fields as dictionary values. *)
Definition of_opt_str (o : option string) : value :=
  match o with Some s => VStr s | None => VNone end.

Definition of_opt_bool (o : option bool) : value :=
  match o with Some b => VBool b | None => VNone end.

(** [int(s)] for a string, as CPython reads it in base ten: white space
    around, an optional sign, then decimal digits with single underscores
    between them, at most 4300 digits (the interpreter's default limit);
    [None] stands for the [ValueError].  Characters are code points below
    256, of which 9-13, 28-32, 133 and 160 are white space. *)
Definition is_space (a : Ascii.ascii) : bool :=
  let n := Ascii.N_of_ascii a in
  ((9 <=? n) && (n <=? 13) || (28 <=? n) && (n <=? 32)
   || (n =? 133) || (n =? 160))%N.

Definition digit_of (a : Ascii.ascii) : option Z :=
  let n := Ascii.N_of_ascii a in
  if ((48 <=? n) && (n <=? 57))%N then Some (Z.of_N n - 48) else None.

Fixpoint all_space (s : string) : bool :=
  match s with
  | EmptyString => true
  | String a s' => is_space a && all_space s'
  end.

Fixpoint lstrip (s : string) : string :=
  match s with
  | EmptyString => EmptyString
  | String a s' => if is_space a then lstrip s' else s
  end.

(** the digits after the first one: the value and the number of digits so
    far, and whether the character before was an underscore *)
Fixpoint scan_digits (s : string) (acc : Z) (digits : nat) (underscore : bool)
    : option (Z * nat) :=
  match s with
  | EmptyString => if underscore then None else Some (acc, digits)
  | String a s' =>
      match digit_of a with
      | Some d => scan_digits s' (10 * acc + d) (S digits) false
      | None =>
          if underscore then None
          else if bool_decide (a = "_"%char) then scan_digits s' acc digits true
          else if all_space s then Some (acc, digits)
          else None
      end
  end.

Definition max_str_digits : nat := 4300.

Definition int_of_str (s : string) : option Z :=
  let s := lstrip s in
  let (negative, s) :=
    match s with
    | String "+"%char s' => (false, s')
    | String "-"%char s' => (true, s')
    | _ => (false, s)
    end in
  match s with
  | EmptyString => None
  | String a s' =>
      match digit_of a with
      | None => None
      | Some d =>
          match scan_digits s' d 1 false with
          | Some (n, digits) =>
              if bool_decide (digits ≤ max_str_digits)%nat
              then Some (if negative then - n else n)
              else None
          | None => None
          end
      end
  end.

(** [timegm(d.utctimetuple())] for a [datetime] given in microseconds since
    the epoch: the whole seconds, the fraction dropped. *)
Definition timegm (d : Z) : Z := d `div` 1000000.

(** [{k: v for k, v in d.items() if v is not None}] *)
Definition drop_none (d : gmap string value) : gmap string value :=
  filter (λ kv, kv.2 ≠ VNone) d.

(** Exceptions that the modelled code raises or lets through.  The
    [headers] of an [HTTPException] are left out. *)
Inductive exn :=
| HTTPException (status_code : Z) (detail : string)
| JWTError
| DuplicateKeyError
| WriteError
| ValidationError
| KeyError (k : string)
| TypeError.

#[global] Instance exn_eq_dec : EqDecision exn.
Proof. solve_decision. Defined.

Inductive result (A : Type) :=
| Ok (a : A)
| Raise (e : exn).

Arguments Ok {A} a.
Arguments Raise {A} e.

#[global] Instance result_eq_dec {A} `{EqDecision A} : EqDecision (result A).
Proof. solve_decision. Defined.

Definition bind {A B} (r : result A) (k : A → result B) : result B :=
  match r with
  | Ok a => k a
  | Raise e => Raise e
  end.

(** The status line FastAPI answers with: the route's declared status on a
    normal return, the exception's own status for an [HTTPException], and
    500 for any other exception that escapes the handler. *)
Definition http_status {A} (declared : Z) (r : result A) : Z :=
  match r with
  | Ok _ => declared
  | Raise (HTTPException c _) => c
  | Raise _ => 500
  end.

End Py.

Export Py.

Declare Scope py_scope.
Delimit Scope py_scope with py.
Notation "x <- m ;; k" := (Py.bind m (λ x, k))
  (at level 100, m at next level, right associativity) : py_scope.
Notation "m ;;; k" := (Py.bind m (λ _, k))
  (at level 100, right associativity) : py_scope.

(** ** The JWT library (python-jose), symbolically

    [jose.jwt] is a third-party package, not part of the repository.  A
    token is modelled symbolically: a signed token records the algorithm of
    its header, its claim set and the key its signature was computed with,
    so that a signature verifies exactly under that key.  Only the
    symmetric HMAC algorithms are considered (the services sign and verify
    with one shared string secret).  [decode] checks, in the library's
    order, the algorithm against the allowed list, the signature, and then
    the claims, as [jwt.decode(token, key, algorithms=[...])] does with its
    default options and neither audience, issuer, subject nor access
    token: [iat], [nbf], [exp], [aud], [sub], [jti], [at_hash].  Its
    failures are [JWTError]s (the library's subclasses are not told
    apart); an [int()] of [None] inside it is a [TypeError].

    The clock [now] of [decode] is the one the library reads,
    [timegm(datetime.utcnow().utctimetuple())]: whole epoch seconds, the
    fraction of the running second dropped ([Py.timegm]).  The issuer's
    [exp] goes through the same conversion when the token is encoded, so
    for a life time in whole seconds the clock of [create_access_token]
    is that reading too. *)

Module Jose.

Inductive algorithm := HS256 | HS384 | HS512.

#[global] Instance algorithm_eq_dec : EqDecision algorithm.
Proof. solve_decision. Defined.

Inductive token :=
| Garbled (s : string)
| JWS (alg : algorithm) (claims : gmap string value) (signing_key : string).

#[global] Instance token_eq_dec : EqDecision token.
Proof. solve_decision. Defined.

Definition encode (claims : gmap string value) (key : string)
    (alg : algorithm) : token :=
  JWS alg claims key.

(** [try: int(v) except ValueError: raise JWTClaimsError(...)] *)
Definition int_claim (v : value) : result Z :=
  match v with
  | VInt n => Ok n
  | VBool b => Ok (if b then 1 else 0)
  | VStr s =>
      match int_of_str s with
      | Some n => Ok n
      | None => Raise JWTError
      end
  | VNone | VOid _ => Raise TypeError
  end.

Definition validate_iat (claims : gmap string value) : result unit :=
  match claims !! "iat" with
  | None => Ok ()
  | Some v => (int_claim v ;;; Ok ())%py
  end.

Definition validate_nbf (claims : gmap string value) (now : Z) : result unit :=
  match claims !! "nbf" with
  | None => Ok ()
  | Some v =>
      (nbf <- int_claim v ;; if now <? nbf then Raise JWTError else Ok ())%py
  end.

Definition validate_exp (claims : gmap string value) (now : Z) : result unit :=
  match claims !! "exp" with
  | None => Ok ()
  | Some v =>
      (exp <- int_claim v ;; if exp <? now then Raise JWTError else Ok ())%py
  end.

(** without an expected audience every [aud] claim is refused *)
Definition validate_aud (claims : gmap string value) : result unit :=
  match claims !! "aud" with
  | None => Ok ()
  | Some _ => Raise JWTError
  end.

Definition validate_sub (claims : gmap string value) : result unit :=
  match claims !! "sub" with
  | None => Ok ()
  | Some (VStr _) => Ok ()
  | Some _ => Raise JWTError
  end.

Definition validate_jti (claims : gmap string value) : result unit :=
  match claims !! "jti" with
  | None => Ok ()
  | Some (VStr _) => Ok ()
  | Some _ => Raise JWTError
  end.

(** without an access token every [at_hash] claim is refused *)
Definition validate_at_hash (claims : gmap string value) : result unit :=
  match claims !! "at_hash" with
  | None => Ok ()
  | Some _ => Raise JWTError
  end.

Definition validate_claims (claims : gmap string value) (now : Z)
    : result unit :=
  (validate_iat claims ;;; validate_nbf claims now ;;;
   validate_exp claims now ;;; validate_aud claims ;;;
   validate_sub claims ;;; validate_jti claims ;;;
   validate_at_hash claims)%py.

Definition decode (t : token) (key : string) (algorithms : list algorithm)
    (now : Z) : result (gmap string value) :=
  match t with
  | Garbled _ => Raise JWTError
  | JWS alg claims signing_key =>
      if negb (bool_decide (alg ∈ algorithms)) then Raise JWTError
      else if negb (bool_decide (signing_key = key)) then Raise JWTError
      else (validate_claims claims now ;;; Ok claims)%py
  end.

(** the [exp] claim a token carries *)
Definition expiry (t : token) : option Z :=
  match t with
  | JWS _ claims _ =>
      match claims !! "exp" with
      | Some (VInt exp) => Some exp
      | _ => None
      end
  | Garbled _ => None
  end.

End Jose.

(** ** The MongoDB collection (pymongo), as far as the repository uses it

    A collection is the list of its documents in natural order, the fields
    that carry a unique index, and a counter standing for the generator of
    fresh [ObjectId]s.  A field that a document lacks is indexed, and matched
    by an equality filter, as [null]; a unique index therefore admits a
    single document without the field.  [_id] is always unique. *)

Module Mongo.

Record collection := Collection {
  docs : list (gmap string value);
  unique : list string;
  next_oid : nat
}.

#[global] Instance collection_eq_dec : EqDecision collection.
Proof. solve_decision. Defined.

Definition empty : collection :=
  {| docs := []; unique := []; next_oid := 0 |}.

Definition key_of (field : string) (d : gmap string value) : value :=
  default VNone (d !! field).

(** the filter [{field: v}] *)
Definition matches (field : string) (v : value) (d : gmap string value) : bool :=
  bool_decide (key_of field d = v).

(** [d] collides with one of [others] on a uniquely indexed field *)
Definition violates (fields : list string) (d : gmap string value)
    (others : list (gmap string value)) : bool :=
  existsb (λ f, existsb (matches f (key_of f d)) others) fields.

(** the documents before the first match, the match, the documents after *)
Fixpoint split_first (p : gmap string value → bool)
    (l : list (gmap string value))
    : option (list (gmap string value) * gmap string value
              * list (gmap string value)) :=
  match l with
  | [] => None
  | d :: l' =>
      if p d then Some ([], d, l')
      else match split_first p l' with
           | Some (pre, m, post) => Some (d :: pre, m, post)
           | None => None
           end
  end.

Definition find_one (field : string) (v : value) (c : collection)
    : option (gmap string value) :=
  List.find (matches field v) (docs c).

(** [insert_one(d)]: pymongo adds a fresh [_id] to the caller's dictionary
    when it has none; the dictionary as it was sent is returned. *)
Definition insert_one (d : gmap string value) (c : collection)
    : result (gmap string value) * collection :=
  let d' := match d !! "_id" with
            | Some _ => d
            | None => <["_id" := VOid (next_oid c)]> d
            end in
  if violates ("_id" :: unique c) d' (docs c) then (Raise DuplicateKeyError, c)
  else (Ok d', {| docs := docs c ++ [d'];
                  unique := unique c;
                  next_oid := S (next_oid c) |}).

(** [update_one({field: v}, {"$set": fields})], returning [modified_count]:
    a matched document that the update leaves as it was is not counted. *)
Definition update_one (field : string) (v : value)
    (fields : gmap string value) (c : collection) : result Z * collection :=
  match split_first (matches field v) (docs c) with
  | None => (Ok 0, c)
  | Some (pre, d, post) =>
      let d' := fields ∪ d in
      if bool_decide (d' = d) then (Ok 0, c)
      else if negb (bool_decide (key_of "_id" d' = key_of "_id" d))
      then (Raise WriteError, c)
      else if violates (unique c) d' (pre ++ post)
      then (Raise DuplicateKeyError, c)
      else (Ok 1, {| docs := pre ++ d' :: post;
                     unique := unique c;
                     next_oid := next_oid c |})
  end.

(** [delete_one({field: v})], returning [deleted_count] *)
Definition delete_one (field : string) (v : value) (c : collection)
    : result Z * collection :=
  match split_first (matches field v) (docs c) with
  | None => (Ok 0, c)
  | Some (pre, _, post) =>
      (Ok 1, {| docs := pre ++ post;
                unique := unique c;
                next_oid := next_oid c |})
  end.

(** [create_index(field, unique=True)] *)
Definition create_index (field : string) (c : collection)
    : result unit * collection :=
  if bool_decide (field ∈ unique c) then (Ok (), c)
  else if bool_decide (NoDup (key_of field <$> docs c))
  then (Ok (), {| docs := docs c;
                  unique := unique c ++ [field];
                  next_oid := next_oid c |})
  else (Raise DuplicateKeyError, c).

End Mongo.

(** ** Code that uses the collection: state and exceptions

    A computation takes the collection and gives back a result or an
    exception, and the collection as it then is (what was written before an
    exception stays written). *)

Definition M (A : Type) : Type :=
  Mongo.collection → result A * Mongo.collection.

Definition ret {A} (a : A) : M A := λ c, (Ok a, c).

Definition raise {A} (e : exn) : M A := λ c, (Raise e, c).

Definition lift {A} (r : result A) : M A := λ c, (r, c).

Definition mbind_st {A B} (m : M A) (k : A → M B) : M B :=
  λ c, match m c with
       | (Ok a, c') => k a c'
       | (Raise e, c') => (Raise e, c')
       end.

Declare Scope st_scope.
Delimit Scope st_scope with st.
Notation "x <- m ;; k" := (mbind_st m (λ x, k))
  (at level 100, m at next level, right associativity) : st_scope.
Notation "m ;;; k" := (mbind_st m (λ _, k))
  (at level 100, right associativity) : st_scope.

(** ** auth_service/database/user_repository.py *)

(** [pwd_context = CryptContext(schemes=["bcrypt"])] (passlib, third
    party): [hash] draws a random salt, here its first argument. *)
Class CryptContext := {
  pwd_hash : string → string → string;
  pwd_verify : string → string → bool
}.

Module UserRepository.

Section Repository.
Context `{pwd_context : CryptContext}.

Definition get_user_by_username (username : string)
    : M (option (gmap string value)) :=
  λ c, (Ok (Mongo.find_one "username" (VStr username) c), c).

Definition get_user_by_email (email : string)
    : M (option (gmap string value)) :=
  λ c, (Ok (Mongo.find_one "email" (VStr email) c), c).

(** [if "password" in user_data:
       user_data["hashed_password"] = pwd_context.hash(user_data.pop("password"))]
    passlib refuses a secret that is not a string. *)
Definition hash_password_field (salt : string) (user_data : gmap string value)
    : result (gmap string value) :=
  match user_data !! "password" with
  | None => Ok user_data
  | Some (VStr plain) =>
      Ok (<["hashed_password" := VStr (pwd_hash salt plain)]>
            (delete "password" user_data))
  | Some _ => Raise TypeError
  end.

(** [if k not in user_data: user_data[k] = v] *)
Definition setdefault (k : string) (v : value) (user_data : gmap string value)
    : gmap string value :=
  match user_data !! k with
  | Some _ => user_data
  | None => <[k := v]> user_data
  end.

(** The document handed to [insert_one]. *)
Definition prepare_user (salt : string) (user_data : gmap string value)
    : result (gmap string value) :=
  (hashed <- hash_password_field salt user_data ;;
   Ok (setdefault "disabled" (VBool false)
         (setdefault "role" (VStr "user") hashed)))%py.

(** [create_user] changes the caller's dictionary in place; the dictionary
    as it is afterwards is returned next to the inserted [_id] (whose
    conversion to [str] is left out). *)
Definition create_user (salt : string) (user_data : gmap string value)
    : M (value * gmap string value) :=
  (to_insert <- lift (prepare_user salt user_data) ;;
   inserted <- Mongo.insert_one to_insert ;;
   ret (Mongo.key_of "_id" inserted, inserted))%st.

Definition update_user (salt : string) (username : string)
    (user_data : gmap string value) : M bool :=
  (to_set <- lift (hash_password_field salt user_data) ;;
   modified_count <- Mongo.update_one "username" (VStr username) to_set ;;
   ret (0 <? modified_count))%st.

Definition delete_user (username : string) : M bool :=
  (deleted_count <- Mongo.delete_one "username" (VStr username) ;;
   ret (0 <? deleted_count))%st.

Definition verify_password (plain_password hashed_password : string) : bool :=
  pwd_verify plain_password hashed_password.

Definition create_index : M unit :=
  (Mongo.create_index "username" ;;; Mongo.create_index "email")%st.

(** [not d] for an [Optional[dict]] *)
Definition found (o : option (gmap string value)) : bool :=
  match o with
  | Some d => dict_truthy d
  | None => false
  end.

Definition admin_record (admin_username admin_password admin_email : string)
    : gmap string value :=
  <["username" := VStr admin_username]>
  (<["email" := VStr admin_email]>
  (<["password" := VStr admin_password]>
  (<["full_name" := VStr "Admin User"]>
  (<["role" := VStr "admin"]>
  (<["disabled" := VBool false]> ∅))))).

Definition init_admin_user (salt : string)
    (admin_username admin_password admin_email : string) : M bool :=
  (existing <- get_user_by_username admin_username ;;
   if negb (found existing)
   then (create_user salt
           (admin_record admin_username admin_password admin_email) ;;;
         ret true)
   else ret false)%st.

End Repository.

End UserRepository.

(** ** auth_service/main.py *)

Module AuthService.

(** The configuration read from the environment at import time. *)
Record config := Config {
  SECRET_KEY : string;
  ALGORITHM : Jose.algorithm;
  ACCESS_TOKEN_EXPIRE_MINUTES : Z;
  ADMIN_USERNAME : string;
  ADMIN_PASSWORD : string;
  ADMIN_EMAIL : string
}.

Definition default_config : config :=
  {| SECRET_KEY := "YOUR_SECRET_KEY_HERE";
     ALGORITHM := Jose.HS256;
     ACCESS_TOKEN_EXPIRE_MINUTES := 30;
     ADMIN_USERNAME := "admin";
     ADMIN_PASSWORD := "admin";
     ADMIN_EMAIL := "admin@example.com" |}.

(** *** Models *)

Record TokenData := {
  td_username : option string;
  td_role : option string
}.

Record UserBase := {
  username : string;
  email : option string;
  full_name : option string;
  disabled : option bool;
  role : string
}.

Record UserCreate := {
  create_base :> UserBase;
  password : string
}.

Record UserUpdate := {
  upd_email : option string;
  upd_full_name : option string;
  upd_password : option string;
  upd_disabled : option bool;
  upd_role : option string
}.

Record UserInDB := {
  indb_base :> UserBase;
  hashed_password : string
}.

#[global] Instance TokenData_eq_dec : EqDecision TokenData.
Proof. solve_decision. Defined.

#[global] Instance UserBase_eq_dec : EqDecision UserBase.
Proof. solve_decision. Defined.

#[global] Instance UserInDB_eq_dec : EqDecision UserInDB.
Proof. solve_decision. Defined.

(** [user.dict()] *)
Definition UserBase_dict (u : UserBase) : gmap string value :=
  <["username" := VStr (username u)]>
  (<["email" := of_opt_str (email u)]>
  (<["full_name" := of_opt_str (full_name u)]>
  (<["disabled" := of_opt_bool (disabled u)]>
  (<["role" := VStr (role u)]> ∅)))).

Definition UserCreate_dict (u : UserCreate) : gmap string value :=
  <["password" := VStr (password u)]> (UserBase_dict u).

Definition UserUpdate_dict (u : UserUpdate) : gmap string value :=
  <["email" := of_opt_str (upd_email u)]>
  (<["full_name" := of_opt_str (upd_full_name u)]>
  (<["password" := of_opt_str (upd_password u)]>
  (<["disabled" := of_opt_bool (upd_disabled u)]>
  (<["role" := of_opt_str (upd_role u)]> ∅)))).

(** Validation of one keyword argument of a pydantic model.  [EmailStr]
    is read as [str]: an address, in a request or in a stored document, is
    taken to be one that the address check accepts and leaves as it is;
    the check itself (a third-party package) is not modelled. *)
Definition str_required (d : gmap string value) (k : string) : result string :=
  match d !! k with
  | Some (VStr s) => Ok s
  | _ => Raise ValidationError
  end.

Definition str_default (d : gmap string value) (k : string) (dflt : string)
    : result string :=
  match d !! k with
  | None => Ok dflt
  | Some (VStr s) => Ok s
  | Some _ => Raise ValidationError
  end.

Definition str_optional (d : gmap string value) (k : string)
    : result (option string) :=
  match d !! k with
  | None | Some VNone => Ok None
  | Some (VStr s) => Ok (Some s)
  | Some _ => Raise ValidationError
  end.

Definition bool_optional (d : gmap string value) (k : string)
    (dflt : option bool) : result (option bool) :=
  match d !! k with
  | None => Ok dflt
  | Some VNone => Ok None
  | Some (VBool b) => Ok (Some b)
  | Some _ => Raise ValidationError
  end.

(** [UserBase] built from the items of [d] as keyword arguments; keys
    that are not fields are ignored. *)
Definition UserBase_of (d : gmap string value) : result UserBase :=
  (u <- str_required d "username" ;;
   e <- str_optional d "email" ;;
   f <- str_optional d "full_name" ;;
   a <- bool_optional d "disabled" (Some false) ;;
   r <- str_default d "role" "user" ;;
   Ok {| username := u; email := e; full_name := f;
         disabled := a; role := r |})%py.

(** [UserInDB] built from the items of [d] as keyword arguments *)
Definition UserInDB_of (d : gmap string value) : result UserInDB :=
  (b <- UserBase_of d ;;
   h <- str_required d "hashed_password" ;;
   Ok {| indb_base := b; hashed_password := h |})%py.

(** [TokenData(username=u, role=r)] *)
Definition TokenData_of (u r : value) : result TokenData :=
  match u, r with
  | VStr s, VStr t => Ok {| td_username := Some s; td_role := Some t |}
  | VStr s, VNone => Ok {| td_username := Some s; td_role := None |}
  | VNone, VStr t => Ok {| td_username := None; td_role := Some t |}
  | VNone, VNone => Ok {| td_username := None; td_role := None |}
  | _, _ => Raise ValidationError
  end.

(** [timedelta], in whole seconds; a zero [timedelta] is falsy. *)
Definition minutes (m : Z) : Z := 60 * m.

Definition timedelta_truthy (d : Z) : bool := negb (d =? 0).

Section Service.
Context `{pwd_context : CryptContext}.
Variable cfg : config.

Definition get_user (username : string) : M (option UserInDB) :=
  (user_data <- UserRepository.get_user_by_username username ;;
   match user_data with
   | Some d =>
       if dict_truthy d
       then (user <- lift (UserInDB_of d) ;; ret (Some user))
       else ret None
   | None => ret None
   end)%st.

Definition authenticate_user (username password : string)
    : M (option UserInDB) :=
  (user <- get_user username ;;
   match user with
   | None => ret None
   | Some u =>
       if negb (UserRepository.verify_password password (hashed_password u))
       then ret None
       else ret (Some u)
   end)%st.

(** [expire], as [create_access_token] computes it from its optional
    argument and the clock *)
Definition expire_at (expires_delta : option Z) (now : Z) : Z :=
  match expires_delta with
  | Some delta =>
      if timedelta_truthy delta then now + delta else now + minutes 15
  | None => now + minutes 15
  end.

Definition create_access_token (data : gmap string value)
    (expires_delta : option Z) (now : Z) : Jose.token :=
  let to_encode := data in
  let expire := expire_at expires_delta now in
  let to_encode := <["exp" := VInt expire]> to_encode in
  Jose.encode to_encode (SECRET_KEY cfg) (ALGORITHM cfg).

(** [{"sub": subject, "role": role}], the claims the login hands over *)
Definition subject_claims (subject role : string) : gmap string value :=
  <["sub" := VStr subject]> (<["role" := VStr role]> ∅).

Definition credentials_exception : exn :=
  HTTPException 401 "Could not validate credentials".

(** The [try] block of [get_current_user]: decode, read [sub] and [role],
    build the [TokenData].  Only a [JWTError] is turned into the
    credentials exception; anything else passes through. *)
Definition current_token_data (token : Jose.token) (now : Z)
    : result TokenData :=
  match Jose.decode token (SECRET_KEY cfg) [ALGORITHM cfg] now with
  | Raise JWTError => Raise credentials_exception
  | Raise e => Raise e
  | Ok payload =>
      let username := Py.get payload "sub" VNone in
      let role := Py.get payload "role" (VStr "user") in
      if bool_decide (username = VNone) then Raise credentials_exception
      else TokenData_of username role
  end.

(** [current_token_data] never returns a [TokenData] without a username,
    so the first branch below is not taken. *)
Definition get_current_user (token : Jose.token) (now : Z) : M UserInDB :=
  (token_data <- lift (current_token_data token now) ;;
   match td_username token_data with
   | None => raise ValidationError
   | Some name =>
       user <- get_user name ;;
       match user with
       | None => raise credentials_exception
       | Some u => ret u
       end
   end)%st.

Definition get_current_active_user (current_user : UserInDB)
    : result UserInDB :=
  match disabled current_user with
  | Some true => Raise (HTTPException 400 "Inactive user")
  | _ => Ok current_user
  end.

Definition get_admin_user (current_user : UserInDB) : result UserInDB :=
  if negb (bool_decide (role current_user = "admin"))
  then Raise (HTTPException 403 "Not enough permissions")
  else Ok current_user.

Definition startup_db_client (salt : string) : M bool :=
  (UserRepository.create_index ;;;
   UserRepository.init_admin_user salt
     (ADMIN_USERNAME cfg) (ADMIN_PASSWORD cfg) (ADMIN_EMAIL cfg))%st.

(** *** Endpoints

    A handler takes the values FastAPI has resolved for its dependencies
    ([current_user]) next to its own arguments.  What a handler returns is
    then passed through its [response_model]. *)

(** [POST /token]; the [access_token] of the answer is returned. *)
Definition login_for_access_token (form_username form_password : string)
    (now : Z) : M Jose.token :=
  (user <- authenticate_user form_username form_password ;;
   match user with
   | None => raise (HTTPException 401 "Incorrect username or password")
   | Some u =>
       let access_token_expires := minutes (ACCESS_TOKEN_EXPIRE_MINUTES cfg) in
       ret (create_access_token
              (subject_claims (username u) (role u))
              (Some access_token_expires) now)
   end)%st.

(** [response_model=User] applied to a returned dictionary *)
Definition respond_User (d : gmap string value) : M UserBase :=
  lift (UserBase_of d).

(** [response_model=User] applied to what [get_user] returned *)
Definition respond_UserInDB (u : option UserInDB) : M UserBase :=
  match u with
  | Some user => ret (indb_base user)
  | None => raise ValidationError
  end.

(** [POST /users/], declared status 201 *)
Definition create_user (salt : string) (user : UserCreate) : M UserBase :=
  (existing_user <- UserRepository.get_user_by_username (username user) ;;
   if UserRepository.found existing_user
   then raise (HTTPException 400 "Username already registered")
   else
     (match email user with
      | Some e =>
          if str_truthy e
          then (existing_email <- UserRepository.get_user_by_email e ;;
                if UserRepository.found existing_email
                then raise (HTTPException 400 "Email already registered")
                else ret ())
          else ret ()
      | None => ret ()
      end) ;;;
     let user_data := UserCreate_dict user in
     created <- UserRepository.create_user salt user_data ;;
     let user_data := created.2 in
     respond_User (filter (λ kv, kv.1 ≠ "password") user_data))%st.

(** [{k: v for k, v in user_update.dict().items() if v is not None}]; what
    is left under ["email"] is a string. *)
Definition update_data_of (user_update : UserUpdate) : gmap string value :=
  drop_none (UserUpdate_dict user_update).

(** [PUT /users/me/] *)
Definition update_user_me (salt : string) (user_update : UserUpdate)
    (current_user : UserInDB) : M UserBase :=
  (let update_data := update_data_of user_update in
   (if dict_truthy update_data
    then
      (match update_data !! "email" with
       | Some (VStr e) =>
           if negb (bool_decide (VStr e = of_opt_str (email current_user)))
           then (existing_email <- UserRepository.get_user_by_email e ;;
                 if UserRepository.found existing_email
                 then raise (HTTPException 400 "Email already registered")
                 else ret ())
           else ret ()
       | _ => ret ()
       end) ;;;
      success <- UserRepository.update_user salt (username current_user)
                   update_data ;;
      if negb success
      then raise (HTTPException 500 "Failed to update user")
      else ret ()
    else ret ()) ;;;
   updated_user <- get_user (username current_user) ;;
   respond_UserInDB updated_user)%st.

(** [PUT /admin/users/{username}] *)
Definition admin_update_user (salt : string) (username : string)
    (user_update : UserUpdate) (current_user : UserInDB) : M UserBase :=
  (found_data <- UserRepository.get_user_by_username username ;;
   match found_data with
   | None => raise (HTTPException 404 "User not found")
   | Some user_data =>
       if negb (dict_truthy user_data)
       then raise (HTTPException 404 "User not found")
       else
         let update_data := update_data_of user_update in
         (if dict_truthy update_data
          then
            (match update_data !! "email" with
             | Some (VStr e) =>
                 match user_data !! "email" with
                 | None => raise (KeyError "email")
                 | Some stored =>
                     if negb (bool_decide (VStr e = stored))
                     then
                       (existing_email <- UserRepository.get_user_by_email e ;;
                        match existing_email with
                        | Some other =>
                            if dict_truthy other
                            then match other !! "username" with
                                 | None => raise (KeyError "username")
                                 | Some name =>
                                     if negb (bool_decide (name = VStr username))
                                     then raise (HTTPException 400
                                                   "Email already registered")
                                     else ret ()
                                 end
                            else ret ()
                        | None => ret ()
                        end)
                     else ret ()
                 end
             | _ => ret ()
             end) ;;;
            success <- UserRepository.update_user salt username update_data ;;
            if negb success
            then raise (HTTPException 500 "Failed to update user")
            else ret ()
          else ret ()) ;;;
         updated_user <- get_user username ;;
         respond_UserInDB updated_user
   end)%st.

(** [DELETE /admin/users/{username}], declared status 204 *)
Definition delete_user (username : string) (current_user : UserInDB)
    : M unit :=
  if bool_decide (username = AuthService.username current_user)
  then raise (HTTPException 400 "Cannot delete your own account")
  else
    (success <- UserRepository.delete_user username ;;
     if negb success
     then raise (HTTPException 404 "User not found")
     else ret ())%st.

(** *** Requests: the dependencies, then the handler *)

(** [Depends(get_current_active_user)] *)
Definition active_user_dependency (token : Jose.token) (now : Z) : M UserInDB :=
  (current_user <- get_current_user token now ;;
   lift (get_current_active_user current_user))%st.

(** [Depends(get_admin_user)] *)
Definition admin_user_dependency (token : Jose.token) (now : Z) : M UserInDB :=
  (current_user <- get_current_user token now ;;
   lift (get_admin_user current_user))%st.

Definition request_update_user_me (token : Jose.token) (now : Z)
    (salt : string) (user_update : UserUpdate) : M UserBase :=
  (current_user <- active_user_dependency token now ;;
   update_user_me salt user_update current_user)%st.

Definition request_admin_update_user (token : Jose.token) (now : Z)
    (salt : string) (username : string) (user_update : UserUpdate)
    : M UserBase :=
  (current_user <- admin_user_dependency token now ;;
   admin_update_user salt username user_update current_user)%st.

Definition request_delete_user (token : Jose.token) (now : Z)
    (username : string) : M unit :=
  (current_user <- admin_user_dependency token now ;;
   delete_user username current_user)%st.

(** [GET /users/me/] *)
Definition read_users_me (current_user : UserInDB) : M UserBase :=
  ret (indb_base current_user).

(** [GET /admin/users/{username}] *)
Definition get_user_by_username (username : string)
    (current_user : UserInDB) : M UserBase :=
  (user_data <- UserRepository.get_user_by_username username ;;
   match user_data with
   | Some d =>
       if negb (dict_truthy d)
       then raise (HTTPException 404 "User not found")
       else respond_User d
   | None => raise (HTTPException 404 "User not found")
   end)%st.

Definition request_read_users_me (token : Jose.token) (now : Z)
    : M UserBase :=
  (current_user <- active_user_dependency token now ;;
   read_users_me current_user)%st.

Definition request_get_user_by_username (token : Jose.token) (now : Z)
    (username : string) : M UserBase :=
  (current_user <- admin_user_dependency token now ;;
   get_user_by_username username current_user)%st.

End Service.

End AuthService.

(** ** info_service/main.py *)

Module InfoService.

Definition SECRET_KEY : string := "YOUR_SECRET_KEY_HERE".
Definition ALGORITHM : Jose.algorithm := Jose.HS256.

Definition credentials_exception : exn :=
  HTTPException 401 "Could not validate credentials".

(** [{"username": username, "role": payload.get("role", "user")}] *)
Definition identity (username role : value) : gmap string value :=
  <["username" := username]> (<["role" := role]> ∅).

(** Both [raise credentials_exception] and a [JWTError] end as the
    credentials exception. *)
Definition get_current_user (token : Jose.token) (now : Z)
    : result (gmap string value) :=
  match Jose.decode token SECRET_KEY [ALGORITHM] now with
  | Raise JWTError => Raise credentials_exception
  | Raise e => Raise e
  | Ok payload =>
      let username := Py.get payload "sub" VNone in
      if bool_decide (username = VNone) then Raise credentials_exception
      else Ok (identity username (Py.get payload "role" (VStr "user")))
  end.

Definition get_admin_user (current_user : gmap string value)
    : result (gmap string value) :=
  if negb (bool_decide (Py.get current_user "role" VNone = VStr "admin"))
  then Raise (HTTPException 403 "Not enough permissions")
  else Ok current_user.

(** [Depends(get_admin_user)] *)
Definition admin_user_dependency (token : Jose.token) (now : Z)
    : result (gmap string value) :=
  (current_user <- get_current_user token now ;; get_admin_user current_user)%py.

End InfoService.

(** ** user_service/main.py *)

Module UserService.

Definition SECRET_KEY : string := "YOUR_SECRET_KEY_HERE".
Definition ALGORITHM : Jose.algorithm := Jose.HS256.

Definition credentials_exception : exn :=
  HTTPException 401 "Could not validate credentials".

(** What [requests.get] on the auth service's [/verify-token] did: raised,
    or answered with a status code and a JSON body. *)
Inductive remote :=
| Unreachable
| Answered (status_code : Z) (json : gmap string value).

(** The [except Exception] branch: the token is decoded locally. *)
Definition fallback (token : Jose.token) (now : Z)
    : result (gmap string value) :=
  match Jose.decode token SECRET_KEY [ALGORITHM] now with
  | Raise JWTError => Raise credentials_exception
  | Raise e => Raise e
  | Ok payload =>
      let username := Py.get payload "sub" VNone in
      if bool_decide (username = VNone) then Raise credentials_exception
      else Ok (InfoService.identity username
                 (Py.get payload "role" (VStr "user")))
  end.

(** The outer [try] returns the remote answer on status 200; its
    [except Exception] catches everything else, the credentials exception
    raised on another status included. *)
Definition get_current_user (verify_token : remote) (token : Jose.token)
    (now : Z) : result (gmap string value) :=
  match verify_token with
  | Answered status_code json =>
      if bool_decide (status_code ≠ 200) then fallback token now
      else Ok json
  | Unreachable => fallback token now
  end.

Definition get_admin_user (current_user : gmap string value)
    : result (gmap string value) :=
  if negb (bool_decide (Py.get current_user "role" VNone = VStr "admin"))
  then Raise (HTTPException 403 "Not enough permissions")
  else Ok current_user.

End UserService.

(** ** Python dictionaries whose order matters

    A [dict] with string keys as the list of its items in insertion order
    (keys occur once). *)

Module PyDict.

Section Dict.
Context {V : Type}.

(** [d.get(k)], [k in d] *)
Fixpoint get (k : string) (d : list (string * V)) : option V :=
  match d with
  | [] => None
  | (k', v) :: d' => if bool_decide (k' = k) then Some v else get k d'
  end.

(** [d[k] = v]: a key that is there keeps its place, a new key goes last *)
Fixpoint set (k : string) (v : V) (d : list (string * V))
    : list (string * V) :=
  match d with
  | [] => [(k, v)]
  | (k', v') :: d' =>
      if bool_decide (k' = k) then (k, v) :: d' else (k', v') :: set k v d'
  end.

(** [del d[k]] *)
Definition del (k : string) (d : list (string * V)) : list (string * V) :=
  filter (λ kv, kv.1 ≠ k) d.

(** [list(d.values())] *)
Definition values (d : list (string * V)) : list V := d.*2.

End Dict.

(** [l[start:stop]] on a list, with Python's treatment of negative and
    oversized bounds *)
Definition clamp_index (i len : Z) : Z :=
  if i <? 0 then Z.max (i + len) 0 else Z.min i len.

Definition slice {A} (l : list A) (start stop : Z) : list A :=
  let len := Z.of_nat (length l) in
  let first := clamp_index start len in
  let last := clamp_index stop len in
  take (Z.to_nat (last - first)) (drop (Z.to_nat first) l).

End PyDict.

(** ** info_service/main.py: the content store and its routes

    [fake_content_db] maps an id to the dictionary of a content; the
    creation times of its two initial entries are the time the module was
    loaded.  A handler takes the database and gives it back. *)

Module InfoContent.

Record ContentCreate := {
  title : string;
  body : string;
  category : string
}.

(** A field of [ContentUpdate] is unset, or set to [None] or to a string;
    [dict(exclude_unset=True)] holds the fields that are set. *)
Record ContentUpdate := {
  upd_title : option (option string);
  upd_body : option (option string);
  upd_category : option (option string)
}.

Definition set_field (k : string) (field : option (option string))
    (d : gmap string value) : gmap string value :=
  match field with
  | Some v => <[k := of_opt_str v]> d
  | None => d
  end.

Definition ContentUpdate_dict (u : ContentUpdate) : gmap string value :=
  set_field "title" (upd_title u)
    (set_field "body" (upd_body u)
       (set_field "category" (upd_category u) ∅)).

(** [Content(...).dict()]; times are epoch seconds *)
Definition content_dict (id title body category : string)
    (created_at updated_at : Z) (created_by : string) : gmap string value :=
  <["id" := VStr id]>
  (<["title" := VStr title]>
  (<["body" := VStr body]>
  (<["category" := VStr category]>
  (<["created_at" := VInt created_at]>
  (<["updated_at" := VInt updated_at]>
  (<["created_by" := VStr created_by]> ∅)))))).

Definition fake_content_db (loaded : Z)
    : list (string * gmap string value) :=
  [("1", content_dict "1" "Welcome to CESIzen"
           "CESIzen is an application dedicated to stress management and mental health."
           "general" loaded loaded "admin");
   ("2", content_dict "2" "Breathing Exercises"
           "Breathing exercises can help reduce stress and anxiety."
           "techniques" loaded loaded "admin")].

Definition datetime_required (d : gmap string value) (k : string)
    : result Z :=
  match d !! k with
  | Some (VInt t) => Ok t
  | _ => Raise ValidationError
  end.

(** [response_model=Content] applied to a returned dictionary *)
Definition Content_of (d : gmap string value)
    : result (gmap string value) :=
  (id <- AuthService.str_required d "id" ;;
   title <- AuthService.str_required d "title" ;;
   body <- AuthService.str_required d "body" ;;
   category <- AuthService.str_required d "category" ;;
   created_at <- datetime_required d "created_at" ;;
   updated_at <- datetime_required d "updated_at" ;;
   created_by <- AuthService.str_required d "created_by" ;;
   Ok (content_dict id title body category created_at updated_at
         created_by))%py.

(** [response_model=List[Content]] *)
Fixpoint Contents_of (l : list (gmap string value))
    : result (list (gmap string value)) :=
  match l with
  | [] => Ok []
  | d :: l' =>
      (c <- Content_of d ;; rest <- Contents_of l' ;; Ok (c :: rest))%py
  end.

(** [[c for c in content_list if c["category"] == category]] *)
Fixpoint of_category (category : string) (l : list (gmap string value))
    : result (list (gmap string value)) :=
  match l with
  | [] => Ok []
  | c :: l' =>
      match c !! "category" with
      | None => Raise (KeyError "category")
      | Some v =>
          (rest <- of_category category l' ;;
           Ok (if bool_decide (v = VStr category) then c :: rest else rest))%py
      end
  end.

(** [GET /content/] *)
Definition list_content (category : option string) (skip limit : Z)
    (db : list (string * gmap string value))
    : result (list (gmap string value)) :=
  let content_list := PyDict.values db in
  (content_list <-
     match category with
     | Some c =>
         if str_truthy c then of_category c content_list else Ok content_list
     | None => Ok content_list
     end ;;
   Contents_of (PyDict.slice content_list skip (skip + limit)))%py.

Definition not_found : exn := HTTPException 404 "Content not found".

(** [GET /content/{content_id}] *)
Definition get_content (content_id : string)
    (db : list (string * gmap string value)) : result (gmap string value) :=
  match PyDict.get content_id db with
  | None => Raise not_found
  | Some content => Content_of content
  end.

(** [POST /content/], declared status 201 *)
Definition create_content (content : ContentCreate)
    (current_user : gmap string value) (now : Z)
    (db : list (string * gmap string value))
    : result (gmap string value) * list (string * gmap string value) :=
  let content_id := pretty (length db + 1)%nat in
  match current_user !! "username" with
  | None => (Raise (KeyError "username"), db)
  | Some (VStr created_by) =>
      let content_data :=
        content_dict content_id (title content) (body content)
          (category content) now now created_by in
      (Ok content_data, PyDict.set content_id content_data db)
  | Some _ => (Raise ValidationError, db)
  end.

(** [PUT /content/{content_id}] *)
Definition update_content (content_id : string)
    (content_update : ContentUpdate) (now : Z)
    (db : list (string * gmap string value))
    : result (gmap string value) * list (string * gmap string value) :=
  match PyDict.get content_id db with
  | None => (Raise not_found, db)
  | Some content_data =>
      let update_data := ContentUpdate_dict content_update in
      let content_data := update_data ∪ content_data in
      let content_data := <["updated_at" := VInt now]> content_data in
      (Content_of content_data, PyDict.set content_id content_data db)
  end.

(** [DELETE /content/{content_id}], declared status 204 *)
Definition delete_content (content_id : string)
    (db : list (string * gmap string value))
    : result unit * list (string * gmap string value) :=
  match PyDict.get content_id db with
  | None => (Raise not_found, db)
  | Some _ => (Ok (), PyDict.del content_id db)
  end.

(** *** Requests: the dependency, then the handler *)

Definition request_list_content (token : Jose.token) (now : Z)
    (category : option string) (skip limit : Z)
    (db : list (string * gmap string value))
    : result (list (gmap string value)) :=
  (InfoService.get_current_user token now ;;;
   list_content category skip limit db)%py.

Definition request_get_content (token : Jose.token) (now : Z)
    (content_id : string) (db : list (string * gmap string value))
    : result (gmap string value) :=
  (InfoService.get_current_user token now ;;; get_content content_id db)%py.

Definition request_create_content (token : Jose.token) (now : Z)
    (content : ContentCreate) (db : list (string * gmap string value))
    : result (gmap string value) * list (string * gmap string value) :=
  match InfoService.admin_user_dependency token now with
  | Ok current_user => create_content content current_user now db
  | Raise e => (Raise e, db)
  end.

Definition request_update_content (token : Jose.token) (now : Z)
    (content_id : string) (content_update : ContentUpdate)
    (db : list (string * gmap string value))
    : result (gmap string value) * list (string * gmap string value) :=
  match InfoService.admin_user_dependency token now with
  | Ok _ => update_content content_id content_update now db
  | Raise e => (Raise e, db)
  end.

Definition request_delete_content (token : Jose.token) (now : Z)
    (content_id : string) (db : list (string * gmap string value))
    : result unit * list (string * gmap string value) :=
  match InfoService.admin_user_dependency token now with
  | Ok _ => delete_content content_id db
  | Raise e => (Raise e, db)
  end.

End InfoContent.

(** ** user_service/main.py: the user store and its routes

    [fake_users_db] maps a username to a [User] object.  The outcome of
    the call to the auth service's [/register] is an argument, and so is
    what [str] makes of the exception caught. *)

Module UserAccounts.

Record UserCreate := {
  username : string;
  email : string;
  full_name : string;
  password : string
}.

(** A field of [UserUpdate] is unset, or set to [None] or to a value. *)
Record UserUpdate := {
  upd_email : option (option string);
  upd_full_name : option (option string);
  upd_disabled : option (option bool)
}.

(** A stored [User]; [setattr] does not validate, so the fields an update
    can set hold any value it sent. *)
Record User := {
  id : string;
  user_name : string;
  user_email : value;
  user_full_name : value;
  disabled : value;
  created_at : Z;
  updated_at : Z
}.

#[global] Instance User_eq_dec : EqDecision User.
Proof. solve_decision. Defined.

(** [response_model=User] applied to what a handler returns: a [User]
    instance is an instance of the response model and is taken as it is,
    without a second validation (pydantic 2, which the services are
    written for), whatever [setattr] has put into its fields. *)
Definition respond_User (u : User) : result User := Ok u.

Section Routes.
Variable str_of_exception : UserService.remote → string.

(** [POST /users/], declared status 201.  The [HTTPException] raised on
    a status other than 201 is raised inside the [try] and caught by its
    [except Exception]. *)
Definition create_user (user : UserCreate) (register : UserService.remote)
    (now : Z) (db : list (string * User))
    : result User * list (string * User) :=
  match PyDict.get (username user) db with
  | Some _ => (Raise (HTTPException 400 "Username already registered"), db)
  | None =>
      let failed :=
        HTTPException 500
          ("Error communicating with auth service: "
             +:+ str_of_exception register) in
      match register with
      | UserService.Unreachable => (Raise failed, db)
      | UserService.Answered status_code _ =>
          if bool_decide (status_code ≠ 201) then (Raise failed, db)
          else
            let user_id := pretty (length db + 1)%nat in
            let user_data :=
              {| id := user_id;
                 user_name := username user;
                 user_email := VStr (email user);
                 user_full_name := VStr (full_name user);
                 disabled := VBool false;
                 created_at := now;
                 updated_at := now |} in
            (Ok user_data, PyDict.set (username user) user_data db)
      end
  end.

Definition not_found : exn := HTTPException 404 "User not found".

(** [GET /users/me] *)
Definition read_users_me (current_user : gmap string value)
    (db : list (string * User)) : result User :=
  match current_user !! "username" with
  | None => Raise (KeyError "username")
  | Some (VStr name) =>
      match PyDict.get name db with
      | None => Raise not_found
      | Some u => respond_User u
      end
  | Some _ => Raise not_found
  end.

(** [setattr(user_data, field, value)] for the fields that were set *)
Definition apply_update (user_update : UserUpdate) (u : User) : User :=
  {| id := id u;
     user_name := user_name u;
     user_email :=
       match upd_email user_update with
       | Some v => of_opt_str v
       | None => user_email u
       end;
     user_full_name :=
       match upd_full_name user_update with
       | Some v => of_opt_str v
       | None => user_full_name u
       end;
     disabled :=
       match upd_disabled user_update with
       | Some v => of_opt_bool v
       | None => disabled u
       end;
     created_at := created_at u;
     updated_at := updated_at u |}.

Definition touch (now : Z) (u : User) : User :=
  {| id := id u;
     user_name := user_name u;
     user_email := user_email u;
     user_full_name := user_full_name u;
     disabled := disabled u;
     created_at := created_at u;
     updated_at := now |}.

(** [PUT /users/me] *)
Definition update_user_me (user_update : UserUpdate)
    (current_user : gmap string value) (now : Z) (db : list (string * User))
    : result User * list (string * User) :=
  match current_user !! "username" with
  | None => (Raise (KeyError "username"), db)
  | Some (VStr name) =>
      match PyDict.get name db with
      | None => (Raise not_found, db)
      | Some user_data =>
          let user_data := touch now (apply_update user_update user_data) in
          (respond_User user_data, PyDict.set name user_data db)
      end
  | Some _ => (Raise not_found, db)
  end.

End Routes.

(** [response_model=List[User]] *)
Fixpoint respond_Users (l : list User) : result (list User) :=
  match l with
  | [] => Ok []
  | u :: l' =>
      (v <- respond_User u ;; rest <- respond_Users l' ;; Ok (v :: rest))%py
  end.

(** [GET /users/] *)
Definition read_users (db : list (string * User)) : result (list User) :=
  respond_Users (PyDict.values db).

(** *** Requests: the dependency, then the handler *)

Definition request_read_users_me (verify_token : UserService.remote)
    (token : Jose.token) (now : Z) (db : list (string * User))
    : result User :=
  (current_user <- UserService.get_current_user verify_token token now ;;
   read_users_me current_user db)%py.

Definition request_update_user_me (verify_token : UserService.remote)
    (token : Jose.token) (user_update : UserUpdate) (now : Z)
    (db : list (string * User)) : result User * list (string * User) :=
  match UserService.get_current_user verify_token token now with
  | Raise e => (Raise e, db)
  | Ok current_user => update_user_me user_update current_user now db
  end.

Definition request_read_users (verify_token : UserService.remote)
    (token : Jose.token) (now : Z) (db : list (string * User))
    : result (list User) :=
  (current_user <- UserService.get_current_user verify_token token now ;;
   UserService.get_admin_user current_user ;;;
   read_users db)%py.

(** One request that may write to the store, with any arguments. *)
Inductive step : list (string * User) → list (string * User) → Prop :=
| step_create_user describe user register now db :
    step db (create_user describe user register now db).2
| step_update_user_me user_update current_user now db :
    step db (update_user_me user_update current_user now db).2.

End UserAccounts.

(** ** The connection singleton (database/mongodb.py)

    The class attributes of [MongoDB] are the state; clients and instances
    are named by the order of their construction. *)

Module MongoDB.

Record class_state := {
  _instance : option nat;
  _client : option nat;
  (** the client the database handle was taken from *)
  _db : option nat;
  (** instances allocated, and [MongoClient(MONGO_URI)] calls, so far *)
  allocated : nat;
  constructed : nat;
  (** the clients whose [close()] was called *)
  closed : list nat
}.

#[global] Instance class_state_eq_dec : EqDecision class_state.
Proof. solve_decision. Defined.

(** the class as its body leaves it *)
Definition declared : class_state :=
  {| _instance := None; _client := None; _db := None;
     allocated := 0; constructed := 0; closed := [] |}.

(** [MongoDB()]: [__new__], giving the instance *)
Definition new (cls : class_state) : nat * class_state :=
  match _instance cls with
  | None =>
      let instance := allocated cls in
      let client := constructed cls in
      (instance,
       {| _instance := Some instance;
          _client := Some client;
          _db := Some client;
          allocated := S (allocated cls);
          constructed := S (constructed cls);
          closed := closed cls |})
  | Some instance => (instance, cls)
  end.

(** the properties [client] and [db] read the class attributes *)
Definition client (cls : class_state) : option nat := _client cls.
Definition db (cls : class_state) : option nat := _db cls.

(** [get_collection(name)]: the collection of the current database handle;
    subscripting [None] raises *)
Definition get_collection (collection_name : string) (cls : class_state)
    : option (nat * string) :=
  match _db cls with
  | Some d => Some (d, collection_name)
  | None => None
  end.

(** [close()], on any instance: the attributes are the class's *)
Definition close (cls : class_state) : class_state :=
  match _client cls with
  | Some c =>
      {| _instance := None; _client := None; _db := None;
         allocated := allocated cls;
         constructed := constructed cls;
         closed := c :: closed cls |}
  | None => cls
  end.

Inductive step : class_state → class_state → Prop :=
| step_new cls : step cls (new cls).2
| step_close cls : step cls (close cls).

End MongoDB.

(** ** Values used to run the definitions on concrete inputs *)

(** A stand-in for the bcrypt context: the "hash" writes salt and secret
    side by side and is checked by hashing again under each salt in use.
    The properties below are proved for every context; this one only
    serves to evaluate them. *)
Definition demo_hash (salt plain : string) : string :=
  "$2b$" +:+ salt +:+ "$" +:+ plain.

Definition demo_context : CryptContext :=
  {| pwd_hash := demo_hash;
     pwd_verify := λ plain hashed,
       existsb (λ salt, bool_decide (hashed = demo_hash salt plain))
               ["s0"; "s1"; "s2"; "s3"] |}.

(** The collection after the start-up of the auth service on an empty
    database, under the default configuration. *)
Definition started : Mongo.collection :=
  (AuthService.startup_db_client (pwd_context := demo_context)
     AuthService.default_config "s0" Mongo.empty).2.

Definition registration (name : string) (mail : option string)
    (full : option string) (role secret : string) : AuthService.UserCreate :=
  {| AuthService.create_base :=
       {| AuthService.username := name;
          AuthService.email := mail;
          AuthService.full_name := full;
          AuthService.disabled := Some false;
          AuthService.role := role |};
     AuthService.password := secret |}.

(** ... and after the registration of [bob], an ordinary user. *)
Definition with_bob : Mongo.collection :=
  (AuthService.create_user (pwd_context := demo_context) "s1"
     (registration "bob" (Some "bob@example.com") (Some "Bob") "user" "pw123")
     started).2.

(** The document that registration stored. *)
Definition bob_document : gmap string value :=
  <["_id" := VOid 1]>
  (<["username" := VStr "bob"]>
  (<["email" := VStr "bob@example.com"]>
  (<["full_name" := VStr "Bob"]>
  (<["disabled" := VBool false]>
  (<["role" := VStr "user"]>
  (<["hashed_password" := VStr (demo_hash "s1" "pw123")]> ∅)))))).

(** An update that names one field. *)
Definition rename_to (full : string) : AuthService.UserUpdate :=
  {| AuthService.upd_email := None;
     AuthService.upd_full_name := Some full;
     AuthService.upd_password := None;
     AuthService.upd_disabled := None;
     AuthService.upd_role := None |}.

(** The users that start-up and that registration stored. *)
Definition admin_user : AuthService.UserInDB :=
  {| AuthService.indb_base :=
       {| AuthService.username := "admin";
          AuthService.email := Some "admin@example.com";
          AuthService.full_name := Some "Admin User";
          AuthService.disabled := Some false;
          AuthService.role := "admin" |};
     AuthService.hashed_password := demo_hash "s0" "admin" |}.

Definition bob_user : AuthService.UserInDB :=
  {| AuthService.indb_base :=
       {| AuthService.username := "bob";
          AuthService.email := Some "bob@example.com";
          AuthService.full_name := Some "Bob";
          AuthService.disabled := Some false;
          AuthService.role := "user" |};
     AuthService.hashed_password := demo_hash "s1" "pw123" |}.

(** The tokens their logins at time 0 return (thirty minutes to live). *)
Definition admin_token : Jose.token :=
  AuthService.create_access_token AuthService.default_config
    (AuthService.subject_claims "admin" "admin") (Some 1800) 0.

Definition bob_token : Jose.token :=
  AuthService.create_access_token AuthService.default_config
    (AuthService.subject_claims "bob" "user") (Some 1800) 0.

(** An update that names the role only. *)
Definition set_role (role : string) : AuthService.UserUpdate :=
  {| AuthService.upd_email := None;
     AuthService.upd_full_name := None;
     AuthService.upd_password := None;
     AuthService.upd_disabled := None;
     AuthService.upd_role := Some role |}.

(** The collection after the admin has made [bob] an admin. *)
Definition bob_promoted : Mongo.collection :=
  (AuthService.request_admin_update_user (pwd_context := demo_context)
     AuthService.default_config admin_token 5 "s2" "bob" (set_role "admin")
     with_bob).2.

(** ... and after two further registrations that give no e-mail address:
    [erin]'s, and then [frank]'s. *)
Definition erin : AuthService.UserCreate :=
  registration "erin" None (Some "Erin") "user" "pw456".

Definition frank : AuthService.UserCreate :=
  registration "frank" None (Some "Frank") "user" "pw789".

Definition with_erin : Mongo.collection :=
  (AuthService.create_user (pwd_context := demo_context) "s2" erin
     with_bob).2.

(** ** Store states and the invariant on them *)

(** No document holds a plaintext secret. *)
Definition no_plaintext (c : Mongo.collection) : Prop :=
  Forall (λ d : gmap string value, d !! "password" = None) (Mongo.docs c).

(** One call of a repository method that may write, with any arguments;
    the repository is the only code that writes to the collection. *)
Inductive repository_step `{pwd_context : CryptContext}
    : Mongo.collection → Mongo.collection → Prop :=
| step_create_user salt user_data c :
    repository_step c (UserRepository.create_user salt user_data c).2
| step_update_user salt username user_data c :
    repository_step c (UserRepository.update_user salt username user_data c).2
| step_delete_user username c :
    repository_step c (UserRepository.delete_user username c).2
| step_create_index c :
    repository_step c (UserRepository.create_index c).2
| step_init_admin_user salt admin_username admin_password admin_email c :
    repository_step c
      (UserRepository.init_admin_user salt admin_username admin_password
         admin_email c).2.

(** The states a process can reach from the empty collection. *)
Definition reachable `{pwd_context : CryptContext} (c : Mongo.collection)
    : Prop :=
  rtc repository_step Mongo.empty c.

(** An update that disables the account. *)
Definition disable : AuthService.UserUpdate :=
  {| AuthService.upd_email := None;
     AuthService.upd_full_name := None;
     AuthService.upd_password := None;
     AuthService.upd_disabled := Some true;
     AuthService.upd_role := None |}.

(** The collection after the admin has disabled [bob], and [bob] as he is
    stored then. *)
Definition bob_disabled : Mongo.collection :=
  (AuthService.request_admin_update_user (pwd_context := demo_context)
     AuthService.default_config admin_token 5 "s2" "bob" disable
     with_bob).2.

Definition bob_user_disabled : AuthService.UserInDB :=
  {| AuthService.indb_base :=
       {| AuthService.username := "bob";
          AuthService.email := Some "bob@example.com";
          AuthService.full_name := Some "Bob";
          AuthService.disabled := Some true;
          AuthService.role := "user" |};
     AuthService.hashed_password := demo_hash "s1" "pw123" |}.

(** The collection after the admin has deleted [bob]. *)
Definition bob_deleted : Mongo.collection :=
  (AuthService.delete_user "bob" admin_user with_bob).2.

(** A stored user under another role. *)
Definition with_role (new_role : string) (u : AuthService.UserInDB)
    : AuthService.UserInDB :=
  {| AuthService.indb_base :=
       {| AuthService.username :=
            AuthService.username (AuthService.indb_base u);
          AuthService.email := AuthService.email (AuthService.indb_base u);
          AuthService.full_name :=
            AuthService.full_name (AuthService.indb_base u);
          AuthService.disabled :=
            AuthService.disabled (AuthService.indb_base u);
          AuthService.role := new_role |};
     AuthService.hashed_password := AuthService.hashed_password u |}.

(** The content store as loaded at time 0, and after its first entry has
    been deleted; what the admin then posts. *)
Definition contents_loaded : list (string * gmap string value) :=
  InfoContent.fake_content_db 0.

Definition contents_after_delete : list (string * gmap string value) :=
  (InfoContent.delete_content "1" contents_loaded).2.

Definition a_post : InfoContent.ContentCreate :=
  {| InfoContent.title := "Sleep";
     InfoContent.body := "Sleep helps.";
     InfoContent.category := "general" |}.

Definition admin_identity : gmap string value :=
  InfoService.identity (VStr "admin") (VStr "admin").

Definition welcome : gmap string value :=
  InfoContent.content_dict "1" "Welcome to CESIzen"
    "CESIzen is an application dedicated to stress management and mental health."
    "general" 0 0 "admin".

(** An update that clears the title, and one that changes the category. *)
Definition clear_title : InfoContent.ContentUpdate :=
  {| InfoContent.upd_title := Some None;
     InfoContent.upd_body := None;
     InfoContent.upd_category := None |}.

Definition recategorise (category : string) : InfoContent.ContentUpdate :=
  {| InfoContent.upd_title := None;
     InfoContent.upd_body := None;
     InfoContent.upd_category := Some (Some category) |}.

(** The token was signed with this key under this algorithm. *)
(** A claim set with none of the claims that [jwt.decode] checks besides
    [exp] and [sub]. *)
Definition plain_claims (claims : gmap string value) : Prop :=
  claims !! "iat" = None ∧ claims !! "nbf" = None ∧ claims !! "aud" = None
  ∧ claims !! "jti" = None ∧ claims !! "at_hash" = None.


Definition signed_with (key : string) (alg : Jose.algorithm)
    (t : Jose.token) : bool :=
  match t with
  | Jose.JWS a _ k => bool_decide (a = alg) && bool_decide (k = key)
  | Jose.Garbled _ => false
  end.

(** Every unique index of the collection holds: no two documents share the
    key of an indexed field. *)
Definition unique_ok (c : Mongo.collection) : Prop :=
  ∀ f, f ∈ Mongo.unique c → NoDup (Mongo.key_of f <$> Mongo.docs c).

(** A registration sent to the user service, and what [str] makes of
    the exception of a failed call to the auth service. *)
Definition carol : UserAccounts.UserCreate :=
  {| UserAccounts.username := "carol";
     UserAccounts.email := "carol@example.com";
     UserAccounts.full_name := "Carol";
     UserAccounts.password := "pw-carol" |}.

Definition describe (register : UserService.remote) : string :=
  match register with
  | UserService.Unreachable => "connection refused"
  | UserService.Answered _ _ => "Error creating user in auth service"
  end.

Definition accounts_with_carol : list (string * UserAccounts.User) :=
  (UserAccounts.create_user describe carol (UserService.Answered 201 ∅) 50
     []).2.

Definition carol_identity : gmap string value :=
  InfoService.identity (VStr "carol") (VStr "user").

Definition clear_email : UserAccounts.UserUpdate :=
  {| UserAccounts.upd_email := Some None;
     UserAccounts.upd_full_name := None;
     UserAccounts.upd_disabled := None |}.

(** The singleton after the module was loaded, and after the shutdown
    event and one more [MongoDB()]. *)
Definition loaded : MongoDB.class_state := (MongoDB.new MongoDB.declared).2.

Definition reopened : MongoDB.class_state :=
  (MongoDB.new (MongoDB.close loaded)).2.

(** In the user service the entries carry their position as id and their key as name, and no
    key occurs twice *)
Definition numbered (db : list (string * UserAccounts.User)) : Prop :=
  NoDup db.*1
  ∧ ∀ i k u,
      db !! i = Some (k, u) →
      UserAccounts.id u = pretty (S i) ∧ UserAccounts.user_name u = k.

(** What holds of the class attributes and the clients after any calls *)
Definition accounted (cls : MongoDB.class_state) : Prop :=
  MongoDB._db cls = MongoDB._client cls
  ∧ (MongoDB._instance cls = None ↔ MongoDB._client cls = None)
  ∧ (∀ c, MongoDB._client cls = Some c →
          (c < MongoDB.constructed cls)%nat ∧ c ∉ MongoDB.closed cls)
  ∧ (∀ c, (c < MongoDB.constructed cls)%nat →
          c ∈ MongoDB.closed cls ∨ MongoDB._client cls = Some c)
  ∧ (∀ c, c ∈ MongoDB.closed cls → (c < MongoDB.constructed cls)%nat)
  ∧ NoDup (MongoDB.closed cls).

(** * Properties *)

Import AuthService.

Ltac run_st :=
  unfold mbind_st, ret, raise, lift in *; simpl in *.

(** Closed decidable goals are settled by evaluation. *)
Ltac by_evaluation :=
  match goal with
  | |- ?P => apply (bool_decide_unpack P); vm_compute; exact I
  end.

(** ** The collection *)

Lemma split_first_find p l :
  match Mongo.split_first p l with
  | Some (pre, d, post) =>
      l = pre ++ d :: post ∧ p d = true ∧ List.find p l = Some d
  | None => List.find p l = None
  end.
Proof.
  induction l as [| x l IH]; simpl; [done |].
  destruct (p x) eqn:Hx; [done |].
  destruct (Mongo.split_first p l) as [[[pre d] post] |]; [| done].
  destruct IH as (-> & Hd & Hfind). done.
Qed.

Lemma find_split_first p l d :
  List.find p l = Some d →
  ∃ pre post, Mongo.split_first p l = Some (pre, d, post)
              ∧ l = pre ++ d :: post.
Proof.
  intros Hfind. pose proof (split_first_find p l) as H.
  destruct (Mongo.split_first p l) as [[[pre d'] post] |].
  - destruct H as (Hl & _ & Hfind'). rewrite Hfind in Hfind'.
    injection Hfind' as <-. by exists pre, post.
  - congruence.
Qed.

Lemma find_none_split_first p l :
  List.find p l = None → Mongo.split_first p l = None.
Proof.
  intros Hfind. pose proof (split_first_find p l) as H.
  destruct (Mongo.split_first p l) as [[[pre d'] post] |]; [| done].
  destruct H as (_ & _ & Hfind'). congruence.
Qed.

Lemma find_one_matches field v c d :
  Mongo.find_one field v c = Some d →
  d ∈ Mongo.docs c ∧ Mongo.key_of field d = v.
Proof.
  unfold Mongo.find_one. intros Hfind.
  apply List.find_some in Hfind as [Hin Hm].
  split; [by apply list_elem_of_In |].
  unfold Mongo.matches in Hm. by apply bool_decide_eq_true_1 in Hm.
Qed.

Lemma key_of_string field d s :
  Mongo.key_of field d = VStr s ↔ d !! field = Some (VStr s).
Proof.
  unfold Mongo.key_of. destruct (d !! field) as [v |]; simpl; split;
    congruence.
Qed.

(** A document found under a string key is a non-empty dictionary. *)
Lemma find_one_truthy field s c d :
  Mongo.find_one field (VStr s) c = Some d → dict_truthy d = true.
Proof.
  intros Hfind. apply find_one_matches in Hfind as [_ Hkey].
  apply key_of_string in Hkey.
  unfold dict_truthy. rewrite bool_decide_eq_false_2; [done |].
  intros ->. by rewrite lookup_empty in Hkey.
Qed.

(** ** Updates that change nothing *)

Section Updates.
Context `{pwd_context : CryptContext}.

Lemma update_one_unchanged field v (fields : gmap string value) c d :
  Mongo.find_one field v c = Some d → fields ⊆ d →
  Mongo.update_one field v fields c = (Ok 0, c).
Proof.
  intros Hfind Hsub. apply find_split_first in Hfind as (pre & post & Hsp & _).
  unfold Mongo.update_one. rewrite Hsp, (map_subseteq_union _ _ Hsub).
  by rewrite bool_decide_eq_true_2.
Qed.

Lemma hash_password_field_absent salt (user_data : gmap string value) :
  user_data !! "password" = None →
  UserRepository.hash_password_field salt user_data = Ok user_data.
Proof. intros H. unfold UserRepository.hash_password_field. by rewrite H. Qed.

Lemma update_user_unchanged salt name (fields : gmap string value) c d :
  Mongo.find_one "username" (VStr name) c = Some d →
  d !! "password" = None → fields ⊆ d →
  UserRepository.update_user salt name fields c = (Ok false, c).
Proof.
  intros Hfind Hpw Hsub. unfold UserRepository.update_user. run_st.
  rewrite hash_password_field_absent.
  - by rewrite (update_one_unchanged _ _ _ _ _ Hfind Hsub).
  - destruct (fields !! "password") as [v |] eqn:Hf; [| done].
    apply (lookup_weaken _ _ _ _ Hf) in Hsub. by rewrite Hpw in Hsub.
Qed.

Lemma str_optional_string d k s :
  d !! k = Some (VStr s) → AuthService.str_optional d k = Ok (Some s).
Proof. intros H. unfold AuthService.str_optional. by rewrite H. Qed.

(** What the stored document says about the parsed user. *)
Lemma UserInDB_of_username d u :
  AuthService.UserInDB_of d = Ok u →
  d !! "username" = Some (VStr (AuthService.username u)).
Proof.
  unfold AuthService.UserInDB_of, AuthService.UserBase_of,
    AuthService.str_required.
  destruct (d !! "username") as [[| | | s |] |]; simpl; try done.
  destruct (AuthService.str_optional d "email"); simpl; [| done].
  destruct (AuthService.str_optional d "full_name"); simpl; [| done].
  destruct (AuthService.bool_optional d "disabled" _); simpl; [| done].
  destruct (AuthService.str_default d "role" _); simpl; [| done].
  destruct (d !! "hashed_password") as [[| | | h |] |]; simpl; try done.
  by intros [= <-].
Qed.

Lemma UserInDB_of_email d u e :
  AuthService.UserInDB_of d = Ok u → d !! "email" = Some (VStr e) →
  AuthService.email u = Some e.
Proof.
  intros Hu He. unfold AuthService.UserInDB_of, AuthService.UserBase_of in Hu.
  rewrite (str_optional_string _ _ _ He) in Hu.
  destruct (AuthService.str_required d "username"); simpl in Hu; [| done].
  destruct (AuthService.str_optional d "full_name"); simpl in Hu; [| done].
  destruct (AuthService.bool_optional d "disabled" _); simpl in Hu; [| done].
  destruct (AuthService.str_default d "role" _); simpl in Hu; [| done].
  destruct (AuthService.str_required d "hashed_password"); simpl in Hu;
    [| done].
  by injection Hu as <-.
Qed.

(** C10.  An update of an existing record with a non-empty set of fields
    that all carry the values already stored matches the record and
    modifies nothing: [update_user] returns false, and both update
    endpoints answer with the internal failure (HTTP 500), the store being
    left as it was. *)
Theorem unchanged_update_reported_as_failure
    salt name (user_update : AuthService.UserUpdate) doc c :
  Mongo.find_one "username" (VStr name) c = Some doc →
  doc !! "password" = None →
  AuthService.update_data_of user_update ≠ ∅ →
  AuthService.update_data_of user_update ⊆ doc →
  let failure := HTTPException 500 "Failed to update user" in
  UserRepository.update_user salt name
    (AuthService.update_data_of user_update) c = (Ok false, c)
  ∧ (∀ current_user,
       AuthService.UserInDB_of doc = Ok current_user →
       AuthService.update_user_me salt user_update current_user c
       = (Raise failure, c))
  ∧ (∀ current_user,
       AuthService.admin_update_user salt name user_update current_user c
       = (Raise failure, c))
  ∧ http_status 200 (Raise (A:=AuthService.UserBase) failure) = 500.
Proof.
  intros Hfind Hpw Hne Hsub failure.
  assert (Htruthy : dict_truthy (AuthService.update_data_of user_update) = true).
  { unfold dict_truthy. by rewrite bool_decide_eq_false_2. }
  pose proof (update_user_unchanged salt name _ c doc Hfind Hpw Hsub) as Hupd.
  split; [exact Hupd |]. split; [| split; [| done]].
  - intros current_user Hparse.
    pose proof (UserInDB_of_username _ _ Hparse) as Hname.
    assert (AuthService.username current_user = name) as Heq.
    { apply find_one_matches in Hfind as [_ Hkey].
      apply key_of_string in Hkey. rewrite Hname in Hkey.
      by injection Hkey. }
    unfold AuthService.update_user_me. rewrite Htruthy, Heq. run_st.
    destruct (AuthService.update_data_of user_update !! "email")
      as [[| | | e |] |] eqn:Hemail; run_st; try by rewrite Hupd.
    apply (lookup_weaken _ _ _ _ Hemail) in Hsub.
    rewrite (UserInDB_of_email _ _ _ Hparse Hsub). simpl.
    rewrite bool_decide_eq_true_2 by done. simpl. by rewrite Hupd.
  - intros current_user. unfold AuthService.admin_update_user. run_st.
    unfold UserRepository.get_user_by_username. rewrite Hfind.
    rewrite (find_one_truthy _ _ _ _ Hfind), Htruthy. simpl.
    destruct (AuthService.update_data_of user_update !! "email")
      as [[| | | e |] |] eqn:Hemail; run_st; try by rewrite Hupd.
    apply (lookup_weaken _ _ _ _ Hemail) in Hsub. rewrite Hsub.
    rewrite bool_decide_eq_true_2 by done. simpl. by rewrite Hupd.
Qed.

End Updates.

Lemma unchanged_update_witness :
  Mongo.find_one "username" (VStr "bob") with_bob = Some bob_document
  ∧ AuthService.update_data_of (rename_to "Bob") ≠ ∅
  ∧ AuthService.update_data_of (rename_to "Bob") ⊆ bob_document
  ∧ UserRepository.update_user (pwd_context := demo_context) "s2" "bob"
      (AuthService.update_data_of (rename_to "Bob")) with_bob
    = (Ok false, with_bob).
Proof.
  assert (H1 : Mongo.find_one "username" (VStr "bob") with_bob
               = Some bob_document) by by_evaluation.
  assert (H2 : bob_document !! "password" = None) by by_evaluation.
  assert (H3 : AuthService.update_data_of (rename_to "Bob") ≠ ∅)
    by by_evaluation.
  assert (H4 : AuthService.update_data_of (rename_to "Bob") ⊆ bob_document).
  { assert (Hu : AuthService.update_data_of (rename_to "Bob") ∪ bob_document
                 = bob_document) by by_evaluation.
    rewrite <- Hu. apply map_union_subseteq_l. }
  split; [exact H1 |]. split; [exact H3 |]. split; [exact H4 |].
  exact (proj1 (unchanged_update_reported_as_failure
                  (pwd_context := demo_context) "s2" "bob"
                  (rename_to "Bob") bob_document with_bob H1 H2 H3 H4)).
Defined.

(** ** Tokens *)

Lemma get_Some (d : gmap string value) k dflt v :
  d !! k = Some v → Py.get d k dflt = v.
Proof. intros H. unfold Py.get. by rewrite H. Qed.


Lemma validate_exp_fresh claims exp now :
  claims !! "exp" = Some (VInt exp) → now ≤ exp →
  Jose.validate_exp claims now = Ok ().
Proof.
  intros Hexp Hle. unfold Jose.validate_exp. rewrite Hexp. simpl.
  destruct (Z.ltb_spec exp now); [lia | done].
Qed.

Lemma validate_exp_stale claims exp now :
  claims !! "exp" = Some (VInt exp) → exp < now →
  Jose.validate_exp claims now = Raise JWTError.
Proof.
  intros Hexp Hlt. unfold Jose.validate_exp. rewrite Hexp. simpl.
  destruct (Z.ltb_spec exp now); [done | lia].
Qed.

Lemma validate_sub_string claims sub :
  claims !! "sub" = Some (VStr sub) → Jose.validate_sub claims = Ok ().
Proof. intros Hsub. unfold Jose.validate_sub. by rewrite Hsub. Qed.

(** Of a plain claim set only [exp] and [sub] are looked at. *)
Lemma validate_claims_plain claims now :
  plain_claims claims →
  Jose.validate_claims claims now
  = (Jose.validate_exp claims now ;;; Jose.validate_sub claims)%py.
Proof.
  intros (Hiat & Hnbf & Haud & Hjti & Hhash).
  unfold Jose.validate_claims, Jose.validate_iat, Jose.validate_nbf,
    Jose.validate_aud, Jose.validate_jti, Jose.validate_at_hash.
  rewrite Hiat, Hnbf, Haud, Hjti, Hhash. simpl.
  destruct (Jose.validate_exp claims now) as [[] | e]; simpl; [| done].
  by destruct (Jose.validate_sub claims) as [[] | e].
Qed.

Lemma plain_subject_claims subject role :
  plain_claims (subject_claims subject role).
Proof.
  unfold plain_claims, subject_claims.
  split; [| split; [| split; [| split]]];
    by rewrite !lookup_insert_ne, lookup_empty.
Qed.

Lemma plain_with_exp claims v :
  plain_claims claims → plain_claims (<["exp" := v]> claims).
Proof.
  intros (Hiat & Hnbf & Haud & Hjti & Hhash). unfold plain_claims.
  by rewrite !lookup_insert_ne.
Qed.

(** A token decoded under the key and algorithm it was signed with. *)
Lemma decode_signed claims key alg now :
  Jose.decode (Jose.encode claims key alg) key [alg] now
  = (Jose.validate_claims claims now ;;; Ok claims)%py.
Proof.
  unfold Jose.encode, Jose.decode.
  rewrite (bool_decide_eq_true_2 (_ ∈ _)) by apply list_elem_of_here.
  by rewrite (bool_decide_eq_true_2 (_ = _)).
Qed.

Lemma decode_signed_by_clock claims key alg exp sub now :
  claims !! "exp" = Some (VInt exp) →
  claims !! "sub" = Some (VStr sub) →
  plain_claims claims →
  Jose.decode (Jose.encode claims key alg) key [alg] now
  = if exp <? now then Raise JWTError else Ok claims.
Proof.
  intros Hexp Hsub Hplain.
  rewrite decode_signed, (validate_claims_plain _ _ Hplain).
  destruct (Z.ltb_spec exp now) as [Hlt | Hle].
  - by rewrite (validate_exp_stale _ _ _ Hexp Hlt).
  - by rewrite (validate_exp_fresh _ _ _ Hexp Hle),
      (validate_sub_string _ _ Hsub).
Qed.

Section TokenFacts.
Variable cfg : AuthService.config.

(** What the auth service makes of one of its own tokens, by the clock. *)
Lemma current_token_data_own claims exp sub now :
  claims !! "exp" = Some (VInt exp) →
  claims !! "sub" = Some (VStr sub) →
  plain_claims claims →
  AuthService.current_token_data cfg
    (Jose.encode claims (SECRET_KEY cfg) (ALGORITHM cfg)) now
  = if exp <? now then Raise AuthService.credentials_exception
    else TokenData_of (VStr sub) (Py.get claims "role" (VStr "user")).
Proof.
  intros Hexp Hsub Hplain. unfold AuthService.current_token_data.
  rewrite (decode_signed_by_clock _ _ _ _ _ _ Hexp Hsub Hplain).
  destruct (exp <? now); [done |].
  simpl. by rewrite (get_Some _ _ _ _ Hsub).
Qed.

Lemma expiry_issued data expires_delta now :
  Jose.expiry (create_access_token cfg data expires_delta now)
  = Some (expire_at expires_delta now).
Proof.
  unfold create_access_token, Jose.encode. simpl.
  by rewrite lookup_insert_eq.
Qed.

(** An issued token whose data names a subject, read back by the issuer. *)
Lemma current_token_data_issued data expires_delta sub now t :
  data !! "sub" = Some (VStr sub) →
  plain_claims data →
  AuthService.current_token_data cfg
    (create_access_token cfg data expires_delta now) t
  = if expire_at expires_delta now <? t
    then Raise AuthService.credentials_exception
    else TokenData_of (VStr sub) (Py.get data "role" (VStr "user")).
Proof.
  intros Hsub Hplain. unfold create_access_token.
  rewrite (current_token_data_own _ (expire_at expires_delta now) sub).
  - unfold Py.get. by rewrite lookup_insert_ne.
  - apply lookup_insert_eq.
  - by rewrite lookup_insert_ne.
  - by apply plain_with_exp.
Qed.

End TokenFacts.

Lemma info_decode_signed claims exp sub now :
  claims !! "exp" = Some (VInt exp) →
  claims !! "sub" = Some (VStr sub) →
  plain_claims claims →
  InfoService.get_current_user
    (Jose.encode claims InfoService.SECRET_KEY InfoService.ALGORITHM) now
  = if exp <? now then Raise InfoService.credentials_exception
    else Ok (InfoService.identity (VStr sub)
               (Py.get claims "role" (VStr "user"))).
Proof.
  intros Hexp Hsub Hplain. unfold InfoService.get_current_user.
  rewrite (decode_signed_by_clock _ _ _ _ _ _ Hexp Hsub Hplain).
  destruct (exp <? now); [done |].
  simpl. by rewrite (get_Some _ _ _ _ Hsub).
Qed.


Lemma subject_claims_sub subject role :
  subject_claims subject role !! "sub" = Some (VStr subject).
Proof. apply lookup_insert_eq. Qed.

Lemma subject_claims_role subject role :
  Py.get (subject_claims subject role) "role" (VStr "user") = VStr role.
Proof.
  apply get_Some. unfold subject_claims.
  rewrite lookup_insert_ne by done. apply lookup_insert_eq.
Qed.

(** C1.  A token issued for a subject and a role with a positive time to
    live, validated at any time strictly before that time has elapsed, is
    accepted and yields exactly that subject and that role: by the issuer
    itself, and by the information service when both hold the same secret
    and algorithm. *)
Theorem issue_validate_roundtrip cfg subject role ttl now t :
  0 < ttl → t < now + ttl →
  let token :=
    create_access_token cfg (subject_claims subject role) (Some ttl) now in
  AuthService.current_token_data cfg token t
    = Ok {| td_username := Some subject; td_role := Some role |}
  ∧ (SECRET_KEY cfg = InfoService.SECRET_KEY →
     ALGORITHM cfg = InfoService.ALGORITHM →
     InfoService.get_current_user token t
       = Ok (InfoService.identity (VStr subject) (VStr role))).
Proof.
  intros Hpos Hbefore token.
  assert (Hexp : expire_at (Some ttl) now = now + ttl).
  { unfold expire_at, timedelta_truthy.
    destruct (Z.eqb_spec ttl 0); [lia | done]. }
  split.
  - unfold token.
    rewrite (current_token_data_issued _ _ _ subject)
      by (apply subject_claims_sub || apply plain_subject_claims).
    rewrite Hexp, subject_claims_role.
    destruct (Z.ltb_spec (now + ttl) t); [lia | done].
  - intros Hkey Halg. unfold token, create_access_token.
    rewrite Hkey, Halg, Hexp.
    rewrite (info_decode_signed _ (now + ttl) subject).
    + destruct (Z.ltb_spec (now + ttl) t); [lia |].
      unfold Py.get. rewrite lookup_insert_ne by done.
      fold (Py.get (subject_claims subject role) "role" (VStr "user")).
      by rewrite subject_claims_role.
    + apply lookup_insert_eq.
    + rewrite lookup_insert_ne by done. apply subject_claims_sub.
    + apply plain_with_exp, plain_subject_claims.
Qed.

Lemma issue_validate_roundtrip_witness :
  let token :=
    create_access_token default_config
      (subject_claims "alice" "user") (Some 1800) 100 in
  0 < 1800 ∧ 1899 < 100 + 1800
  ∧ AuthService.current_token_data default_config token 1899
    = Ok {| td_username := Some "alice"; td_role := Some "user" |}
  ∧ InfoService.get_current_user token 1899
    = Ok (InfoService.identity (VStr "alice") (VStr "user")).
Proof.
  intros token. split; [lia |]. split; [lia |].
  destruct (issue_validate_roundtrip default_config
              "alice" "user" 1800 100 1899) as [Hauth Hinfo]; [lia | lia |].
  split; [exact Hauth | by apply Hinfo].
Defined.

(** C2 (as the code has it).  Without an [expires_delta], and with a zero
    one, [create_access_token] sets the expiry to the clock plus a fixed
    fifteen minutes, whatever [ACCESS_TOKEN_EXPIRE_MINUTES] is; any other
    [expires_delta] is added to the clock as it is. *)
Theorem default_expiry_is_fifteen_minutes cfg data now :
  Jose.expiry (create_access_token cfg data None now) = Some (now + 15 * 60)
  ∧ ∀ delta,
      Jose.expiry (create_access_token cfg data (Some delta) now)
      = Some (if delta =? 0 then now + 15 * 60 else now + delta).
Proof.
  split.
  - rewrite expiry_issued. reflexivity.
  - intros delta. rewrite expiry_issued.
    unfold expire_at, timedelta_truthy.
    destruct (delta =? 0); reflexivity.
Qed.

(** C2, refuted as stated: under the default configuration (thirty
    minutes), a token issued at time 0 without [expires_delta] expires at
    900, not at 1800. *)
Lemma default_expiry_not_configured_ttl :
  let cfg := default_config in
  Jose.expiry (create_access_token cfg ∅ None 0) = Some 900
  ∧ Jose.expiry (create_access_token cfg ∅ None 0)
    ≠ Some (0 + minutes (ACCESS_TOKEN_EXPIRE_MINUTES cfg)).
Proof. split; [reflexivity | discriminate]. Qed.

(** C4 (as the code has it).  The library compares [exp] with its clock
    in whole seconds and refuses a token only when [exp] is the smaller.
    A token issued for a subject and a role is therefore accepted at every
    instant before [exp + 1] seconds, the instant [exp] and the whole
    second that follows it included, and refused with the credentials
    exception (401) at every instant from [exp + 1] seconds on.  The
    instants [issued] and [t] are in microseconds since the epoch, the
    resolution of [datetime.utcnow()]. *)
Theorem expiry_boundary cfg subject role expires_delta issued t :
  let token :=
    create_access_token cfg (subject_claims subject role) expires_delta
      (Py.timegm issued) in
  ∃ exp,
    Jose.expiry token = Some exp
    ∧ (t < (exp + 1) * 1000000 →
       AuthService.current_token_data cfg token (Py.timegm t)
       = Ok {| td_username := Some subject; td_role := Some role |})
    ∧ ((exp + 1) * 1000000 ≤ t →
       AuthService.current_token_data cfg token (Py.timegm t)
       = Raise AuthService.credentials_exception).
Proof.
  intros token. exists (expire_at expires_delta (Py.timegm issued)).
  split; [apply expiry_issued |].
  unfold token.
  rewrite (current_token_data_issued _ _ _ subject)
    by (apply subject_claims_sub || apply plain_subject_claims).
  rewrite subject_claims_role. unfold Py.timegm.
  pose proof (Z.div_mod t 1000000 ltac:(lia)) as Hdiv.
  pose proof (Z.mod_pos_bound t 1000000 ltac:(lia)) as Hmod.
  split; intros Ht;
    destruct (Z.ltb_spec (expire_at expires_delta (issued `div` 1000000))
                (t `div` 1000000)) as [Hlt | Hle]; done || lia.
Qed.

Lemma expiry_boundary_witness :
  let token :=
    create_access_token default_config (subject_claims "alice" "user")
      (Some 1800) (Py.timegm 250000) in
  Jose.expiry token = Some 1800
  ∧ AuthService.current_token_data default_config token
      (Py.timegm 1800999999)
    = Ok {| td_username := Some "alice"; td_role := Some "user" |}
  ∧ AuthService.current_token_data default_config token
      (Py.timegm 1801000000)
    = Raise AuthService.credentials_exception.
Proof.
  intros token.
  assert (Hexp : Jose.expiry token = Some 1800) by reflexivity.
  split; [exact Hexp |]. split.
  - destruct (expiry_boundary default_config "alice" "user" (Some 1800)
                250000 1800999999) as (exp & Hexp' & Hbefore & _).
    fold token in Hexp', Hbefore. rewrite Hexp in Hexp'.
    injection Hexp' as <-. apply Hbefore. lia.
  - destruct (expiry_boundary default_config "alice" "user" (Some 1800)
                250000 1801000000) as (exp & Hexp' & _ & Hafter).
    fold token in Hexp', Hafter. rewrite Hexp in Hexp'.
    injection Hexp' as <-. apply Hafter. lia.
Defined.

(** C4, refuted as stated: a token issued at time 0 for thirty minutes
    carries [exp = 1800] and is still accepted when validated at time
    1800, by the issuer and by the information service. *)
Lemma accepted_at_expiry :
  let token :=
    create_access_token default_config
      (subject_claims "alice" "user") (Some 1800) 0 in
  Jose.expiry token = Some 1800
  ∧ AuthService.current_token_data default_config token 1800
    = Ok {| td_username := Some "alice"; td_role := Some "user" |}
  ∧ InfoService.get_current_user token 1800
    = Ok (InfoService.identity (VStr "alice") (VStr "user")).
Proof. split; [| split]; by_evaluation. Qed.




(** ** The access guard of the auth service *)

Section Guard.
Variable cfg : config.

Lemma get_user_reads name c : (get_user name c).2 = c.
Proof.
  unfold get_user, UserRepository.get_user_by_username. run_st.
  destruct (Mongo.find_one "username" (VStr name) c) as [d |]; [| done].
  destruct (dict_truthy d); [| done].
  by destruct (UserInDB_of d).
Qed.

Lemma get_current_user_reads token now c :
  (AuthService.get_current_user cfg token now c).2 = c.
Proof.
  unfold AuthService.get_current_user. run_st.
  destruct (AuthService.current_token_data cfg token now) as [td | e];
    [| done].
  destruct (td_username td) as [name |]; [| done].
  pose proof (get_user_reads name c) as Hread.
  destruct (get_user name c) as [[[u |] | e] c']; simpl in *; by subst.
Qed.

(** The user that [get_user] returns carries the name it was asked for. *)
Lemma get_user_named name c u c' :
  get_user name c = (Ok (Some u), c') → username u = name.
Proof.
  unfold get_user, UserRepository.get_user_by_username. run_st.
  destruct (Mongo.find_one "username" (VStr name) c) as [d |] eqn:Hfind;
    [| done].
  destruct (dict_truthy d); [| done].
  destruct (UserInDB_of d) as [user | e] eqn:Hparse; [| done].
  intros [= <- _].
  apply UserInDB_of_username in Hparse.
  apply find_one_matches in Hfind as [_ Hkey].
  apply key_of_string in Hkey. rewrite Hparse in Hkey. by injection Hkey.
Qed.

(** [get_current_user] succeeds exactly with the stored record of the
    subject that a valid token names; the [role] of the token plays no
    part. *)
Lemma get_current_user_stored token now c u c' :
  AuthService.get_current_user cfg token now c = (Ok u, c') →
  c' = c
  ∧ ∃ token_role,
      AuthService.current_token_data cfg token now
        = Ok {| td_username := Some (username u); td_role := token_role |}
      ∧ get_user (username u) c = (Ok (Some u), c).
Proof.
  intros Hget.
  pose proof (get_current_user_reads token now c) as Hread.
  rewrite Hget in Hread. simpl in Hread. subst c'. split; [done |].
  unfold AuthService.get_current_user in Hget. run_st.
  destruct (AuthService.current_token_data cfg token now)
    as [[[name |] token_role] | e]; simpl in Hget; try done.
  pose proof (get_user_reads name c) as Hread.
  destruct (get_user name c) as [[[user |] | e] c'] eqn:Huser;
    simpl in *; try done.
  injection Hget as ->. subst c'.
  pose proof (get_user_named _ _ _ _ Huser) as ->.
  by exists token_role.
Qed.

Lemma admin_user_dependency_stored token now c u :
  AuthService.get_current_user cfg token now c = (Ok u, c) →
  AuthService.admin_user_dependency cfg token now c
  = (AuthService.get_admin_user u, c).
Proof.
  intros Hget. unfold AuthService.admin_user_dependency. run_st.
  by rewrite Hget.
Qed.

Lemma delete_one_found field v c d :
  Mongo.find_one field v c = Some d →
  ∃ pre post,
    Mongo.docs c = pre ++ d :: post
    ∧ Mongo.delete_one field v c
      = (Ok 1, {| Mongo.docs := pre ++ post;
                  Mongo.unique := Mongo.unique c;
                  Mongo.next_oid := Mongo.next_oid c |}).
Proof.
  intros Hfind. apply find_split_first in Hfind as (pre & post & Hsp & Hl).
  exists pre, post. split; [done |].
  unfold Mongo.delete_one. by rewrite Hsp.
Qed.

(** C8 (as the code has it).  The deletion endpoint answers a caller who
    names their own account with 400 and removes nothing when the caller's
    stored role is admin; any other authenticated caller is turned away
    with 403 by the admin guard before the check on the name, the record
    staying in place as well.  An admin who names another, existing
    account has its record removed. *)
Theorem self_deletion_rejected token now c current_user :
  AuthService.get_current_user cfg token now c = (Ok current_user, c) →
  AuthService.delete_user (username current_user) current_user c
    = (Raise (HTTPException 400 "Cannot delete your own account"), c)
  ∧ AuthService.request_delete_user cfg token now (username current_user) c
    = (Raise (if bool_decide (role current_user = "admin")
              then HTTPException 400 "Cannot delete your own account"
              else HTTPException 403 "Not enough permissions"), c)
  ∧ (∀ name d,
       role current_user = "admin" →
       name ≠ username current_user →
       Mongo.find_one "username" (VStr name) c = Some d →
       ∃ pre post,
         Mongo.docs c = pre ++ d :: post
         ∧ AuthService.request_delete_user cfg token now name c
           = (Ok (), {| Mongo.docs := pre ++ post;
                        Mongo.unique := Mongo.unique c;
                        Mongo.next_oid := Mongo.next_oid c |})).
Proof.
  intros Hget.
  assert (Hself : AuthService.delete_user (username current_user)
                    current_user c
                  = (Raise (HTTPException 400
                              "Cannot delete your own account"), c)).
  { unfold AuthService.delete_user. by rewrite bool_decide_eq_true_2. }
  split; [exact Hself |]. split.
  - unfold AuthService.request_delete_user. run_st.
    rewrite (admin_user_dependency_stored _ _ _ _ Hget).
    unfold AuthService.get_admin_user.
    destruct (bool_decide (role current_user = "admin")); simpl; [| done].
    exact Hself.
  - intros name d Hadmin Hother Hfind.
    destruct (delete_one_found _ _ _ _ Hfind) as (pre & post & Hdocs & Hdel).
    exists pre, post. split; [exact Hdocs |].
    unfold AuthService.request_delete_user. run_st.
    rewrite (admin_user_dependency_stored _ _ _ _ Hget).
    unfold AuthService.get_admin_user.
    rewrite (bool_decide_eq_true_2 _ Hadmin). simpl.
    unfold AuthService.delete_user.
    rewrite (bool_decide_eq_false_2 _ Hother).
    unfold UserRepository.delete_user. run_st. by rewrite Hdel.
Qed.

End Guard.

(** The scenario values are what the services compute. *)
Lemma logins_return_the_tokens :
  AuthService.login_for_access_token (pwd_context := demo_context)
    default_config "admin" "admin" 0 with_bob = (Ok admin_token, with_bob)
  ∧ AuthService.login_for_access_token (pwd_context := demo_context)
      default_config "bob" "pw123" 0 with_bob = (Ok bob_token, with_bob).
Proof. split; by_evaluation. Qed.

Lemma bob_is_authenticated :
  AuthService.get_current_user default_config bob_token 10 with_bob
  = (Ok bob_user, with_bob).
Proof. by_evaluation. Qed.

Lemma admin_is_authenticated :
  AuthService.get_current_user default_config admin_token 10 with_bob
  = (Ok admin_user, with_bob).
Proof. by_evaluation. Qed.

Lemma bob_document_found :
  Mongo.find_one "username" (VStr "bob") with_bob = Some bob_document.
Proof. by_evaluation. Qed.

Lemma self_deletion_rejected_witness :
  AuthService.get_current_user default_config admin_token 10 with_bob
    = (Ok admin_user, with_bob)
  ∧ AuthService.request_delete_user default_config admin_token 10
      "admin" with_bob
    = (Raise (HTTPException 400 "Cannot delete your own account"), with_bob).
Proof.
  split; [exact admin_is_authenticated |].
  exact (proj1 (proj2 (self_deletion_rejected default_config admin_token 10
                         with_bob admin_user admin_is_authenticated))).
Defined.

(** C8, refuted as stated: [bob], an ordinary user with a valid token,
    who asks for the deletion of his own account is answered 403, not the
    conflict 400. *)
Lemma self_deletion_by_user_is_forbidden :
  AuthService.get_current_user default_config bob_token 10 with_bob
    = (Ok bob_user, with_bob)
  ∧ AuthService.request_delete_user default_config bob_token 10 "bob" with_bob
    = (Raise (HTTPException 403 "Not enough permissions"), with_bob)
  ∧ http_status 204
      (AuthService.request_delete_user default_config bob_token 10 "bob"
         with_bob).1 ≠ 400.
Proof. split; [| split]; by_evaluation. Qed.

(** ** Where the role of a role check comes from *)

Lemma identity_role username role :
  Py.get (InfoService.identity username role) "role" VNone = role.
Proof.
  apply get_Some. unfold InfoService.identity.
  rewrite lookup_insert_ne by done. apply lookup_insert_eq.
Qed.

(** C3 (as the code has it).  The information service and the local
    decoding of the user service compare the role embedded in the token.
    The auth service does not: its admin guard compares the role of the
    stored record, read when the request is served, and two valid tokens
    for one subject are treated alike whatever roles they carry. *)
Theorem role_check_source cfg token now :
  (∀ payload,
     Jose.decode token InfoService.SECRET_KEY [InfoService.ALGORITHM] now
       = Ok payload →
     Py.get payload "sub" VNone ≠ VNone →
     let identity :=
       InfoService.identity (Py.get payload "sub" VNone)
         (Py.get payload "role" (VStr "user")) in
     let verdict :=
       if bool_decide (Py.get payload "role" (VStr "user") = VStr "admin")
       then Ok identity
       else Raise (HTTPException 403 "Not enough permissions") in
     InfoService.admin_user_dependency token now = verdict
     ∧ Py.bind (UserService.fallback token now) UserService.get_admin_user
       = verdict)
  ∧ (∀ c stored,
       AuthService.get_current_user cfg token now c = (Ok stored, c) →
       get_user (username stored) c = (Ok (Some stored), c)
       ∧ AuthService.admin_user_dependency cfg token now c
         = (if bool_decide (role stored = "admin")
            then Ok stored
            else Raise (HTTPException 403 "Not enough permissions"), c))
  ∧ (∀ token' now' c subject role1 role2,
       AuthService.current_token_data cfg token now
         = Ok {| td_username := Some subject; td_role := role1 |} →
       AuthService.current_token_data cfg token' now'
         = Ok {| td_username := Some subject; td_role := role2 |} →
       AuthService.admin_user_dependency cfg token now c
       = AuthService.admin_user_dependency cfg token' now' c).
Proof.
  split; [| split].
  - intros payload Hdecode Hsub identity verdict.
    assert (Hnone : bool_decide (Py.get payload "sub" VNone = VNone) = false)
      by by apply bool_decide_eq_false_2.
    split.
    + unfold InfoService.admin_user_dependency, InfoService.get_current_user.
      rewrite Hdecode. simpl. rewrite Hnone. simpl.
      unfold InfoService.get_admin_user. rewrite identity_role.
      unfold verdict. by destruct (bool_decide _).
    + unfold UserService.fallback.
      change UserService.SECRET_KEY with InfoService.SECRET_KEY.
      change UserService.ALGORITHM with InfoService.ALGORITHM.
      rewrite Hdecode. simpl. rewrite Hnone. simpl.
      unfold UserService.get_admin_user. rewrite identity_role.
      unfold verdict. by destruct (bool_decide _).
  - intros c stored Hget.
    destruct (get_current_user_stored _ _ _ _ _ _ Hget)
      as (_ & token_role & _ & Huser).
    split; [exact Huser |].
    rewrite (admin_user_dependency_stored _ _ _ _ _ Hget).
    unfold AuthService.get_admin_user.
    by destruct (bool_decide _).
  - intros token' now' c subject role1 role2 H1 H2.
    unfold AuthService.admin_user_dependency, AuthService.get_current_user.
    run_st. by rewrite H1, H2.
Qed.

Lemma role_check_source_witness :
  AuthService.get_current_user default_config admin_token 10 with_bob
    = (Ok admin_user, with_bob)
  ∧ AuthService.admin_user_dependency default_config admin_token 10 with_bob
    = (Ok admin_user, with_bob).
Proof.
  split; [exact admin_is_authenticated |].
  exact (proj2 (proj1 (proj2 (role_check_source default_config admin_token 10))
                  with_bob admin_user admin_is_authenticated)).
Defined.

(** C3, refuted as stated: [bob]'s token was minted with the role
    ["user"]; after the admin has promoted him, the auth service lets that
    same token through its admin guard, on the strength of the stored
    role, while the information service, which compares the embedded
    role, turns it away. *)
Lemma stored_role_decides_in_auth_service :
  AuthService.current_token_data default_config bob_token 10
    = Ok {| td_username := Some "bob"; td_role := Some "user" |}
  ∧ (AuthService.admin_user_dependency default_config bob_token 10
       bob_promoted).1
    = Ok {| indb_base :=
              {| username := "bob";
                 email := Some "bob@example.com";
                 full_name := Some "Bob";
                 disabled := Some false;
                 role := "admin" |};
            hashed_password := demo_hash "s1" "pw123" |}
  ∧ InfoService.admin_user_dependency bob_token 10
    = Raise (HTTPException 403 "Not enough permissions").
Proof. split; [| split]; by_evaluation. Qed.

(** ** The bootstrap of the admin account *)

Section Bootstrap.
Context `{pwd_context : CryptContext}.

Lemma find_app_miss p (l : list (gmap string value)) d :
  List.find p l = None → p d = true → List.find p (l ++ [d]) = Some d.
Proof.
  intros Hnone Hd. induction l as [| x l IH]; simpl in *.
  - by rewrite Hd.
  - destruct (p x); [done | by apply IH].
Qed.

(** What a successful [insert_one] leaves behind. *)
Lemma insert_one_ok d c d' c' :
  Mongo.insert_one d c = (Ok d', c') →
  Mongo.docs c' = Mongo.docs c ++ [d']
  ∧ Mongo.unique c' = Mongo.unique c
  ∧ ∀ k, k ≠ "_id" → d' !! k = d !! k.
Proof.
  unfold Mongo.insert_one.
  destruct (Mongo.violates _ _ _); [done |].
  intros [= <- <-]. simpl. split; [done |]. split; [done |].
  intros k Hk. destruct (d !! "_id"); [done |].
  by rewrite lookup_insert_ne.
Qed.

Lemma insert_one_outcomes d c :
  (∃ d' c', Mongo.insert_one d c = (Ok d', c'))
  ∨ Mongo.insert_one d c = (Raise DuplicateKeyError, c).
Proof.
  unfold Mongo.insert_one.
  destruct (Mongo.violates _ _ _); [by right | left; by eexists _, _].
Qed.

(** The admin record as it is handed to [insert_one]. *)
Lemma prepare_admin_record salt name secret mail :
  ∃ d,
    UserRepository.prepare_user salt
      (UserRepository.admin_record name secret mail) = Ok d
    ∧ d !! "username" = Some (VStr name)
    ∧ d !! "role" = Some (VStr "admin")
    ∧ d !! "password" = None
    ∧ d !! "hashed_password" = Some (VStr (pwd_hash salt secret)).
Proof.
  unfold UserRepository.prepare_user, UserRepository.hash_password_field.
  assert (Hpw : UserRepository.admin_record name secret mail !! "password"
                = Some (VStr secret)).
  { unfold UserRepository.admin_record.
    do 2 (rewrite lookup_insert_ne by done). apply lookup_insert_eq. }
  rewrite Hpw. simpl.
  set (hashed := <["hashed_password" := _]> _).
  assert (Hrole : hashed !! "role" = Some (VStr "admin")).
  { unfold hashed, UserRepository.admin_record.
    rewrite lookup_insert_ne by done. rewrite lookup_delete_ne by done.
    do 4 (rewrite lookup_insert_ne by done). apply lookup_insert_eq. }
  assert (Hdis : hashed !! "disabled" = Some (VBool false)).
  { unfold hashed, UserRepository.admin_record.
    rewrite lookup_insert_ne by done. rewrite lookup_delete_ne by done.
    do 5 (rewrite lookup_insert_ne by done). apply lookup_insert_eq. }
  exists hashed. unfold UserRepository.setdefault. rewrite Hrole, Hdis.
  split; [done |]. split; [| split; [done | split]].
  - unfold hashed, UserRepository.admin_record.
    rewrite lookup_insert_ne by done. rewrite lookup_delete_ne by done.
    apply lookup_insert_eq.
  - unfold hashed. rewrite lookup_insert_ne by done. apply lookup_delete_eq.
  - unfold hashed. apply lookup_insert_eq.
Qed.

(** [init_admin_user] returns, unless a unique index refuses the insert. *)
Lemma init_admin_user_outcomes salt name secret mail c :
  (∃ b c', UserRepository.init_admin_user salt name secret mail c = (Ok b, c'))
  ∨ UserRepository.init_admin_user salt name secret mail c
    = (Raise DuplicateKeyError, c).
Proof.
  unfold UserRepository.init_admin_user, UserRepository.create_user,
    UserRepository.get_user_by_username. run_st.
  destruct (UserRepository.found _); simpl; [left; by eexists _, _ |].
  destruct (prepare_admin_record salt name secret mail) as (d & -> & _).
  destruct (insert_one_outcomes d c) as [(d' & c' & ->) | ->];
    [left; by eexists _, _ | by right].
Qed.

(** C7.  [init_admin_user] is idempotent.  When a first call returns, a
    second call with the same arguments finds the username, creates
    nothing and leaves the store as it is; and over the two calls exactly
    one record has been created when no record with that username existed
    (it carries the username and the admin role), none otherwise. *)
Theorem init_admin_user_idempotent salt salt' name secret mail c b c1 :
  UserRepository.init_admin_user salt name secret mail c = (Ok b, c1) →
  UserRepository.init_admin_user salt' name secret mail c1 = (Ok false, c1)
  ∧ (if b
     then Mongo.find_one "username" (VStr name) c = None
          ∧ ∃ d, Mongo.docs c1 = Mongo.docs c ++ [d]
                 ∧ d !! "username" = Some (VStr name)
                 ∧ d !! "role" = Some (VStr "admin")
     else is_Some (Mongo.find_one "username" (VStr name) c) ∧ c1 = c).
Proof.
  unfold UserRepository.init_admin_user, UserRepository.create_user,
    UserRepository.get_user_by_username. run_st.
  destruct (Mongo.find_one "username" (VStr name) c) as [d0 |] eqn:Hfind;
    simpl.
  - rewrite (find_one_truthy _ _ _ _ Hfind). simpl.
    intros [= <- <-]. rewrite Hfind. simpl.
    rewrite (find_one_truthy _ _ _ _ Hfind). simpl.
    split; [done |]. split; [by eexists | done].
  - destruct (prepare_admin_record salt name secret mail)
      as (d & -> & Hname & Hrole & _).
    destruct (Mongo.insert_one d c) as [[d' | e] c'] eqn:Hins; [| done].
    intros [= <- <-].
    apply insert_one_ok in Hins as (Hdocs & _ & Hsame).
    assert (Hname' : d' !! "username" = Some (VStr name))
      by by rewrite Hsame.
    assert (Hfind' : Mongo.find_one "username" (VStr name) c' = Some d').
    { unfold Mongo.find_one. rewrite Hdocs.
      apply find_app_miss; [exact Hfind |].
      unfold Mongo.matches. apply bool_decide_eq_true_2.
      by apply key_of_string. }
    rewrite Hfind'. simpl. rewrite (find_one_truthy _ _ _ _ Hfind'). simpl.
    split; [done |]. split; [done |].
    exists d'. split; [done |]. split; [done |]. by rewrite Hsame.
Qed.

End Bootstrap.

Lemma init_admin_user_idempotent_witness :
  let indexed := (UserRepository.create_index Mongo.empty).2 in
  UserRepository.init_admin_user (pwd_context := demo_context)
    "s0" "admin" "admin" "admin@example.com" indexed = (Ok true, started)
  ∧ UserRepository.init_admin_user (pwd_context := demo_context)
      "s3" "admin" "admin" "admin@example.com" started = (Ok false, started).
Proof.
  intros indexed.
  assert (H : UserRepository.init_admin_user (pwd_context := demo_context)
                "s0" "admin" "admin" "admin@example.com" indexed
              = (Ok true, started)) by by_evaluation.
  split; [exact H |].
  exact (proj1 (init_admin_user_idempotent (pwd_context := demo_context)
                  "s0" "s3" "admin" "admin" "admin@example.com"
                  indexed true started H)).
Defined.

(** ** No plaintext secret in the store *)

Section Secrets.
Context `{pwd_context : CryptContext}.

Lemma hash_password_field_ok salt (user_data d : gmap string value) :
  UserRepository.hash_password_field salt user_data = Ok d →
  d !! "password" = None
  ∧ ∀ plain,
      user_data !! "password" = Some (VStr plain) →
      d = <["hashed_password" := VStr (pwd_hash salt plain)]>
            (delete "password" user_data).
Proof.
  unfold UserRepository.hash_password_field.
  destruct (user_data !! "password") as [[| | | plain |] |] eqn:Hpw;
    try done; intros [= <-].
  - split.
    + rewrite lookup_insert_ne by done. apply lookup_delete_eq.
    + by intros ? [= <-].
  - done.
Qed.

Lemma setdefault_other k v (d : gmap string value) k' :
  k' ≠ k → UserRepository.setdefault k v d !! k' = d !! k'.
Proof.
  intros Hne. unfold UserRepository.setdefault.
  destruct (d !! k); [done | by rewrite lookup_insert_ne].
Qed.

Lemma prepare_user_ok salt (user_data d : gmap string value) :
  UserRepository.prepare_user salt user_data = Ok d →
  d !! "password" = None
  ∧ ∀ plain,
      user_data !! "password" = Some (VStr plain) →
      d !! "hashed_password" = Some (VStr (pwd_hash salt plain)).
Proof.
  unfold UserRepository.prepare_user.
  destruct (UserRepository.hash_password_field salt user_data)
    as [hashed | e] eqn:Hhash; [| done].
  simpl. intros [= <-].
  apply hash_password_field_ok in Hhash as [Hnone Hhashed].
  split.
  - by do 2 (rewrite setdefault_other by done).
  - intros plain Hpw. do 2 (rewrite setdefault_other by done).
    rewrite (Hhashed plain Hpw). apply lookup_insert_eq.
Qed.

Lemma create_user_ok salt user_data c id d c' :
  UserRepository.create_user salt user_data c = (Ok (id, d), c') →
  Mongo.docs c' = Mongo.docs c ++ [d]
  ∧ d !! "password" = None
  ∧ ∀ plain,
      user_data !! "password" = Some (VStr plain) →
      d !! "hashed_password" = Some (VStr (pwd_hash salt plain)).
Proof.
  unfold UserRepository.create_user. run_st.
  destruct (UserRepository.prepare_user salt user_data)
    as [prepared | e] eqn:Hprep; [| done].
  destruct (Mongo.insert_one prepared c) as [[d' | e] c1] eqn:Hins; [| done].
  intros [= _ <- <-].
  apply prepare_user_ok in Hprep as [Hnone Hhashed].
  apply insert_one_ok in Hins as (Hdocs & _ & Hsame).
  split; [done |]. split.
  - by rewrite Hsame.
  - intros plain Hpw. rewrite Hsame by done. by apply Hhashed.
Qed.

(** A call that raises has written nothing. *)
Lemma create_user_raises salt user_data c e c' :
  UserRepository.create_user salt user_data c = (Raise e, c') → c' = c.
Proof.
  unfold UserRepository.create_user. run_st.
  destruct (UserRepository.prepare_user salt user_data);
    [| by intros [= _ <-]].
  unfold Mongo.insert_one.
  destruct (Mongo.violates _ _ _); [by intros [= _ <-] | done].
Qed.

Lemma create_user_keeps salt user_data c :
  no_plaintext c →
  no_plaintext (UserRepository.create_user salt user_data c).2.
Proof.
  intros Hinv.
  destruct (UserRepository.create_user salt user_data c)
    as [[[id d] | e] c'] eqn:Hrun; simpl.
  - apply create_user_ok in Hrun as (Hdocs & Hnone & _).
    unfold no_plaintext. rewrite Hdocs.
    apply Forall_app. split; [exact Hinv | by apply Forall_singleton].
  - by rewrite (create_user_raises _ _ _ _ _ Hrun).
Qed.

(** What a modifying [update_one] leaves behind. *)
Lemma update_one_modified field v (fields : gmap string value) c c' n :
  Mongo.update_one field v fields c = (Ok n, c') →
  (n = 0 ∧ c' = c)
  ∨ (n = 1
     ∧ ∃ pre d post,
         Mongo.docs c = pre ++ d :: post
         ∧ Mongo.docs c' = pre ++ (fields ∪ d) :: post).
Proof.
  unfold Mongo.update_one.
  pose proof (split_first_find (Mongo.matches field v) (Mongo.docs c)) as Hsp.
  destruct (Mongo.split_first _ _) as [[[pre d] post] |];
    [| intros [= <- <-]; by left].
  destruct Hsp as (Hdocs & _).
  destruct (bool_decide (fields ∪ d = d)); [intros [= <- <-]; by left |].
  destruct (negb _); [done |].
  destruct (Mongo.violates _ _ _); [done |].
  intros [= <- <-]. right. split; [done |]. by exists pre, d, post.
Qed.

Lemma update_one_raises field v (fields : gmap string value) c e c' :
  Mongo.update_one field v fields c = (Raise e, c') → c' = c.
Proof.
  unfold Mongo.update_one.
  destruct (Mongo.split_first _ _) as [[[pre d] post] |]; [| done].
  destruct (bool_decide (fields ∪ d = d)); [done |].
  destruct (negb _); [by intros [= _ <-] |].
  destruct (Mongo.violates _ _ _); [by intros [= _ <-] | done].
Qed.

Lemma update_user_ok salt name user_data c c' :
  UserRepository.update_user salt name user_data c = (Ok true, c') →
  ∃ to_set pre d post,
    UserRepository.hash_password_field salt user_data = Ok to_set
    ∧ Mongo.docs c = pre ++ d :: post
    ∧ Mongo.docs c' = pre ++ (to_set ∪ d) :: post.
Proof.
  unfold UserRepository.update_user. run_st.
  destruct (UserRepository.hash_password_field salt user_data)
    as [to_set | e]; [| done].
  destruct (Mongo.update_one "username" (VStr name) to_set c)
    as [[n | e] c1] eqn:Hupd; [| done].
  intros [= Hn <-].
  apply update_one_modified in Hupd
    as [[-> _] | (_ & pre & d & post & Hdocs & Hdocs')]; [done |].
  by exists to_set, pre, d, post.
Qed.

Lemma update_user_keeps salt name user_data c :
  no_plaintext c →
  no_plaintext (UserRepository.update_user salt name user_data c).2.
Proof.
  intros Hinv. unfold UserRepository.update_user. run_st.
  destruct (UserRepository.hash_password_field salt user_data)
    as [to_set | e] eqn:Hhash; [| done].
  apply hash_password_field_ok in Hhash as [Hnone _].
  destruct (Mongo.update_one "username" (VStr name) to_set c)
    as [[n | e] c1] eqn:Hupd; simpl.
  - apply update_one_modified in Hupd
      as [[_ ->] | (_ & pre & d & post & Hdocs & Hdocs')]; [done |].
    unfold no_plaintext in *. rewrite Hdocs in Hinv. rewrite Hdocs'.
    apply Forall_app in Hinv as [Hpre Hrest].
    apply Forall_cons in Hrest as [Hd Hpost].
    apply Forall_app. split; [done |]. apply Forall_cons. split; [| done].
    apply lookup_union_None. by split.
  - by rewrite (update_one_raises _ _ _ _ _ _ Hupd).
Qed.

Lemma delete_user_keeps name c :
  no_plaintext c → no_plaintext (UserRepository.delete_user name c).2.
Proof.
  intros Hinv. unfold UserRepository.delete_user, Mongo.delete_one. run_st.
  pose proof (split_first_find (Mongo.matches "username" (VStr name))
                (Mongo.docs c)) as Hsp.
  destruct (Mongo.split_first _ _) as [[[pre d] post] |]; [| done].
  destruct Hsp as (Hdocs & _). simpl.
  unfold no_plaintext in *. simpl. rewrite Hdocs in Hinv.
  apply Forall_app in Hinv as [Hpre Hrest].
  apply Forall_cons in Hrest as [_ Hpost].
  apply Forall_app. by split.
Qed.

Lemma mongo_create_index_docs field c :
  Mongo.docs (Mongo.create_index field c).2 = Mongo.docs c.
Proof.
  unfold Mongo.create_index.
  destruct (bool_decide (field ∈ _)); [done |].
  by destruct (bool_decide (NoDup _)).
Qed.

Lemma create_index_keeps c :
  no_plaintext c → no_plaintext (UserRepository.create_index c).2.
Proof.
  intros Hinv. unfold UserRepository.create_index. run_st.
  pose proof (mongo_create_index_docs "username" c) as H1.
  destruct (Mongo.create_index "username" c) as [[[] | e] c1]; simpl in *.
  - unfold no_plaintext. rewrite mongo_create_index_docs, H1. exact Hinv.
  - unfold no_plaintext. by rewrite H1.
Qed.

Lemma init_admin_user_keeps salt name secret mail c :
  no_plaintext c →
  no_plaintext (UserRepository.init_admin_user salt name secret mail c).2.
Proof.
  intros Hinv.
  unfold UserRepository.init_admin_user, UserRepository.get_user_by_username.
  run_st. destruct (UserRepository.found _); simpl; [done |].
  pose proof (create_user_keeps salt
                (UserRepository.admin_record name secret mail) c Hinv) as Hc.
  by destruct (UserRepository.create_user _ _ _) as [[[id d] | e] c1].
Qed.

Lemma repository_step_keeps c c' :
  repository_step c c' → no_plaintext c → no_plaintext c'.
Proof.
  intros Hstep Hinv. destruct Hstep.
  - by apply create_user_keeps.
  - by apply update_user_keeps.
  - by apply delete_user_keeps.
  - by apply create_index_keeps.
  - by apply init_admin_user_keeps.
Qed.

Lemma reachable_no_plaintext c : reachable c → no_plaintext c.
Proof.
  unfold reachable. revert c.
  apply (rtc_ind_r (λ c, no_plaintext c) Mongo.empty).
  - by apply Forall_nil.
  - intros c1 c2 _ Hstep IH. by apply (repository_step_keeps c1 c2).
Qed.

(** C5.  In every reachable state of the store no document has a
    [password] key.  A create whose data carry a plaintext password
    inserts a document without that key and with [hashed_password] holding
    its hash; an update whose data carry one sends a [$set] in which the
    key is likewise replaced by the hash; both lead to states that again
    hold no plaintext. *)
Theorem no_plaintext_persisted c :
  reachable c →
  no_plaintext c
  ∧ (∀ salt user_data plain id d c',
       user_data !! "password" = Some (VStr plain) →
       UserRepository.create_user salt user_data c = (Ok (id, d), c') →
       Mongo.docs c' = Mongo.docs c ++ [d]
       ∧ d !! "password" = None
       ∧ d !! "hashed_password" = Some (VStr (pwd_hash salt plain))
       ∧ no_plaintext c')
  ∧ (∀ salt name user_data plain c',
       user_data !! "password" = Some (VStr plain) →
       UserRepository.update_user salt name user_data c = (Ok true, c') →
       ∃ pre d post,
         let to_set :=
           <["hashed_password" := VStr (pwd_hash salt plain)]>
             (delete "password" user_data) in
         Mongo.docs c = pre ++ d :: post
         ∧ Mongo.docs c' = pre ++ (to_set ∪ d) :: post
         ∧ to_set !! "password" = None
         ∧ (to_set ∪ d) !! "password" = None
         ∧ (to_set ∪ d) !! "hashed_password"
           = Some (VStr (pwd_hash salt plain))
         ∧ no_plaintext c').
Proof.
  intros Hreach. pose proof (reachable_no_plaintext c Hreach) as Hinv.
  split; [exact Hinv |]. split.
  - intros salt user_data plain id d c' Hpw Hrun.
    pose proof (create_user_keeps salt user_data c Hinv) as Hkeep.
    rewrite Hrun in Hkeep.
    apply create_user_ok in Hrun as (Hdocs & Hnone & Hhashed).
    split; [done |]. split; [done |]. split; [by apply Hhashed | done].
  - intros salt name user_data plain c' Hpw Hrun.
    pose proof (update_user_keeps salt name user_data c Hinv) as Hkeep.
    rewrite Hrun in Hkeep. simpl in Hkeep.
    apply update_user_ok in Hrun
      as (to_set & pre & d & post & Hhash & Hdocs & Hdocs').
    apply hash_password_field_ok in Hhash as [Hnone Hset].
    rewrite (Hset plain Hpw) in *.
    exists pre, d, post. simpl.
    split; [done |]. split; [done |]. split; [done |].
    split; [| split; [| done]].
    + apply lookup_union_None. split; [done |].
      unfold no_plaintext in Hinv. rewrite Hdocs in Hinv.
      apply Forall_app in Hinv as [_ Hrest].
      by apply Forall_cons in Hrest as [Hd _].
    + apply lookup_union_Some_l. apply lookup_insert_eq.
Qed.

End Secrets.

Lemma started_is_reachable : reachable (pwd_context := demo_context) started.
Proof.
  assert (Heq : started
                = (UserRepository.init_admin_user (pwd_context := demo_context)
                     "s0" "admin" "admin" "admin@example.com"
                     (UserRepository.create_index Mongo.empty).2).2)
    by by_evaluation.
  rewrite Heq. unfold reachable.
  eapply rtc_l; [apply step_create_index |].
  apply rtc_once. apply step_init_admin_user.
Qed.

Lemma no_plaintext_persisted_witness :
  reachable (pwd_context := demo_context) started ∧ no_plaintext started.
Proof.
  split; [exact started_is_reachable |].
  exact (proj1 (no_plaintext_persisted (pwd_context := demo_context)
                  started started_is_reachable)).
Defined.

(** ** Registration *)

Section Registration.
Context `{pwd_context : CryptContext}.

Lemma UserBase_dict_lookups (u : UserBase) :
  UserBase_dict u !! "username" = Some (VStr (username u))
  ∧ UserBase_dict u !! "email" = Some (of_opt_str (email u))
  ∧ UserBase_dict u !! "full_name" = Some (of_opt_str (full_name u))
  ∧ UserBase_dict u !! "disabled" = Some (of_opt_bool (disabled u))
  ∧ UserBase_dict u !! "role" = Some (VStr (role u))
  ∧ UserBase_dict u !! "password" = None
  ∧ UserBase_dict u !! "_id" = None.
Proof.
  unfold UserBase_dict.
  split; [apply lookup_insert_eq |].
  rewrite !(lookup_insert_ne _ "username") by done.
  split; [apply lookup_insert_eq |].
  rewrite !(lookup_insert_ne _ "email") by done.
  split; [apply lookup_insert_eq |].
  rewrite !(lookup_insert_ne _ "full_name") by done.
  split; [apply lookup_insert_eq |].
  rewrite !(lookup_insert_ne _ "disabled") by done.
  split; [apply lookup_insert_eq |].
  by rewrite !(lookup_insert_ne _ "role") by done.
Qed.

(** A dictionary that agrees with [u.dict()] on the fields of the model is
    read back as [u]. *)
Lemma UserBase_of_dict (u : UserBase) (d : gmap string value) :
  (∀ k, k ∈ ["username"; "email"; "full_name"; "disabled"; "role"] →
        d !! k = UserBase_dict u !! k) →
  UserBase_of d = Ok u.
Proof.
  intros Hsame.
  destruct (UserBase_dict_lookups u) as (Hu & He & Hf & Hd & Hr & _).
  unfold UserBase_of, str_required, str_optional, bool_optional, str_default.
  rewrite !Hsame by set_solver. rewrite Hu, He, Hf, Hd, Hr.
  destruct u as [name mail full dis rl]. simpl.
  destruct mail, full, dis; reflexivity.
Qed.

Lemma filter_other_key (d : gmap string value) k :
  k ≠ "password" →
  filter (λ kv : string * value, kv.1 ≠ "password") d !! k = d !! k.
Proof.
  intros Hk. destruct (d !! k) as [v |] eqn:Hd.
  - by apply map_lookup_filter_Some_2.
  - apply map_lookup_filter_None_2. by left.
Qed.

(** The document that [create_user] prepares from a registration. *)
Lemma prepare_registration salt (user : UserCreate) :
  UserRepository.prepare_user salt (UserCreate_dict user)
  = Ok (<["hashed_password" := VStr (pwd_hash salt (password user))]>
          (UserBase_dict user)).
Proof.
  destruct (UserBase_dict_lookups user) as (_ & _ & _ & Hd & Hr & Hp & _).
  unfold UserRepository.prepare_user, UserRepository.hash_password_field,
    UserCreate_dict.
  rewrite lookup_insert_eq, delete_insert_eq, (delete_id _ _ Hp). simpl.
  unfold UserRepository.setdefault.
  rewrite (lookup_insert_ne _ "hashed_password" "role") by done.
  rewrite Hr. rewrite lookup_insert_ne by done. by rewrite Hd.
Qed.

Lemma create_user_username_taken salt (user : UserCreate) c d :
  Mongo.find_one "username" (VStr (username user)) c = Some d →
  AuthService.create_user salt user c
  = (Raise (HTTPException 400 "Username already registered"), c).
Proof.
  intros Hfind. unfold AuthService.create_user,
    UserRepository.get_user_by_username. run_st.
  rewrite Hfind. simpl. by rewrite (find_one_truthy _ _ _ _ Hfind).
Qed.

Lemma create_user_email_taken salt (user : UserCreate) c mail d :
  Mongo.find_one "username" (VStr (username user)) c = None →
  email user = Some mail → mail ≠ "" →
  Mongo.find_one "email" (VStr mail) c = Some d →
  AuthService.create_user salt user c
  = (Raise (HTTPException 400 "Email already registered"), c).
Proof.
  intros Hname Hmail Hne Hfind. unfold AuthService.create_user,
    UserRepository.get_user_by_username, UserRepository.get_user_by_email.
  run_st. rewrite Hname, Hmail. simpl.
  unfold str_truthy. rewrite (bool_decide_eq_false_2 _ Hne). simpl.
  rewrite Hfind. simpl. by rewrite (find_one_truthy _ _ _ _ Hfind).
Qed.

(** Past the two checks of the handler, the registration is stored and
    answered with the identity that was sent, or the insert is refused by
    a unique index and the exception escapes. *)
Lemma create_user_unchecked salt (user : UserCreate) c :
  Mongo.find_one "username" (VStr (username user)) c = None →
  (∀ mail, email user = Some mail → mail ≠ "" →
           Mongo.find_one "email" (VStr mail) c = None) →
  (∃ d c',
     AuthService.create_user salt user c = (Ok (create_base user), c')
     ∧ Mongo.docs c' = Mongo.docs c ++ [d]
     ∧ d !! "password" = None
     ∧ d !! "hashed_password"
       = Some (VStr (pwd_hash salt (password user))))
  ∨ AuthService.create_user salt user c = (Raise DuplicateKeyError, c).
Proof.
  intros Hname Hmail.
  assert (Hchecks :
    AuthService.create_user salt user c
    = mbind_st (UserRepository.create_user salt (UserCreate_dict user))
        (λ created,
           respond_User
             (filter (λ kv : string * value, kv.1 ≠ "password") created.2))
        c).
  { unfold AuthService.create_user, UserRepository.get_user_by_username,
      UserRepository.get_user_by_email. run_st. rewrite Hname. simpl.
    destruct (email user) as [mail |] eqn:He; [| done].
    unfold str_truthy. case_bool_decide as Hempty; simpl; [done |].
    by rewrite (Hmail mail eq_refl Hempty). }
  rewrite Hchecks. unfold UserRepository.create_user. run_st.
  rewrite prepare_registration.
  set (prepared := <["hashed_password" := _]> (UserBase_dict user)).
  destruct (insert_one_outcomes prepared c) as [(d & c' & Hins) | Hins];
    rewrite Hins; [left | by right].
  apply insert_one_ok in Hins as (Hdocs & _ & Hsame).
  destruct (UserBase_dict_lookups user) as (_ & _ & _ & _ & _ & Hp & _).
  exists d, c'. split; [| split; [done | split]].
  - unfold respond_User, lift. f_equal. apply UserBase_of_dict.
    intros k Hk.
    assert (k ≠ "password" ∧ k ≠ "_id" ∧ k ≠ "hashed_password")
      as (H1 & H2 & H3).
    { set_unfold in Hk. by destruct Hk as [-> | [-> | [-> | [-> | [-> | []]]]]]. }
    rewrite filter_other_key by done. rewrite Hsame by done.
    unfold prepared. by rewrite lookup_insert_ne.
  - rewrite Hsame by done. unfold prepared. by rewrite lookup_insert_ne.
  - rewrite Hsame by done. unfold prepared. apply lookup_insert_eq.
Qed.

End Registration.

(** C6, at the input where the code departs from it.  After start-up and
    the registrations of [bob] (with an address) and of [erin] (without
    one, answered 201), [frank] registers without an address too: no
    record has his username and he carries no e-mail that a record could
    already have, yet the unique index on [email] refuses the insert (both
    documents hold [null] there), the [DuplicateKeyError] escapes the
    handler and the answer is 500 instead of 201. *)
Theorem second_registration_without_email_fails :
  AuthService.create_user (pwd_context := demo_context) "s2" erin with_bob
    = (Ok (create_base erin), with_erin)
  ∧ Mongo.find_one "username" (VStr (username frank)) with_erin = None
  ∧ email frank = None
  ∧ AuthService.create_user (pwd_context := demo_context) "s3" frank with_erin
    = (Raise DuplicateKeyError, with_erin)
  ∧ http_status 201
      (AuthService.create_user (pwd_context := demo_context) "s3" frank
         with_erin).1 = 500.
Proof.
  split; [by_evaluation |]. split; [by_evaluation |].
  split; [reflexivity |]. split; by_evaluation.
Qed.

(** ** The unique indexes *)

Section Uniqueness.
Context `{pwd_context : CryptContext}.

Lemma violates_false fields d others :
  Mongo.violates fields d others = false →
  ∀ f, f ∈ fields → Mongo.key_of f d ∉ Mongo.key_of f <$> others.
Proof.
  unfold Mongo.violates. intros Hv f Hf Hin.
  apply list_elem_of_fmap in Hin as (d' & Hkey & Hd').
  assert (existsb (λ f, existsb (Mongo.matches f (Mongo.key_of f d)) others)
            fields = true) as Htrue; [| by rewrite Htrue in Hv].
  apply existsb_exists. exists f. split; [by apply list_elem_of_In |].
  apply existsb_exists. exists d'. split; [by apply list_elem_of_In |].
  unfold Mongo.matches. by apply bool_decide_eq_true_2.
Qed.

Lemma insert_one_unique d c :
  unique_ok c → unique_ok (Mongo.insert_one d c).2.
Proof.
  intros Hok. unfold Mongo.insert_one.
  set (d' := match d !! "_id" with Some _ => d | None => _ end).
  destruct (Mongo.violates _ d' _) eqn:Hv; [done |].
  intros f Hf. simpl in Hf |- *. rewrite fmap_app. simpl.
  apply NoDup_app. split; [by apply Hok |]. split; [| apply NoDup_singleton].
  intros k Hk Hk'. apply list_elem_of_singleton in Hk'. subst k.
  apply (violates_false _ _ _ Hv f); [by apply list_elem_of_further | done].
Qed.

Lemma NoDup_replace_middle {A} (pre post : list A) x y :
  NoDup (pre ++ x :: post) → y ∉ pre ++ post → NoDup (pre ++ y :: post).
Proof.
  intros Hnd Hy. apply NoDup_app in Hnd as (Hpre & Hdisj & Hrest).
  apply NoDup_cons in Hrest as [_ Hpost].
  apply NoDup_app. split; [done |]. split.
  - intros z Hz Hz'. apply elem_of_cons in Hz' as [-> | Hz'].
    + apply Hy. apply elem_of_app. by left.
    + apply (Hdisj z Hz). by apply list_elem_of_further.
  - apply NoDup_cons. split; [| done].
    intros Hin. apply Hy. apply elem_of_app. by right.
Qed.

Lemma update_one_unique field v fields c :
  unique_ok c → unique_ok (Mongo.update_one field v fields c).2.
Proof.
  intros Hok. unfold Mongo.update_one.
  pose proof (split_first_find (Mongo.matches field v) (Mongo.docs c)) as Hsp.
  destruct (Mongo.split_first _ _) as [[[pre d] post] |]; [| done].
  destruct Hsp as (Hdocs & _).
  destruct (bool_decide (fields ∪ d = d)); [done |].
  destruct (negb _); [done |].
  destruct (Mongo.violates _ _ _) eqn:Hv; [done |].
  intros f Hf. simpl in *. specialize (Hok f Hf). rewrite Hdocs in Hok.
  rewrite fmap_app in *. simpl in *.
  apply (NoDup_replace_middle _ _ _ _ Hok).
  rewrite <- fmap_app. by apply (violates_false _ _ _ Hv).
Qed.

Lemma delete_one_unique field v c :
  unique_ok c → unique_ok (Mongo.delete_one field v c).2.
Proof.
  intros Hok. unfold Mongo.delete_one.
  pose proof (split_first_find (Mongo.matches field v) (Mongo.docs c)) as Hsp.
  destruct (Mongo.split_first _ _) as [[[pre d] post] |]; [| done].
  destruct Hsp as (Hdocs & _).
  intros f Hf. simpl in *. specialize (Hok f Hf). rewrite Hdocs in Hok.
  rewrite fmap_app in *. simpl in *.
  apply NoDup_app in Hok as (Hpre & Hdisj & Hrest).
  apply NoDup_cons in Hrest as [_ Hpost].
  apply NoDup_app. split; [done |]. split; [| done].
  intros z Hz Hz'. apply (Hdisj z Hz). by apply list_elem_of_further.
Qed.

Lemma mongo_create_index_unique field c :
  unique_ok c → unique_ok (Mongo.create_index field c).2.
Proof.
  intros Hok. unfold Mongo.create_index.
  case_bool_decide as Hin; [done |].
  case_bool_decide as Hnd; [| done].
  intros f Hf. simpl in *.
  apply elem_of_app in Hf as [Hf | Hf]; [by apply Hok |].
  apply list_elem_of_singleton in Hf. by subst f.
Qed.

Lemma create_user_unique salt user_data c :
  unique_ok c → unique_ok (UserRepository.create_user salt user_data c).2.
Proof.
  intros Hok. unfold UserRepository.create_user. run_st.
  destruct (UserRepository.prepare_user salt user_data) as [d | e]; [| done].
  pose proof (insert_one_unique d c Hok) as Hins.
  by destruct (Mongo.insert_one d c) as [[d' | e] c'].
Qed.

Lemma update_user_unique salt name user_data c :
  unique_ok c → unique_ok (UserRepository.update_user salt name user_data c).2.
Proof.
  intros Hok. unfold UserRepository.update_user. run_st.
  destruct (UserRepository.hash_password_field salt user_data)
    as [to_set | e]; [| done].
  pose proof (update_one_unique "username" (VStr name) to_set c Hok) as Hupd.
  by destruct (Mongo.update_one _ _ _ _) as [[n | e] c'].
Qed.

Lemma delete_user_unique name c :
  unique_ok c → unique_ok (UserRepository.delete_user name c).2.
Proof.
  intros Hok. unfold UserRepository.delete_user. run_st.
  pose proof (delete_one_unique "username" (VStr name) c Hok) as Hdel.
  by destruct (Mongo.delete_one _ _ _) as [[n | e] c'].
Qed.

Lemma create_index_unique c :
  unique_ok c → unique_ok (UserRepository.create_index c).2.
Proof.
  intros Hok. unfold UserRepository.create_index. run_st.
  pose proof (mongo_create_index_unique "username" c Hok) as H1.
  destruct (Mongo.create_index "username" c) as [[[] | e] c1]; [| done].
  simpl in *. by apply mongo_create_index_unique.
Qed.

Lemma init_admin_user_unique salt name secret mail c :
  unique_ok c →
  unique_ok (UserRepository.init_admin_user salt name secret mail c).2.
Proof.
  intros Hok.
  unfold UserRepository.init_admin_user, UserRepository.get_user_by_username.
  run_st. destruct (UserRepository.found _); simpl; [done |].
  pose proof (create_user_unique salt
                (UserRepository.admin_record name secret mail) c Hok) as Hc.
  by destruct (UserRepository.create_user _ _ _) as [[[id d] | e] c1].
Qed.

Lemma repository_step_unique c c' :
  repository_step c c' → unique_ok c → unique_ok c'.
Proof.
  intros Hstep Hok. destruct Hstep.
  - by apply create_user_unique.
  - by apply update_user_unique.
  - by apply delete_user_unique.
  - by apply create_index_unique.
  - by apply init_admin_user_unique.
Qed.

(** An index, once created, stays; and no other field than [username] and
    [email] is ever indexed. *)
Lemma mongo_create_index_indexes field c f :
  f ∈ Mongo.unique (Mongo.create_index field c).2
  ↔ f ∈ Mongo.unique c
    ∨ (f = field ∧ (Mongo.create_index field c).1 = Ok ()
       ∧ field ∉ Mongo.unique c).
Proof.
  unfold Mongo.create_index.
  case_bool_decide as Hin; simpl.
  { split; [by left | intros [H | (_ & _ & H)]; [done | by destruct H]]. }
  case_bool_decide as Hnd; simpl.
  - rewrite elem_of_app, list_elem_of_singleton.
    split; [intros [H | ->]; [by left | by right] |].
    intros [H | (-> & _)]; [by left | by right].
  - split; [by left | by intros [H | (_ & H & _)]].
Qed.

Lemma repository_step_indexes c c' :
  repository_step c c' →
  (∀ f, f ∈ Mongo.unique c → f ∈ Mongo.unique c')
  ∧ (∀ f, f ∈ Mongo.unique c' →
          f ∈ Mongo.unique c ∨ f = "username" ∨ f = "email").
Proof.
  assert (Hins : ∀ d c0, Mongo.unique (Mongo.insert_one d c0).2
                         = Mongo.unique c0).
  { intros d c0. unfold Mongo.insert_one. by destruct (Mongo.violates _ _ _). }
  assert (Hcreate : ∀ salt ud c0,
            Mongo.unique (UserRepository.create_user salt ud c0).2
            = Mongo.unique c0).
  { intros salt ud c0. unfold UserRepository.create_user. run_st.
    destruct (UserRepository.prepare_user salt ud) as [d | e]; [| done].
    specialize (Hins d c0).
    by destruct (Mongo.insert_one d c0) as [[d' | e] c1]. }
  assert (Hsame : ∀ c1 c2 : Mongo.collection,
            Mongo.unique c2 = Mongo.unique c1 →
            (∀ f, f ∈ Mongo.unique c1 → f ∈ Mongo.unique c2)
            ∧ (∀ f, f ∈ Mongo.unique c2 →
                    f ∈ Mongo.unique c1 ∨ f = "username" ∨ f = "email")).
  { intros c1 c2 ->. split; [done | by left]. }
  intros Hstep.
  destruct Hstep as [salt ud c | salt name ud c | name c | c
                    | salt name secret mail c].
  - apply Hsame, Hcreate.
  - apply Hsame.
    unfold UserRepository.update_user, Mongo.update_one. run_st.
    destruct (UserRepository.hash_password_field _ _); [| done].
    destruct (Mongo.split_first _ _) as [[[pre d] post] |]; [| done].
    destruct (bool_decide _); [done |]. destruct (negb _); [done |].
    by destruct (Mongo.violates _ _ _).
  - apply Hsame.
    unfold UserRepository.delete_user, Mongo.delete_one. run_st.
    by destruct (Mongo.split_first _ _) as [[[pre d] post] |].
  - unfold UserRepository.create_index. run_st.
    pose proof (mongo_create_index_indexes "username" c) as H1.
    destruct (Mongo.create_index "username" c) as [[[] | e] c1]; simpl in *.
    + pose proof (mongo_create_index_indexes "email" c1) as H2.
      split; intros f Hf.
      * apply H2. left. apply H1. by left.
      * apply H2 in Hf as [Hf | (-> & _)]; [| by right; right].
        apply H1 in Hf as [Hf | (-> & _)]; [by left | by right; left].
    + split; intros f Hf.
      * apply H1. by left.
      * apply H1 in Hf as [Hf | (-> & _)]; [by left | by right; left].
  - unfold UserRepository.init_admin_user,
      UserRepository.get_user_by_username. run_st.
    destruct (UserRepository.found _); simpl; [by apply Hsame |].
    specialize (Hcreate salt (UserRepository.admin_record name secret mail) c).
    destruct (UserRepository.create_user _ _ _) as [[[id d] | e] c1];
      simpl in *; by apply Hsame.
Qed.

Lemma reachable_unique_ok c : reachable c → unique_ok c.
Proof.
  unfold reachable. revert c.
  apply (rtc_ind_r (λ c, unique_ok c) Mongo.empty).
  - intros f Hf. by apply elem_of_nil in Hf.
  - intros c1 c2 _ Hstep IH. by apply (repository_step_unique c1 c2).
Qed.

(** X1.  The store keeps its unique indexes.  In every state reached by
    repository calls, two documents at different positions never carry the
    same value under an indexed field (a missing field counting as
    [null]); and an index, once created, is there in every later state, so
    that after start-up usernames and e-mail addresses stay pairwise
    distinct whatever is created, updated or deleted. *)
Theorem unique_indexes_hold c c' f :
  reachable c →
  rtc repository_step c c' →
  f ∈ Mongo.unique c →
  f ∈ Mongo.unique c'
  ∧ ∀ i j d1 d2,
      Mongo.docs c' !! i = Some d1 →
      Mongo.docs c' !! j = Some d2 →
      Mongo.key_of f d1 = Mongo.key_of f d2 →
      i = j.
Proof.
  intros Hreach Hsteps Hf.
  assert (Hf' : f ∈ Mongo.unique c').
  { induction Hsteps as [| c1 c2 c3 Hstep _ IH]; [done |].
    apply IH; [by eapply rtc_r | by apply (repository_step_indexes c1 c2)]. }
  split; [exact Hf' |].
  assert (Hok : unique_ok c').
  { apply reachable_unique_ok. unfold reachable in *. by etrans. }
  intros i j d1 d2 Hi Hj Hkey.
  apply (NoDup_lookup _ i j (Mongo.key_of f d1) (Hok f Hf')).
  - by rewrite list_lookup_fmap, Hi.
  - by rewrite list_lookup_fmap, Hj, Hkey.
Qed.

End Uniqueness.

Lemma unique_indexes_hold_witness :
  reachable (pwd_context := demo_context) started
  ∧ "username" ∈ Mongo.unique started
  ∧ "username" ∈ Mongo.unique
      (UserRepository.create_user (pwd_context := demo_context) "s1"
         (UserCreate_dict erin) started).2.
Proof.
  assert (H : "username" ∈ Mongo.unique started) by by_evaluation.
  split; [exact started_is_reachable |]. split; [exact H |].
  apply (unique_indexes_hold (pwd_context := demo_context) started _
           "username" started_is_reachable); [| exact H].
  apply rtc_once. apply step_create_user.
Defined.

(** ** Registration, then login *)

Section RegisterLogin.
Context `{pwd_context : CryptContext}.
Variable cfg : config.

(** A dictionary that agrees with [u.dict()] on the fields of the model
    and holds a hash is read back as the stored user. *)
Lemma UserInDB_of_dict (u : UserBase) h (d : gmap string value) :
  (∀ k, k ∈ ["username"; "email"; "full_name"; "disabled"; "role"] →
        d !! k = UserBase_dict u !! k) →
  d !! "hashed_password" = Some (VStr h) →
  UserInDB_of d = Ok {| indb_base := u; hashed_password := h |}.
Proof.
  intros Hsame Hh. unfold UserInDB_of.
  rewrite (UserBase_of_dict u d Hsame). simpl.
  unfold str_required. by rewrite Hh.
Qed.

(** What a registration that was answered normally has done. *)
Lemma create_user_success salt (user : UserCreate) c base c' :
  AuthService.create_user salt user c = (Ok base, c') →
  base = create_base user
  ∧ Mongo.find_one "username" (VStr (username user)) c = None
  ∧ ∃ d, Mongo.docs c' = Mongo.docs c ++ [d]
         ∧ Mongo.unique c' = Mongo.unique c
         ∧ ∀ k, k ≠ "_id" →
             d !! k
             = (<["hashed_password" :=
                    VStr (pwd_hash salt (password user))]>
                  (UserBase_dict user)) !! k.
Proof.
  intros Hrun.
  destruct (Mongo.find_one "username" (VStr (username user)) c)
    as [d0 |] eqn:Hname.
  { by rewrite (create_user_username_taken salt user c d0 Hname) in Hrun. }
  assert (Hmail : ∀ mail, email user = Some mail → mail ≠ "" →
                          Mongo.find_one "email" (VStr mail) c = None).
  { intros mail He Hne.
    destruct (Mongo.find_one "email" (VStr mail) c) as [d1 |] eqn:Hfind;
      [| done].
    by rewrite (create_user_email_taken salt user c mail d1 Hname He Hne Hfind)
      in Hrun. }
  assert (Hchecks :
    AuthService.create_user salt user c
    = mbind_st (UserRepository.create_user salt (UserCreate_dict user))
        (λ created,
           respond_User
             (filter (λ kv : string * value, kv.1 ≠ "password") created.2))
        c).
  { unfold AuthService.create_user, UserRepository.get_user_by_username,
      UserRepository.get_user_by_email. run_st. rewrite Hname. simpl.
    destruct (email user) as [mail |] eqn:He; [| done].
    unfold str_truthy. case_bool_decide as Hempty; simpl; [done |].
    by rewrite (Hmail mail eq_refl Hempty). }
  rewrite Hchecks in Hrun. revert Hrun.
  unfold UserRepository.create_user. run_st.
  rewrite prepare_registration. simpl.
  set (prepared := <["hashed_password" := _]> (UserBase_dict user)).
  destruct (Mongo.insert_one prepared c) as [[d | e] c2] eqn:Hins; [| done].
  simpl. unfold respond_User, lift.
  apply insert_one_ok in Hins as (Hdocs & Huniq & Hsame).
  assert (Hresp : UserBase_of
                    (filter (λ kv : string * value, kv.1 ≠ "password") d)
                  = Ok (create_base user)).
  { apply UserBase_of_dict. intros k Hk.
    assert (k ≠ "password" ∧ k ≠ "_id" ∧ k ≠ "hashed_password")
      as (H1 & H2 & H3).
    { set_unfold in Hk.
      by destruct Hk as [-> | [-> | [-> | [-> | [-> | []]]]]]. }
    rewrite filter_other_key by done. rewrite Hsame by done.
    unfold prepared. by rewrite lookup_insert_ne. }
  rewrite Hresp. intros [= <- <-].
  split; [done |]. split; [done |]. by exists d.
Qed.

(** The user that a registration has stored, as [get_user] reads it. *)
Definition stored_user (salt : string) (user : UserCreate) : UserInDB :=
  {| indb_base := create_base user;
     hashed_password := pwd_hash salt (password user) |}.

Lemma registered_user_stored salt (user : UserCreate) c base c' :
  AuthService.create_user salt user c = (Ok base, c') →
  get_user (username user) c' = (Ok (Some (stored_user salt user)), c').
Proof.
  intros Hrun.
  apply create_user_success in Hrun as (_ & Hname & d & Hdocs & _ & Hsame).
  destruct (UserBase_dict_lookups user) as (Hu & _).
  assert (Hd : d !! "username" = Some (VStr (username user))).
  { rewrite Hsame by done. by rewrite lookup_insert_ne. }
  assert (Hfind : Mongo.find_one "username" (VStr (username user)) c'
                  = Some d).
  { unfold Mongo.find_one. rewrite Hdocs.
    apply find_app_miss; [exact Hname |].
    unfold Mongo.matches. apply bool_decide_eq_true_2.
    by apply key_of_string. }
  unfold get_user, UserRepository.get_user_by_username. run_st.
  rewrite Hfind, (find_one_truthy _ _ _ _ Hfind).
  rewrite (UserInDB_of_dict (create_base user)
             (pwd_hash salt (password user))); [done | |].
  - intros k Hk.
    assert (k ≠ "_id" ∧ k ≠ "hashed_password") as (H2 & H3).
    { set_unfold in Hk.
      by destruct Hk as [-> | [-> | [-> | [-> | [-> | []]]]]]. }
    rewrite Hsame by done. by rewrite lookup_insert_ne.
  - rewrite Hsame by done. apply lookup_insert_eq.
Qed.

(** X2.  A registration that is answered normally echoes the identity that
    was sent, appends exactly one document, and from then on [get_user]
    for that username returns that identity (the role the client chose
    included) together with the hash of the password under the salt
    drawn. *)
Theorem registration_round_trip salt (user : UserCreate) c base c' :
  AuthService.create_user salt user c = (Ok base, c') →
  base = create_base user
  ∧ length (Mongo.docs c') = S (length (Mongo.docs c))
  ∧ get_user (username user) c'
    = (Ok (Some {| indb_base := create_base user;
                   hashed_password := pwd_hash salt (password user) |}), c').
Proof.
  intros Hrun. split; [| split].
  - by apply create_user_success in Hrun as (? & _).
  - apply create_user_success in Hrun as (_ & _ & d & -> & _).
    rewrite length_app. simpl. lia.
  - by apply (registered_user_stored salt user c base c').
Qed.

Lemma login_of_stored name secret now c u :
  get_user name c = (Ok (Some u), c) →
  AuthService.login_for_access_token cfg name secret now c
  = (if UserRepository.verify_password secret (hashed_password u)
     then Ok (create_access_token cfg (subject_claims (username u) (role u))
                (Some (minutes (ACCESS_TOKEN_EXPIRE_MINUTES cfg))) now)
     else Raise (HTTPException 401 "Incorrect username or password"), c).
Proof.
  intros Huser. unfold AuthService.login_for_access_token,
    AuthService.authenticate_user. run_st. rewrite Huser.
  by destruct (UserRepository.verify_password _ _).
Qed.

(** X3.  Register, then log in with the same name and password: when the
    password context accepts the password against the hash it made, the
    login returns a token, leaves the store as it is, and that token,
    validated at any time up to its expiry, yields the registered
    username and role. *)
Theorem register_then_login salt (user : UserCreate) c base c' now t :
  AuthService.create_user salt user c = (Ok base, c') →
  pwd_verify (password user) (pwd_hash salt (password user)) = true →
  t ≤ expire_at (Some (minutes (ACCESS_TOKEN_EXPIRE_MINUTES cfg))) now →
  ∃ token,
    AuthService.login_for_access_token cfg (username user) (password user)
      now c' = (Ok token, c')
    ∧ AuthService.current_token_data cfg token t
      = Ok {| td_username := Some (username user);
              td_role := Some (role user) |}.
Proof.
  intros Hrun Hverify Ht.
  pose proof (registered_user_stored salt user c base c' Hrun) as Hstored.
  eexists. split.
  - rewrite (login_of_stored _ _ _ _ _ Hstored).
    unfold UserRepository.verify_password. simpl. by rewrite Hverify.
  - simpl.
    rewrite (current_token_data_issued _ _ _ (username user))
      by (apply subject_claims_sub || apply plain_subject_claims).
    rewrite subject_claims_role.
    destruct (Z.ltb_spec
                (expire_at (Some (minutes (ACCESS_TOKEN_EXPIRE_MINUTES cfg)))
                   now) t); [lia | done].
Qed.

(** X4.  No token without a verified password: whenever the login returns
    a token, a record with that username is stored, the password context
    has accepted the given password against the stored hash, and the token
    is the one issued for that record's username and role with the
    configured time to live; the store is not written. *)
Theorem login_sound name secret now c token c' :
  AuthService.login_for_access_token cfg name secret now c = (Ok token, c') →
  c' = c
  ∧ ∃ u, get_user name c = (Ok (Some u), c)
         ∧ username u = name
         ∧ pwd_verify secret (hashed_password u) = true
         ∧ token = create_access_token cfg (subject_claims name (role u))
                     (Some (minutes (ACCESS_TOKEN_EXPIRE_MINUTES cfg))) now.
Proof.
  unfold AuthService.login_for_access_token, AuthService.authenticate_user.
  run_st. pose proof (get_user_reads name c) as Hread.
  destruct (get_user name c) as [[[u |] | e] c1] eqn:Huser; simpl in *;
    subst c1; try done.
  unfold UserRepository.verify_password.
  destruct (pwd_verify secret (hashed_password u)) eqn:Hverify; simpl;
    [| done].
  intros [= <- <-]. split; [done |]. exists u.
  pose proof (get_user_named _ _ _ _ Huser) as Hname.
  split; [done |]. split; [done |]. split; [done |]. by rewrite Hname.
Qed.

(** X5.  The login answers 401 with the same message, and writes nothing,
    both when no record has the username and when the password context
    rejects the password against the stored hash; whether the account is
    disabled plays no part in either direction. *)
Theorem login_rejects name secret now c :
  (get_user name c = (Ok None, c) →
   AuthService.login_for_access_token cfg name secret now c
   = (Raise (HTTPException 401 "Incorrect username or password"), c))
  ∧ (∀ u, get_user name c = (Ok (Some u), c) →
          AuthService.login_for_access_token cfg name secret now c
          = (if pwd_verify secret (hashed_password u)
             then Ok (create_access_token cfg
                        (subject_claims (username u) (role u))
                        (Some (minutes (ACCESS_TOKEN_EXPIRE_MINUTES cfg)))
                        now)
             else Raise (HTTPException 401
                           "Incorrect username or password"), c)).
Proof.
  split.
  - intros Hnone. unfold AuthService.login_for_access_token,
      AuthService.authenticate_user. run_st. by rewrite Hnone.
  - intros u Huser. by rewrite (login_of_stored _ _ _ _ _ Huser).
Qed.

End RegisterLogin.

Lemma erin_is_registered :
  AuthService.create_user (pwd_context := demo_context) "s2" erin with_bob
  = (Ok (create_base erin), with_erin).
Proof. by_evaluation. Qed.

Lemma registration_round_trip_witness :
  AuthService.create_user (pwd_context := demo_context) "s2" erin with_bob
    = (Ok (create_base erin), with_erin)
  ∧ get_user "erin" with_erin
    = (Ok (Some {| indb_base := create_base erin;
                   hashed_password := demo_hash "s2" "pw456" |}), with_erin).
Proof.
  split; [exact erin_is_registered |].
  exact (proj2 (proj2 (registration_round_trip (pwd_context := demo_context)
                         "s2" erin with_bob _ _ erin_is_registered))).
Defined.

Lemma register_then_login_witness :
  AuthService.create_user (pwd_context := demo_context) "s2" erin with_bob
    = (Ok (create_base erin), with_erin)
  ∧ pwd_verify (CryptContext := demo_context) "pw456"
      (demo_hash "s2" "pw456") = true
  ∧ ∃ token,
      AuthService.login_for_access_token (pwd_context := demo_context)
        default_config "erin" "pw456" 0 with_erin = (Ok token, with_erin)
      ∧ AuthService.current_token_data default_config token 1800
        = Ok {| td_username := Some "erin"; td_role := Some "user" |}.
Proof.
  assert (Hv : pwd_verify (CryptContext := demo_context) "pw456"
                 (demo_hash "s2" "pw456") = true) by by_evaluation.
  split; [exact erin_is_registered |]. split; [exact Hv |].
  apply (register_then_login (pwd_context := demo_context) default_config
           "s2" erin with_bob _ with_erin 0 1800 erin_is_registered Hv).
  by_evaluation.
Defined.

Lemma login_sound_witness :
  AuthService.login_for_access_token (pwd_context := demo_context)
    default_config "bob" "pw123" 0 with_bob = (Ok bob_token, with_bob)
  ∧ ∃ u, get_user "bob" with_bob = (Ok (Some u), with_bob)
         ∧ username u = "bob"
         ∧ pwd_verify (CryptContext := demo_context) "pw123"
             (hashed_password u) = true
         ∧ bob_token
           = create_access_token default_config
               (subject_claims "bob" (role u))
               (Some (minutes (ACCESS_TOKEN_EXPIRE_MINUTES default_config))) 0.
Proof.
  split; [exact (proj2 logins_return_the_tokens) |].
  exact (proj2 (login_sound (pwd_context := demo_context) default_config
                  "bob" "pw123" 0 with_bob bob_token with_bob
                  (proj2 logins_return_the_tokens))).
Defined.

(** ** Accounts that are disabled, tokens that are not the service's *)

Section MoreGuard.
Variable cfg : config.

(** X6.  A valid token of a disabled account is turned away with 400
    ("Inactive user") by everything that depends on the active user, the
    store staying as it is; the admin guard does not look at the flag, so
    a disabled admin still passes it. *)
Theorem disabled_account_guard token now c u :
  AuthService.get_current_user cfg token now c = (Ok u, c) →
  disabled u = Some true →
  let inactive := HTTPException 400 "Inactive user" in
  AuthService.active_user_dependency cfg token now c = (Raise inactive, c)
  ∧ AuthService.request_read_users_me cfg token now c = (Raise inactive, c)
  ∧ (∀ (pwd_context : CryptContext) salt user_update,
       AuthService.request_update_user_me (pwd_context := pwd_context)
         cfg token now salt user_update c
       = (Raise inactive, c))
  ∧ (role u = "admin" →
     AuthService.admin_user_dependency cfg token now c = (Ok u, c)).
Proof.
  intros Hget Hdis inactive.
  assert (Hact : AuthService.active_user_dependency cfg token now c
                 = (Raise inactive, c)).
  { unfold AuthService.active_user_dependency. run_st. rewrite Hget.
    unfold AuthService.get_current_active_user. by rewrite Hdis. }
  split; [exact Hact |]. split; [| split].
  - unfold AuthService.request_read_users_me. run_st. by rewrite Hact.
  - intros pwd_context salt user_update.
    unfold AuthService.request_update_user_me. run_st. by rewrite Hact.
  - intros Hrole. rewrite (admin_user_dependency_stored _ _ _ _ _ Hget).
    unfold AuthService.get_admin_user.
    by rewrite (bool_decide_eq_true_2 _ Hrole).
Qed.

Lemma decode_foreign token key alg now :
  signed_with key alg token = false →
  Jose.decode token key [alg] now = Raise JWTError.
Proof.
  destruct token as [s | a claims k]; [done |]. simpl.
  intros Hforeign. apply andb_false_iff in Hforeign as [Ha | Hk].
  - apply bool_decide_eq_false_1 in Ha.
    rewrite (bool_decide_eq_false_2 (a ∈ [alg])); [done |].
    by intros ->%list_elem_of_singleton.
  - destruct (bool_decide (a ∈ [alg])); [| done]. simpl.
    by rewrite Hk.
Qed.

(** X7.  A token that is not a signed token at all, or that was signed
    with another key or under another algorithm than the service's own,
    is refused with the credentials exception (401) whatever claims it
    carries and whatever the clock says: by the auth service, which does
    not touch the store, by the information service and by the local
    decoding of the user service. *)
Theorem foreign_token_rejected token now :
  (signed_with (SECRET_KEY cfg) (ALGORITHM cfg) token = false →
   AuthService.current_token_data cfg token now
     = Raise AuthService.credentials_exception
   ∧ ∀ c, AuthService.get_current_user cfg token now c
          = (Raise AuthService.credentials_exception, c))
  ∧ (signed_with InfoService.SECRET_KEY InfoService.ALGORITHM token = false →
     InfoService.get_current_user token now
       = Raise InfoService.credentials_exception
     ∧ UserService.fallback token now
       = Raise UserService.credentials_exception).
Proof.
  split.
  - intros Hforeign.
    assert (Htd : AuthService.current_token_data cfg token now
                  = Raise AuthService.credentials_exception).
    { unfold AuthService.current_token_data.
      by rewrite (decode_foreign _ _ _ _ Hforeign). }
    split; [exact Htd |]. intros c.
    unfold AuthService.get_current_user. run_st. by rewrite Htd.
  - intros Hforeign. split.
    + unfold InfoService.get_current_user.
      by rewrite (decode_foreign _ _ _ _ Hforeign).
    + unfold UserService.fallback.
      change UserService.SECRET_KEY with InfoService.SECRET_KEY.
      change UserService.ALGORITHM with InfoService.ALGORITHM.
      by rewrite (decode_foreign _ _ _ _ Hforeign).
Qed.

Lemma find_all_false (p : gmap string value → bool) l :
  (∀ x, x ∈ l → p x = false) → List.find p l = None.
Proof.
  induction l as [| x l IH]; [done |]. intros Hall. simpl.
  rewrite (Hall x) by apply list_elem_of_here.
  apply IH. intros y Hy. apply Hall. by apply list_elem_of_further.
Qed.

(** Under a unique index on the field, deleting the first match leaves no
    match. *)
Lemma delete_one_gone field v c :
  unique_ok c → field ∈ Mongo.unique c →
  Mongo.find_one field v (Mongo.delete_one field v c).2 = None.
Proof.
  intros Hok Hf. unfold Mongo.delete_one, Mongo.find_one.
  pose proof (split_first_find (Mongo.matches field v) (Mongo.docs c)) as Hsp.
  destruct (Mongo.split_first _ _) as [[[pre d] post] |]; [| done].
  destruct Hsp as (Hdocs & Hd & _). simpl.
  specialize (Hok field Hf). rewrite Hdocs, fmap_app in Hok. simpl in Hok.
  apply NoDup_app in Hok as (_ & Hdisj & Hrest).
  apply NoDup_cons in Hrest as [Hpost _].
  unfold Mongo.matches in Hd. apply bool_decide_eq_true_1 in Hd.
  apply find_all_false. intros x Hx. unfold Mongo.matches.
  apply bool_decide_eq_false_2. intros Hkey.
  apply elem_of_app in Hx as [Hx | Hx].
  - apply (Hdisj (Mongo.key_of field x)).
    + by apply list_elem_of_fmap_2.
    + rewrite Hkey, <- Hd. apply list_elem_of_here.
  - apply Hpost. rewrite Hd, <- Hkey. by apply list_elem_of_fmap_2.
Qed.

(** X8.  Once an admin has deleted an account, every token that names it
    is refused with 401, however valid its signature and expiry: with the
    unique index on [username] in place, no record answers to the name
    any more. *)
Theorem deleted_account_token_rejected
    name current_user c c' token now token_role :
  unique_ok c → "username" ∈ Mongo.unique c →
  AuthService.delete_user name current_user c = (Ok (), c') →
  AuthService.current_token_data cfg token now
    = Ok {| td_username := Some name; td_role := token_role |} →
  Mongo.find_one "username" (VStr name) c' = None
  ∧ AuthService.get_current_user cfg token now c'
    = (Raise AuthService.credentials_exception, c').
Proof.
  intros Hok Hindexed Hdel Htd.
  assert (Hgone : Mongo.find_one "username" (VStr name) c' = None).
  { pose proof (delete_one_gone "username" (VStr name) c Hok Hindexed) as Hg.
    revert Hdel. unfold AuthService.delete_user.
    case_bool_decide; [done |].
    unfold UserRepository.delete_user. run_st.
    destruct (Mongo.delete_one "username" (VStr name) c) as [[n | e] c1];
      simpl in *; [| done].
    destruct (0 <? n); simpl; [| done]. by intros [= <-]. }
  split; [exact Hgone |].
  unfold AuthService.get_current_user. run_st. rewrite Htd. simpl.
  unfold get_user, UserRepository.get_user_by_username. run_st.
  by rewrite Hgone.
Qed.

End MoreGuard.

Lemma with_bob_is_reachable : reachable (pwd_context := demo_context) with_bob.
Proof.
  assert (Heq : with_bob
                = (UserRepository.create_user (pwd_context := demo_context)
                     "s1"
                     (UserCreate_dict
                        (registration "bob" (Some "bob@example.com")
                           (Some "Bob") "user" "pw123")) started).2)
    by by_evaluation.
  rewrite Heq. unfold reachable.
  eapply rtc_r; [exact started_is_reachable | apply step_create_user].
Qed.

Lemma disabled_account_guard_witness :
  AuthService.get_current_user default_config bob_token 10 bob_disabled
    = (Ok bob_user_disabled, bob_disabled)
  ∧ disabled bob_user_disabled = Some true
  ∧ AuthService.active_user_dependency default_config bob_token 10
      bob_disabled
    = (Raise (HTTPException 400 "Inactive user"), bob_disabled).
Proof.
  assert (H : AuthService.get_current_user default_config bob_token 10
                bob_disabled = (Ok bob_user_disabled, bob_disabled))
    by by_evaluation.
  split; [exact H |]. split; [reflexivity |].
  exact (proj1 (disabled_account_guard default_config bob_token 10
                  bob_disabled bob_user_disabled H eq_refl)).
Defined.

Lemma deleted_account_token_rejected_witness :
  AuthService.delete_user "bob" admin_user with_bob = (Ok (), bob_deleted)
  ∧ "username" ∈ Mongo.unique with_bob
  ∧ AuthService.get_current_user default_config bob_token 10 with_bob
    = (Ok bob_user, with_bob)
  ∧ AuthService.get_current_user default_config bob_token 10 bob_deleted
    = (Raise AuthService.credentials_exception, bob_deleted).
Proof.
  assert (H1 : AuthService.delete_user "bob" admin_user with_bob
               = (Ok (), bob_deleted)) by by_evaluation.
  assert (H2 : "username" ∈ Mongo.unique with_bob) by by_evaluation.
  assert (H3 : AuthService.current_token_data default_config bob_token 10
               = Ok {| td_username := Some "bob"; td_role := Some "user" |})
    by by_evaluation.
  split; [exact H1 |]. split; [exact H2 |].
  split; [exact bob_is_authenticated |].
  exact (proj2 (deleted_account_token_rejected default_config "bob" admin_user
                  with_bob bob_deleted bob_token 10 (Some "user")
                  (reachable_unique_ok (pwd_context := demo_context)
                     with_bob with_bob_is_reachable)
                  H2 H1 H3)).
Defined.

(** ** Updates that are applied *)

Section UpdatesApplied.
Context `{pwd_context : CryptContext}.
Variable cfg : config.

Lemma drop_none_lookup (d : gmap string value) k :
  drop_none d !! k = match d !! k with Some VNone => None | o => o end.
Proof.
  unfold drop_none. destruct (d !! k) as [v |] eqn:Hd.
  - destruct (decide (v = VNone)) as [-> | Hv].
    + apply map_lookup_filter_None_2. right. intros x Hx.
      rewrite Hd in Hx. injection Hx as <-. simpl. by intros [].
    + rewrite (map_lookup_filter_Some_2 _ _ k v Hd Hv). by destruct v.
  - apply map_lookup_filter_None_2. by left.
Qed.

Lemma update_data_lookups (u : UserUpdate) :
  update_data_of u !! "email" = VStr <$> upd_email u
  ∧ update_data_of u !! "password" = VStr <$> upd_password u
  ∧ update_data_of u !! "role" = VStr <$> upd_role u.
Proof.
  unfold update_data_of. rewrite !drop_none_lookup.
  unfold UserUpdate_dict.
  split; [| split].
  - rewrite lookup_insert_eq. by destruct (upd_email u).
  - do 2 (rewrite lookup_insert_ne by done). rewrite lookup_insert_eq.
    by destruct (upd_password u).
  - do 4 (rewrite lookup_insert_ne by done). rewrite lookup_insert_eq.
    by destruct (upd_role u).
Qed.

Lemma update_data_set_role new_role :
  update_data_of (set_role new_role) = {["role" := VStr new_role]}.
Proof.
  apply map_eq. intros k. unfold update_data_of.
  rewrite drop_none_lookup. unfold UserUpdate_dict, set_role. simpl.
  destruct (decide (k = "role")) as [-> | Hrole].
  { do 4 (rewrite lookup_insert_ne by done).
    by rewrite lookup_insert_eq, lookup_singleton_eq. }
  rewrite lookup_singleton_ne by done.
  destruct (decide (k = "email")) as [-> | ?];
    [by rewrite lookup_insert_eq | rewrite lookup_insert_ne by done].
  destruct (decide (k = "full_name")) as [-> | ?];
    [by rewrite lookup_insert_eq | rewrite lookup_insert_ne by done].
  destruct (decide (k = "password")) as [-> | ?];
    [by rewrite lookup_insert_eq | rewrite lookup_insert_ne by done].
  destruct (decide (k = "disabled")) as [-> | ?];
    [by rewrite lookup_insert_eq | rewrite lookup_insert_ne by done].
  rewrite lookup_insert_ne by done. by rewrite lookup_empty.
Qed.

Lemma split_first_pre p l pre d post :
  Mongo.split_first p l = Some (pre, d, post) →
  ∀ x, x ∈ pre → p x = false.
Proof.
  revert pre. induction l as [| y l IH]; intros pre; simpl; [done |].
  destruct (p y) eqn:Hy.
  - intros [= <- _ _] x Hx. by apply elem_of_nil in Hx.
  - destruct (Mongo.split_first p l) as [[[pre' d'] post'] |]; [| done].
    intros [= <- <- <-] x Hx.
    apply elem_of_cons in Hx as [-> | Hx]; [done | by apply (IH pre')].
Qed.

Lemma find_middle (p : gmap string value → bool) pre d post :
  (∀ x, x ∈ pre → p x = false) → p d = true →
  List.find p (pre ++ d :: post) = Some d.
Proof.
  intros Hpre Hd. induction pre as [| y pre IH]; simpl.
  - by rewrite Hd.
  - rewrite (Hpre y) by apply list_elem_of_here.
    apply IH. intros x Hx. apply Hpre. by apply list_elem_of_further.
Qed.

(** A replacement that keeps the indexed keys of the document it replaces
    cannot collide with the other documents. *)
Lemma violates_same_keys c pre d post d' :
  unique_ok c → Mongo.docs c = pre ++ d :: post →
  (∀ f, f ∈ Mongo.unique c → Mongo.key_of f d' = Mongo.key_of f d) →
  Mongo.violates (Mongo.unique c) d' (pre ++ post) = false.
Proof.
  intros Hok Hdocs Hkeys.
  destruct (Mongo.violates _ _ _) eqn:Hv; [| done]. exfalso.
  unfold Mongo.violates in Hv.
  apply existsb_exists in Hv as (f & Hf & Hex).
  apply existsb_exists in Hex as (x & Hx & Hm).
  apply list_elem_of_In in Hf. apply list_elem_of_In in Hx.
  unfold Mongo.matches in Hm. apply bool_decide_eq_true_1 in Hm.
  rewrite (Hkeys f Hf) in Hm.
  specialize (Hok f Hf). rewrite Hdocs, fmap_app in Hok. simpl in Hok.
  apply NoDup_app in Hok as (_ & Hdisj & Hrest).
  apply NoDup_cons in Hrest as [Hpost _].
  apply elem_of_app in Hx as [Hx | Hx].
  - apply (Hdisj (Mongo.key_of f x)).
    + by apply list_elem_of_fmap_2.
    + rewrite Hm. apply list_elem_of_here.
  - apply Hpost. rewrite <- Hm. by apply list_elem_of_fmap_2.
Qed.

(** An [update_one] that changes the first match, keeping its indexed keys
    and its [_id]. *)
Lemma update_one_applies field v (fields : gmap string value) c d :
  unique_ok c →
  Mongo.find_one field v c = Some d →
  fields ∪ d ≠ d →
  Mongo.key_of "_id" (fields ∪ d) = Mongo.key_of "_id" d →
  (∀ f, f ∈ Mongo.unique c →
        Mongo.key_of f (fields ∪ d) = Mongo.key_of f d) →
  ∃ pre post,
    Mongo.docs c = pre ++ d :: post
    ∧ (∀ x, x ∈ pre → Mongo.matches field v x = false)
    ∧ Mongo.update_one field v fields c
      = (Ok 1, {| Mongo.docs := pre ++ (fields ∪ d) :: post;
                  Mongo.unique := Mongo.unique c;
                  Mongo.next_oid := Mongo.next_oid c |}).
Proof.
  intros Hok Hfind Hchange Hid Hkeys.
  apply find_split_first in Hfind as (pre & post & Hsp & Hdocs).
  exists pre, post. split; [done |].
  split; [by apply (split_first_pre _ _ _ _ _ Hsp) |].
  unfold Mongo.update_one. rewrite Hsp.
  rewrite (bool_decide_eq_false_2 _ Hchange).
  rewrite (bool_decide_eq_true_2 _ Hid). simpl.
  by rewrite (violates_same_keys c pre d post _ Hok Hdocs Hkeys).
Qed.

Lemma UserInDB_of_inv d (u : UserInDB) :
  UserInDB_of d = Ok u →
  str_required d "username" = Ok (username u)
  ∧ str_optional d "email" = Ok (email u)
  ∧ str_optional d "full_name" = Ok (full_name u)
  ∧ bool_optional d "disabled" (Some false) = Ok (disabled u)
  ∧ str_default d "role" "user" = Ok (role u)
  ∧ str_required d "hashed_password" = Ok (hashed_password u).
Proof.
  unfold UserInDB_of, UserBase_of.
  destruct (str_required d "username"); simpl; [| done].
  destruct (str_optional d "email"); simpl; [| done].
  destruct (str_optional d "full_name"); simpl; [| done].
  destruct (bool_optional d "disabled" _); simpl; [| done].
  destruct (str_default d "role" _); simpl; [| done].
  destruct (str_required d "hashed_password"); simpl; [| done].
  by intros [= <-].
Qed.

(** The stored document with another role is read back as the user with
    that role. *)
Lemma UserInDB_of_role d (u : UserInDB) new_role :
  UserInDB_of d = Ok u →
  UserInDB_of (<["role" := VStr new_role]> d) = Ok (with_role new_role u).
Proof.
  intros Hu.
  apply UserInDB_of_inv in Hu as (H1 & H2 & H3 & H4 & _ & H6).
  unfold UserInDB_of, UserBase_of, str_required, str_optional,
    bool_optional, str_default in *.
  rewrite lookup_insert_eq.
  rewrite !(lookup_insert_ne _ "role") by done.
  rewrite H1, H2, H3, H4. simpl. by rewrite H6.
Qed.

(** X9.  The role is a self-service field.  With the store's unique
    indexes in place (none of them on [role]), an authenticated user who
    sends a new role to [PUT /users/me/] has it stored and returned, no
    privilege being asked for; from then on every valid token that names
    the user passes the admin guard of the auth service when the new role
    is ["admin"]. *)
Theorem role_is_self_service salt (current_user : UserInDB) new_role doc c :
  unique_ok c → "role" ∉ Mongo.unique c →
  Mongo.find_one "username" (VStr (username current_user)) c = Some doc →
  UserInDB_of doc = Ok current_user →
  new_role ≠ role current_user →
  ∃ c',
    AuthService.update_user_me salt (set_role new_role) current_user c
      = (Ok (indb_base (with_role new_role current_user)), c')
    ∧ get_user (username current_user) c'
      = (Ok (Some (with_role new_role current_user)), c')
    ∧ (∀ token now token_role,
         new_role = "admin" →
         AuthService.current_token_data cfg token now
           = Ok {| td_username := Some (username current_user);
                   td_role := token_role |} →
         AuthService.admin_user_dependency cfg token now c'
         = (Ok (with_role new_role current_user), c')).
Proof.
  intros Hok Hnorole Hfind Hparse Hnew.
  set (name := username current_user) in *.
  assert (Hunion : ({["role" := VStr new_role]} : gmap string value) ∪ doc
                   = <["role" := VStr new_role]> doc)
    by by rewrite <- insert_union_singleton_l.
  assert (Hchange : ({["role" := VStr new_role]} : gmap string value) ∪ doc
                    ≠ doc).
  { rewrite Hunion. intros Heq.
    assert (Hl : doc !! "role" = Some (VStr new_role))
      by by rewrite <- Heq, lookup_insert_eq.
    apply UserInDB_of_inv in Hparse as (_ & _ & _ & _ & Hr & _).
    unfold str_default in Hr. rewrite Hl in Hr. by injection Hr. }
  destruct (update_one_applies "username" (VStr name)
              {["role" := VStr new_role]} c doc Hok Hfind Hchange)
    as (pre & post & Hdocs & Hpre & Hupd).
  { rewrite Hunion. unfold Mongo.key_of. by rewrite lookup_insert_ne. }
  { intros f Hf. rewrite Hunion. unfold Mongo.key_of.
    rewrite lookup_insert_ne; [done |]. by intros <-. }
  rewrite Hunion in Hupd.
  set (c' := {| Mongo.docs := pre ++ <["role" := VStr new_role]> doc :: post;
                Mongo.unique := Mongo.unique c;
                Mongo.next_oid := Mongo.next_oid c |}) in *.
  assert (Huser : get_user name c'
                  = (Ok (Some (with_role new_role current_user)), c')).
  { unfold get_user, UserRepository.get_user_by_username. run_st.
    assert (Hfind' : Mongo.find_one "username" (VStr name) c'
                     = Some (<["role" := VStr new_role]> doc)).
    { unfold Mongo.find_one. simpl. apply find_middle; [exact Hpre |].
      apply find_one_matches in Hfind as [_ Hkey].
      unfold Mongo.matches. apply bool_decide_eq_true_2.
      unfold Mongo.key_of in *. by rewrite lookup_insert_ne. }
    rewrite Hfind', (find_one_truthy _ _ _ _ Hfind').
    by rewrite (UserInDB_of_role _ _ _ Hparse). }
  exists c'. split; [| split; [exact Huser |]].
  - unfold AuthService.update_user_me. rewrite update_data_set_role.
    assert (Htruthy : dict_truthy
                        ({["role" := VStr new_role]} : gmap string value)
                      = true).
    { unfold dict_truthy. rewrite bool_decide_eq_false_2; [done |].
      apply map_non_empty_singleton. }
    rewrite Htruthy. run_st.
    rewrite (lookup_singleton_ne "role" "email") by done.
    unfold UserRepository.update_user. run_st.
    unfold UserRepository.hash_password_field.
    rewrite (lookup_singleton_ne "role" "password") by done.
    fold name. rewrite Hupd. simpl. by rewrite Huser.
  - intros token now token_role -> Htd.
    unfold AuthService.admin_user_dependency, AuthService.get_current_user.
    run_st. rewrite Htd. simpl. fold name. by rewrite Huser.
Qed.

End UpdatesApplied.

Lemma role_is_self_service_witness :
  Mongo.find_one "username" (VStr "bob") with_bob = Some bob_document
  ∧ UserInDB_of bob_document = Ok bob_user
  ∧ ("role" ∉ Mongo.unique with_bob)
  ∧ ∃ c',
      AuthService.update_user_me (pwd_context := demo_context) "s2"
        (set_role "admin") bob_user with_bob
        = (Ok (indb_base (with_role "admin" bob_user)), c')
      ∧ AuthService.admin_user_dependency default_config bob_token 10 c'
        = (Ok (with_role "admin" bob_user), c').
Proof.
  assert (H1 : UserInDB_of bob_document = Ok bob_user) by by_evaluation.
  assert (H2 : "role" ∉ Mongo.unique with_bob) by by_evaluation.
  assert (H3 : AuthService.current_token_data default_config bob_token 10
               = Ok {| td_username := Some "bob"; td_role := Some "user" |})
    by by_evaluation.
  split; [exact bob_document_found |]. split; [exact H1 |].
  split; [exact H2 |].
  destruct (role_is_self_service (pwd_context := demo_context) default_config
              "s2" bob_user "admin" bob_document with_bob
              (reachable_unique_ok (pwd_context := demo_context) with_bob
                 with_bob_is_reachable)
              H2 bob_document_found H1 ltac:(done))
    as (c' & Hupd & _ & Hadmin).
  exists c'. split; [exact Hupd |].
  exact (Hadmin bob_token 10 (Some "user") eq_refl H3).
Defined.

(** ** Updates and lookups that are refused *)

Section Refusals.
Context `{pwd_context : CryptContext}.

Lemma update_data_truthy (u : UserUpdate) k v :
  update_data_of u !! k = Some v → dict_truthy (update_data_of u) = true.
Proof.
  intros Hk. unfold dict_truthy. rewrite bool_decide_eq_false_2; [done |].
  intros Hempty. rewrite Hempty in Hk. rewrite lookup_empty in Hk.
  discriminate Hk.
Qed.

(** X10.  An update that names an e-mail address which another record
    already carries is answered 400 ("Email already registered") and
    writes nothing: on [PUT /users/me/] whenever the address differs from
    the caller's own, on [PUT /admin/users/{username}] whenever it differs
    from the target's stored one and the record carrying it has another
    username. *)
Theorem update_email_conflict salt (user_update : UserUpdate) mail other c :
  upd_email user_update = Some mail →
  Mongo.find_one "email" (VStr mail) c = Some other →
  let conflict := HTTPException 400 "Email already registered" in
  (∀ current_user : UserInDB,
     email current_user ≠ Some mail →
     AuthService.update_user_me salt user_update current_user c
     = (Raise conflict, c))
  ∧ (∀ name target stored other_name (current_user : UserInDB),
       Mongo.find_one "username" (VStr name) c = Some target →
       target !! "email" = Some stored → stored ≠ VStr mail →
       other !! "username" = Some other_name → other_name ≠ VStr name →
       AuthService.admin_update_user salt name user_update current_user c
       = (Raise conflict, c)).
Proof.
  intros Hmail Hother conflict.
  destruct (update_data_lookups user_update) as (Hemail & _).
  rewrite Hmail in Hemail. simpl in Hemail.
  pose proof (update_data_truthy _ _ _ Hemail) as Htruthy.
  pose proof (find_one_truthy _ _ _ _ Hother) as Hot.
  split.
  - intros current_user Hdiff. unfold AuthService.update_user_me.
    rewrite Htruthy, Hemail. run_st.
    rewrite bool_decide_eq_false_2.
    2:{ destruct (email current_user) as [own |]; simpl; [| done].
        intros [= ->]. by apply Hdiff. }
    simpl. unfold UserRepository.get_user_by_email. rewrite Hother. simpl.
    by rewrite Hot.
  - intros name target stored other_name current_user Htarget Hstored Hdiff
      Hname Hne.
    unfold AuthService.admin_update_user,
      UserRepository.get_user_by_username. run_st.
    rewrite Htarget. rewrite (find_one_truthy _ _ _ _ Htarget). simpl.
    rewrite Htruthy, Hemail, Hstored. run_st.
    rewrite bool_decide_eq_false_2;
      [| intros Heq; apply Hdiff; exact (eq_sym Heq)].
    simpl.
    unfold UserRepository.get_user_by_email. rewrite Hother. simpl.
    rewrite Hot, Hname.
    by rewrite (bool_decide_eq_false_2 _ Hne).
Qed.

(** X11.  The admin routes that name an account answer 404 ("User not
    found") and leave the store as it is when no record has the username:
    the lookup, the update (before any of its fields is looked at) and
    the deletion (for any name but the caller's own). *)
Theorem unknown_account_not_found name (current_user : UserInDB) c :
  Mongo.find_one "username" (VStr name) c = None →
  let missing := HTTPException 404 "User not found" in
  AuthService.get_user_by_username name current_user c = (Raise missing, c)
  ∧ (∀ salt user_update,
       AuthService.admin_update_user salt name user_update current_user c
       = (Raise missing, c))
  ∧ (name ≠ username current_user →
     AuthService.delete_user name current_user c = (Raise missing, c)).
Proof.
  intros Hnone missing. split; [| split].
  - unfold AuthService.get_user_by_username,
      UserRepository.get_user_by_username. run_st. by rewrite Hnone.
  - intros salt user_update. unfold AuthService.admin_update_user,
      UserRepository.get_user_by_username. run_st. by rewrite Hnone.
  - intros Hother. unfold AuthService.delete_user.
    rewrite (bool_decide_eq_false_2 _ Hother).
    unfold UserRepository.delete_user, Mongo.delete_one. run_st.
    by rewrite (find_none_split_first _ _ Hnone).
Qed.

End Refusals.

Lemma update_email_conflict_witness :
  let taken :=
    {| upd_email := Some "admin@example.com"; upd_full_name := None;
       upd_password := None; upd_disabled := None; upd_role := None |} in
  (∃ other, Mongo.find_one "email" (VStr "admin@example.com") with_bob
            = Some other)
  ∧ AuthService.update_user_me (pwd_context := demo_context) "s2" taken
      bob_user with_bob
    = (Raise (HTTPException 400 "Email already registered"), with_bob).
Proof.
  intros taken.
  destruct (Mongo.find_one "email" (VStr "admin@example.com") with_bob)
    as [other |] eqn:Hother.
  - split; [by exists other |].
    apply (proj1 (update_email_conflict (pwd_context := demo_context) "s2"
                    taken "admin@example.com" other with_bob eq_refl Hother)).
    discriminate.
  - exfalso. revert Hother. by_evaluation.
Defined.

Lemma unknown_account_not_found_witness :
  Mongo.find_one "username" (VStr "zoe") with_bob = None
  ∧ AuthService.get_user_by_username "zoe" admin_user with_bob
    = (Raise (HTTPException 404 "User not found"), with_bob).
Proof.
  assert (H : Mongo.find_one "username" (VStr "zoe") with_bob = None)
    by by_evaluation.
  split; [exact H |].
  exact (proj1 (unknown_account_not_found (pwd_context := demo_context)
                  "zoe" admin_user with_bob H)).
Defined.

(** ** Ordered dictionaries *)

Section DictFacts.
Context {V : Type}.
Implicit Types (d : list (string * V)) (k : string) (v : V).

Lemma dict_get_set_eq k v d : PyDict.get k (PyDict.set k v d) = Some v.
Proof.
  induction d as [| [k' v'] d IH]; simpl.
  - by rewrite bool_decide_eq_true_2.
  - case_bool_decide as Hk; simpl.
    + by rewrite bool_decide_eq_true_2.
    + by rewrite (bool_decide_eq_false_2 _ Hk).
Qed.

Lemma dict_get_set_ne k k' v d :
  k ≠ k' → PyDict.get k' (PyDict.set k v d) = PyDict.get k' d.
Proof.
  intros Hne. induction d as [| [k0 v0] d IH]; simpl.
  - by rewrite (bool_decide_eq_false_2 _ Hne).
  - case_bool_decide as Hk; simpl.
    + subst k0. by rewrite !(bool_decide_eq_false_2 _ Hne).
    + by rewrite IH.
Qed.

Lemma dict_length_set k v d :
  length (PyDict.set k v d)
  = match PyDict.get k d with
    | Some _ => length d
    | None => S (length d)
    end.
Proof.
  induction d as [| [k' v'] d IH]; simpl; [done |].
  case_bool_decide; simpl; [done |].
  rewrite IH. by destruct (PyDict.get k d).
Qed.

Lemma dict_get_del_eq k d : PyDict.get k (PyDict.del k d) = None.
Proof.
  unfold PyDict.del. induction d as [| [k' v'] d IH]; [done |].
  rewrite filter_cons. simpl. case_decide as Hk; simpl; [| done].
  by rewrite (bool_decide_eq_false_2 _ Hk).
Qed.

Lemma dict_get_del_ne k k' d :
  k ≠ k' → PyDict.get k' (PyDict.del k d) = PyDict.get k' d.
Proof.
  intros Hne. unfold PyDict.del. induction d as [| [k0 v0] d IH]; [done |].
  rewrite filter_cons. simpl. case_decide as Hk; simpl.
  - by rewrite IH.
  - subst k0. by rewrite (bool_decide_eq_false_2 _ Hne).
Qed.

Lemma dict_get_values k v d : PyDict.get k d = Some v → v ∈ PyDict.values d.
Proof.
  unfold PyDict.values. induction d as [| [k' v'] d IH]; simpl; [done |].
  case_bool_decide.
  - intros [= ->]. apply list_elem_of_here.
  - intros Hget. apply list_elem_of_further. by apply IH.
Qed.

End DictFacts.

(** ** The content store *)

Section Contents.
Import InfoContent.

Lemma content_dict_lookups id title body category created_at updated_at
    created_by :
  let d := content_dict id title body category created_at updated_at
             created_by in
  d !! "id" = Some (VStr id)
  ∧ d !! "title" = Some (VStr title)
  ∧ d !! "body" = Some (VStr body)
  ∧ d !! "category" = Some (VStr category)
  ∧ d !! "created_at" = Some (VInt created_at)
  ∧ d !! "updated_at" = Some (VInt updated_at)
  ∧ d !! "created_by" = Some (VStr created_by).
Proof.
  unfold content_dict. simpl.
  split; [apply lookup_insert_eq |].
  rewrite !(lookup_insert_ne _ "id") by done.
  split; [apply lookup_insert_eq |].
  rewrite !(lookup_insert_ne _ "title") by done.
  split; [apply lookup_insert_eq |].
  rewrite !(lookup_insert_ne _ "body") by done.
  split; [apply lookup_insert_eq |].
  rewrite !(lookup_insert_ne _ "category") by done.
  split; [apply lookup_insert_eq |].
  rewrite !(lookup_insert_ne _ "created_at") by done.
  split; [apply lookup_insert_eq |].
  rewrite !(lookup_insert_ne _ "updated_at") by done.
  apply lookup_insert_eq.
Qed.

(** A content as [create_content] builds it passes its response model
    unchanged. *)
Lemma Content_of_content_dict id title body category created_at updated_at
    created_by :
  Content_of
    (content_dict id title body category created_at updated_at created_by)
  = Ok (content_dict id title body category created_at updated_at
          created_by).
Proof.
  destruct (content_dict_lookups id title body category created_at
              updated_at created_by) as (H1 & H2 & H3 & H4 & H5 & H6 & H7).
  unfold Content_of, AuthService.str_required, datetime_required.
  by rewrite H1, H2, H3, H4, H5, H6, H7.
Qed.

(** X12.  [create_content] numbers a new content with the size of the
    store plus one and stores it under that id, where it can be read back
    and leaves the contents under other ids alone.  The id is not checked
    for being free: when it is in use (which a deletion brings about) the
    content that was there is replaced and the store does not grow. *)
Theorem create_content_stores content current_user created_by now db :
  current_user !! "username" = Some (VStr created_by) →
  let content_id := pretty (length db + 1)%nat in
  let content_data :=
    content_dict content_id (title content) (body content)
      (category content) now now created_by in
  ∃ db',
    create_content content current_user now db = (Ok content_data, db')
    ∧ get_content content_id db' = Ok content_data
    ∧ (∀ other, other ≠ content_id →
                PyDict.get other db' = PyDict.get other db)
    ∧ (∀ old, PyDict.get content_id db = Some old →
              length db' = length db
              ∧ PyDict.get content_id db' = Some content_data)
    ∧ (PyDict.get content_id db = None → length db' = S (length db)).
Proof.
  intros Huser content_id content_data.
  exists (PyDict.set content_id content_data db).
  split; [unfold create_content; by rewrite Huser |].
  split; [| split; [| split]].
  - unfold get_content. rewrite dict_get_set_eq.
    apply Content_of_content_dict.
  - intros other Hother. by apply dict_get_set_ne.
  - intros old Hold. split.
    + by rewrite dict_length_set, Hold.
    + apply dict_get_set_eq.
  - intros Hfree. by rewrite dict_length_set, Hfree.
Qed.

End Contents.

Lemma create_content_stores_witness :
  admin_identity !! "username" = Some (VStr "admin")
  ∧ (∃ old, PyDict.get "2" contents_after_delete = Some old
            ∧ old !! "title" = Some (VStr "Breathing Exercises"))
  ∧ ∃ db',
      InfoContent.create_content a_post admin_identity 50
        contents_after_delete
      = (Ok (InfoContent.content_dict "2" "Sleep" "Sleep helps." "general"
               50 50 "admin"), db')
      ∧ length db' = length contents_after_delete
      ∧ PyDict.get "2" db'
        = Some (InfoContent.content_dict "2" "Sleep" "Sleep helps."
                  "general" 50 50 "admin").
Proof.
  assert (H : admin_identity !! "username" = Some (VStr "admin"))
    by by_evaluation.
  split; [exact H |]. split.
  { eexists. split; [reflexivity | by_evaluation]. }
  destruct (create_content_stores a_post admin_identity "admin" 50
              contents_after_delete H) as (db' & Hrun & _ & _ & Hold & _).
  exists db'. split; [exact Hrun |].
  exact (Hold _ eq_refl).
Defined.

Section ContentRoutes.
Import InfoContent.

(** X13.  A deletion removes the content for good: afterwards reading,
    updating and deleting that id all answer 404 and leave the store as it
    is, and the contents under every other id are what they were. *)
Theorem delete_content_removes content_id content db :
  PyDict.get content_id db = Some content →
  ∃ db',
    delete_content content_id db = (Ok (), db')
    ∧ get_content content_id db' = Raise not_found
    ∧ (∀ content_update now,
         update_content content_id content_update now db'
         = (Raise not_found, db'))
    ∧ delete_content content_id db' = (Raise not_found, db')
    ∧ (∀ other, other ≠ content_id →
                PyDict.get other db' = PyDict.get other db).
Proof.
  intros Hget. exists (PyDict.del content_id db).
  split; [unfold delete_content; by rewrite Hget |].
  pose proof (dict_get_del_eq (V := gmap string value) content_id db) as Hgone.
  split; [unfold get_content; by rewrite Hgone |].
  split; [intros content_update now; unfold update_content;
          by rewrite Hgone |].
  split; [unfold delete_content; by rewrite Hgone |].
  intros other Hother. by apply dict_get_del_ne.
Qed.

Lemma set_field_lookup k field (d : gmap string value) k' :
  set_field k field d !! k'
  = if bool_decide (k' = k)
    then match field with Some v => Some (of_opt_str v) | None => d !! k' end
    else d !! k'.
Proof.
  unfold set_field. case_bool_decide as Hk.
  - subst k'. destruct field; [apply lookup_insert_eq | done].
  - destruct field; [| done]. rewrite lookup_insert_ne; [done |].
    by intros <-.
Qed.

Lemma ContentUpdate_dict_other (u : ContentUpdate) k :
  k ≠ "title" → k ≠ "body" → k ≠ "category" →
  ContentUpdate_dict u !! k = None.
Proof.
  intros H1 H2 H3. unfold ContentUpdate_dict.
  rewrite !set_field_lookup.
  rewrite (bool_decide_eq_false_2 _ H1), (bool_decide_eq_false_2 _ H2),
    (bool_decide_eq_false_2 _ H3).
  apply lookup_empty.
Qed.

Lemma ContentUpdate_dict_title (u : ContentUpdate) :
  ContentUpdate_dict u !! "title" = of_opt_str <$> upd_title u.
Proof.
  unfold ContentUpdate_dict. rewrite set_field_lookup.
  rewrite bool_decide_eq_true_2 by done.
  destruct (upd_title u); [done |]. simpl.
  rewrite !set_field_lookup.
  rewrite !bool_decide_eq_false_2 by done. apply lookup_empty.
Qed.

(** X14.  An update of a stored content replaces it in place: the fields
    that were sent take the sent values, [updated_at] becomes the time of
    the request, the id, the creation time and the author stay, the title
    stays when none was sent, and the number of contents and the contents
    under other ids are untouched. *)
Theorem update_content_applies content_id content_update now content db :
  PyDict.get content_id db = Some content →
  ∃ stored db',
    update_content content_id content_update now db
      = (Content_of stored, db')
    ∧ PyDict.get content_id db' = Some stored
    ∧ length db' = length db
    ∧ (∀ other, other ≠ content_id →
                PyDict.get other db' = PyDict.get other db)
    ∧ stored !! "updated_at" = Some (VInt now)
    ∧ stored !! "id" = content !! "id"
    ∧ stored !! "created_at" = content !! "created_at"
    ∧ stored !! "created_by" = content !! "created_by"
    ∧ stored !! "title"
      = match upd_title content_update with
        | Some v => Some (of_opt_str v)
        | None => content !! "title"
        end.
Proof.
  intros Hget.
  set (stored := <["updated_at" := VInt now]>
                   (ContentUpdate_dict content_update ∪ content)).
  exists stored, (PyDict.set content_id stored db).
  split; [unfold update_content; by rewrite Hget |].
  split; [apply dict_get_set_eq |].
  split; [by rewrite dict_length_set, Hget |].
  split; [intros other Hother; by apply dict_get_set_ne |].
  split; [apply lookup_insert_eq |].
  assert (Hkeep : ∀ k, k ≠ "updated_at" → k ≠ "title" → k ≠ "body" →
                       k ≠ "category" → stored !! k = content !! k).
  { intros k H0 H1 H2 H3. unfold stored.
    rewrite lookup_insert_ne by (by intros <-).
    apply lookup_union_r. by apply ContentUpdate_dict_other. }
  split; [by apply Hkeep |]. split; [by apply Hkeep |].
  split; [by apply Hkeep |].
  unfold stored. rewrite lookup_insert_ne by done.
  pose proof (ContentUpdate_dict_title content_update) as Htitle.
  destruct (upd_title content_update) as [v |]; simpl in Htitle.
  - by apply lookup_union_Some_l.
  - by apply lookup_union_r.
Qed.

Lemma Content_of_outcomes d :
  (∃ c, Content_of d = Ok c) ∨ Content_of d = Raise ValidationError.
Proof.
  unfold Content_of, AuthService.str_required, datetime_required.
  destruct (d !! "id") as [[| | | ? |] |]; simpl; try by right.
  destruct (d !! "title") as [[| | | ? |] |]; simpl; try by right.
  destruct (d !! "body") as [[| | | ? |] |]; simpl; try by right.
  destruct (d !! "category") as [[| | | ? |] |]; simpl; try by right.
  destruct (d !! "created_at") as [[| | ? | |] |]; simpl; try by right.
  destruct (d !! "updated_at") as [[| | ? | |] |]; simpl; try by right.
  destruct (d !! "created_by") as [[| | | ? |] |]; simpl; try by right.
  left. by eexists.
Qed.

Lemma Content_of_null_title d :
  d !! "title" = Some VNone → Content_of d = Raise ValidationError.
Proof.
  intros Htitle.
  destruct (Content_of_outcomes d) as [[c Hc] | Hraise]; [| done].
  revert Hc. unfold Content_of, AuthService.str_required.
  destruct (d !! "id") as [[| | | ? |] |]; simpl; try done.
  by rewrite Htitle.
Qed.

(** X15.  An update may set the title to [null]: the null is stored, the
    request itself is answered 500 because what the handler returns does
    not pass the response model, and so is every later read of that
    content. *)
Theorem update_content_null_title content_id content_update now content db :
  PyDict.get content_id db = Some content →
  upd_title content_update = Some None →
  ∃ stored db',
    update_content content_id content_update now db
      = (Raise ValidationError, db')
    ∧ PyDict.get content_id db' = Some stored
    ∧ stored !! "title" = Some VNone
    ∧ get_content content_id db' = Raise ValidationError
    ∧ http_status 200 (get_content content_id db') = 500.
Proof.
  intros Hget Hnull.
  set (stored := <["updated_at" := VInt now]>
                   (ContentUpdate_dict content_update ∪ content)).
  assert (Htitle : stored !! "title" = Some VNone).
  { unfold stored. rewrite lookup_insert_ne by done.
    apply lookup_union_Some_l.
    by rewrite ContentUpdate_dict_title, Hnull. }
  pose proof (Content_of_null_title stored Htitle) as Hfail.
  exists stored, (PyDict.set content_id stored db).
  split; [unfold update_content; rewrite Hget; cbv zeta; fold stored;
          by rewrite Hfail |].
  split; [apply dict_get_set_eq |]. split; [exact Htitle |].
  unfold get_content. rewrite dict_get_set_eq, Hfail. by split.
Qed.

End ContentRoutes.

Lemma welcome_is_loaded : PyDict.get "1" contents_loaded = Some welcome.
Proof. by_evaluation. Qed.

Lemma delete_content_removes_witness :
  PyDict.get "1" contents_loaded = Some welcome
  ∧ ∃ db',
      InfoContent.delete_content "1" contents_loaded = (Ok (), db')
      ∧ InfoContent.get_content "1" db' = Raise InfoContent.not_found.
Proof.
  split; [exact welcome_is_loaded |].
  destruct (delete_content_removes "1" welcome contents_loaded
              welcome_is_loaded) as (db' & Hdel & Hget & _).
  by exists db'.
Defined.

Lemma update_content_applies_witness :
  PyDict.get "1" contents_loaded = Some welcome
  ∧ ∃ stored db',
      InfoContent.update_content "1" (recategorise "basics") 70
        contents_loaded = (InfoContent.Content_of stored, db')
      ∧ PyDict.get "1" db' = Some stored
      ∧ stored !! "updated_at" = Some (VInt 70)
      ∧ stored !! "title" = Some (VStr "Welcome to CESIzen").
Proof.
  split; [exact welcome_is_loaded |].
  destruct (update_content_applies "1" (recategorise "basics") 70 welcome
              contents_loaded welcome_is_loaded)
    as (stored & db' & Hrun & Hget & _ & _ & Hupd & _ & _ & _ & Htitle).
  exists stored, db'. split; [exact Hrun |]. split; [exact Hget |].
  split; [exact Hupd |]. rewrite Htitle. by_evaluation.
Defined.

Lemma update_content_null_title_witness :
  PyDict.get "1" contents_loaded = Some welcome
  ∧ InfoContent.upd_title clear_title = Some None
  ∧ ∃ stored db',
      InfoContent.update_content "1" clear_title 70 contents_loaded
        = (Raise ValidationError, db')
      ∧ PyDict.get "1" db' = Some stored
      ∧ stored !! "title" = Some VNone
      ∧ InfoContent.get_content "1" db' = Raise ValidationError.
Proof.
  split; [exact welcome_is_loaded |]. split; [reflexivity |].
  destruct (update_content_null_title "1" clear_title 70 welcome
              contents_loaded welcome_is_loaded eq_refl)
    as (stored & db' & Hrun & Hget & Htitle & Hread & _).
  by exists stored, db'.
Defined.

Section ContentListing.
Import InfoContent.

Lemma of_category_ok category l r :
  of_category category l = Ok r →
  ∀ c, c ∈ r → c ∈ l ∧ c !! "category" = Some (VStr category).
Proof.
  revert r. induction l as [| x l IH]; simpl; intros r.
  - intros [= <-] c Hc. by apply elem_of_nil in Hc.
  - destruct (x !! "category") as [v |] eqn:Hx; [| done].
    destruct (of_category category l) as [rest | e]; simpl; [| done].
    intros [= <-] c Hc. case_bool_decide as Hv.
    + apply elem_of_cons in Hc as [-> | Hc].
      * split; [apply list_elem_of_here | by rewrite Hx, Hv].
      * destruct (IH rest eq_refl c Hc) as [Hin Hcat].
        split; [by apply list_elem_of_further | done].
    + destruct (IH rest eq_refl c Hc) as [Hin Hcat].
      split; [by apply list_elem_of_further | done].
Qed.

Lemma Contents_of_ok l r :
  Contents_of l = Ok r →
  length r = length l
  ∧ ∀ item, item ∈ r → ∃ c, c ∈ l ∧ Content_of c = Ok item.
Proof.
  revert r. induction l as [| x l IH]; simpl; intros r.
  - intros [= <-]. split; [done |]. intros item Hi.
    by apply elem_of_nil in Hi.
  - destruct (Content_of x) as [c | e] eqn:Hx; simpl; [| done].
    destruct (Contents_of l) as [rest | e]; simpl; [| done].
    intros [= <-]. destruct (IH rest eq_refl) as [Hlen Hitems].
    split; [simpl; by rewrite Hlen |].
    intros item Hi. apply elem_of_cons in Hi as [-> | Hi].
    + exists x. split; [apply list_elem_of_here | done].
    + destruct (Hitems item Hi) as (c' & Hin & Hc').
      exists c'. split; [by apply list_elem_of_further | done].
Qed.

Lemma slice_subseteq {A} (l : list A) start stop :
  PyDict.slice l start stop ⊆ l.
Proof.
  unfold PyDict.slice. etrans; [apply subseteq_take | apply subseteq_drop].
Qed.

Lemma slice_page_length {A} (l : list A) skip limit :
  0 ≤ skip → 0 ≤ limit →
  (length (PyDict.slice l skip (skip + limit)) ≤ Z.to_nat limit)%nat.
Proof.
  intros Hskip Hlimit. unfold PyDict.slice, PyDict.clamp_index.
  rewrite length_take.
  destruct (Z.ltb_spec skip 0); [lia |].
  destruct (Z.ltb_spec (skip + limit) 0); lia.
Qed.

(** X16.  A listing that is answered holds at most [limit] contents (for
    a non-negative [skip] and [limit]); each of them is the response form
    of a stored content, and when a non-empty category was asked for, of
    one that carries exactly that category.  An empty category string
    filters nothing. *)
Theorem list_content_page category skip limit db items :
  list_content category skip limit db = Ok items →
  0 ≤ skip → 0 ≤ limit →
  (length items ≤ Z.to_nat limit)%nat
  ∧ (∀ item, item ∈ items →
       ∃ c, c ∈ PyDict.values db
            ∧ Content_of c = Ok item
            ∧ ∀ wanted, category = Some wanted → wanted ≠ "" →
                        c !! "category" = Some (VStr wanted))
  ∧ list_content (Some "") skip limit db = list_content None skip limit db.
Proof.
  intros Hrun Hskip Hlimit. split; [| split; [| done]].
  - revert Hrun. unfold list_content.
    destruct (match category with Some _ => _ | None => _ end)
      as [chosen | e]; simpl; [| done].
    intros Hresp. apply Contents_of_ok in Hresp as [-> _].
    by apply slice_page_length.
  - intros item Hitem. revert Hrun. unfold list_content.
    destruct (match category with Some _ => _ | None => _ end)
      as [chosen | e] eqn:Hchosen; simpl; [| done].
    intros Hresp. apply Contents_of_ok in Hresp as [_ Hitems].
    destruct (Hitems item Hitem) as (c & Hin & Hc).
    apply slice_subseteq in Hin.
    exists c. split; [| split; [exact Hc |]].
    + destruct category as [wanted |]; [| by injection Hchosen as <-].
      destruct (str_truthy wanted); [| by injection Hchosen as <-].
      by apply (of_category_ok _ _ _ Hchosen).
    + intros wanted -> Hne. unfold str_truthy in Hchosen.
      rewrite (bool_decide_eq_false_2 _ Hne) in Hchosen. simpl in Hchosen.
      by apply (of_category_ok _ _ _ Hchosen).
Qed.

(** X17.  The content store is only ever changed, and a write only ever
    answered normally, for a token that passes validation and carries the
    role ["admin"]: whenever the creation, the update or the deletion of a
    content returns a result or a store that differs from the store it
    was given, the token decoded under the service's key to a payload
    with a subject and with that role. *)
Theorem content_writes_need_admin_token token now db :
  let admitted :=
    ∃ payload,
      Jose.decode token InfoService.SECRET_KEY [InfoService.ALGORITHM] now
        = Ok payload
      ∧ Py.get payload "sub" VNone ≠ VNone
      ∧ Py.get payload "role" (VStr "user") = VStr "admin" in
  (∀ content r db',
     request_create_content token now content db = (r, db') →
     (∃ c, r = Ok c) ∨ db' ≠ db → admitted)
  ∧ (∀ content_id content_update r db',
       request_update_content token now content_id content_update db
         = (r, db') →
       (∃ c, r = Ok c) ∨ db' ≠ db → admitted)
  ∧ (∀ content_id r db',
       request_delete_content token now content_id db = (r, db') →
       r = Ok () ∨ db' ≠ db → admitted).
Proof.
  intros admitted.
  assert (Hguard : ∀ current_user,
            InfoService.admin_user_dependency token now = Ok current_user →
            admitted).
  { intros current_user.
    unfold InfoService.admin_user_dependency, InfoService.get_current_user.
    destruct (Jose.decode _ _ _ _) as [payload | e] eqn:Hdecode;
      [| by destruct e].
    simpl. case_bool_decide as Hsub; [done |]. simpl.
    unfold InfoService.get_admin_user. rewrite identity_role.
    case_bool_decide as Hrole; [| done]. intros _.
    by exists payload. }
  split; [| split].
  - intros content r db'. unfold request_create_content.
    destruct (InfoService.admin_user_dependency token now)
      as [current_user | e] eqn:Hdep; [intros _ _; by eapply Hguard |].
    intros [= <- <-] [[c Hc] | Hdb]; [discriminate Hc | by destruct Hdb].
  - intros content_id content_update r db'. unfold request_update_content.
    destruct (InfoService.admin_user_dependency token now)
      as [current_user | e] eqn:Hdep; [intros _ _; by eapply Hguard |].
    intros [= <- <-] [[c Hc] | Hdb]; [discriminate Hc | by destruct Hdb].
  - intros content_id r db'. unfold request_delete_content.
    destruct (InfoService.admin_user_dependency token now)
      as [current_user | e] eqn:Hdep; [intros _ _; by eapply Hguard |].
    intros [= <- <-] [Hc | Hdb]; [discriminate Hc | by destruct Hdb].
Qed.

End ContentListing.

Lemma list_content_page_witness :
  InfoContent.list_content (Some "general") 0 10 contents_loaded
    = Ok [welcome]
  ∧ 0 ≤ 0 ∧ 0 ≤ 10
  ∧ (length [welcome] ≤ Z.to_nat 10)%nat.
Proof.
  assert (H : InfoContent.list_content (Some "general") 0 10 contents_loaded
              = Ok [welcome]) by by_evaluation.
  split; [exact H |]. split; [lia |]. split; [lia |].
  exact (proj1 (list_content_page (Some "general") 0 10 contents_loaded
                  [welcome] H ltac:(lia) ltac:(lia))).
Defined.

(** ** The user store of the user service *)

Section Accounts.
Import UserAccounts.

Lemma dict_set_absent {V} k (v : V) d :
  PyDict.get k d = None → PyDict.set k v d = d ++ [(k, v)].
Proof.
  induction d as [| [k' v'] d IH]; simpl; [done |].
  case_bool_decide; [done |]. intros Hget. by rewrite IH.
Qed.

Lemma dict_set_present {V} k (v old : V) d :
  PyDict.get k d = Some old →
  ∃ i, d !! i = Some (k, old) ∧ PyDict.set k v d = <[i := (k, v)]> d.
Proof.
  induction d as [| [k' v'] d IH]; simpl; [done |].
  case_bool_decide as Hk.
  - intros [= ->]. subst k'. by exists 0%nat.
  - intros Hget. destruct (IH Hget) as (i & Hi & Hset).
    exists (S i). split; [done |]. simpl. by rewrite Hset.
Qed.

Lemma dict_get_absent_key {V} k (d : list (string * V)) :
  PyDict.get k d = None → k ∉ d.*1.
Proof.
  induction d as [| [k' v'] d IH]; simpl.
  - intros _ Hin. by apply elem_of_nil in Hin.
  - case_bool_decide as Hk; [done |]. intros Hget Hin.
    apply elem_of_cons in Hin as [-> | Hin]; [done | by apply IH].
Qed.

(** X18.  The registration of the user service never passes on what the
    auth service answered: whatever the outcome of the call to
    [/register] other than status 201 (the auth service unreachable, or
    any other status, a 400 for a conflict included), the client is
    answered 500 when the username is free here, 400 when it is taken
    here, and nothing is stored. *)
Theorem create_user_upstream_failure describe user register now db :
  (∀ json, register ≠ UserService.Answered 201 json) →
  let outcome := create_user describe user register now db in
  outcome.2 = db
  ∧ (PyDict.get (username user) db = None →
     http_status 201 outcome.1 = 500)
  ∧ (∀ taken, PyDict.get (username user) db = Some taken →
              outcome.1 = Raise (HTTPException 400
                                   "Username already registered")).
Proof.
  intros Hfailed outcome. unfold outcome, create_user.
  destruct (PyDict.get (username user) db) as [taken |]; [done |].
  destruct register as [| status_code json]; [done |].
  case_bool_decide as Hstatus; [done |].
  exfalso. apply (Hfailed json). f_equal.
  destruct (decide (status_code = 201)); [done | by destruct Hstatus].
Qed.

(** X19.  A registration that the auth service accepted (status 201) for a
    username that is free stores the user as the last entry, under the
    id "size of the store plus one", enabled, and [GET /users/me] for an
    identity with that username returns exactly that user. *)
Theorem create_user_then_read describe user json now db :
  PyDict.get (username user) db = None →
  ∃ u db',
    create_user describe user (UserService.Answered 201 json) now db
      = (Ok u, db')
    ∧ db' = db ++ [(username user, u)]
    ∧ id u = pretty (length db + 1)%nat
    ∧ disabled u = VBool false
    ∧ ∀ role,
        read_users_me
          (InfoService.identity (VStr (username user)) role) db'
        = Ok u.
Proof.
  intros Hfree. eexists _, _. unfold create_user. rewrite Hfree.
  rewrite bool_decide_eq_false_2 by (by intros []).
  split; [reflexivity |].
  split; [by apply dict_set_absent |]. split; [done |]. split; [done |].
  intros role. unfold read_users_me, InfoService.identity.
  rewrite lookup_insert_eq. by rewrite dict_get_set_eq.
Qed.

Lemma numbered_step db db' : step db db' → numbered db → numbered db'.
Proof.
  intros Hstep [Hnodup Hnum]. destruct Hstep
    as [describe user register now db | user_update current_user now db].
  - unfold create_user.
    destruct (PyDict.get (username user) db) as [taken |] eqn:Hget;
      [done |].
    destruct register as [| status_code json]; [done |].
    case_bool_decide; [done |]. simpl.
    rewrite (dict_set_absent _ _ _ Hget). split.
    + rewrite fmap_app. apply NoDup_app. split; [done |].
      split; [| apply NoDup_singleton].
      intros k Hk Hk'. apply list_elem_of_singleton in Hk'. subst k.
      by apply (dict_get_absent_key _ _ Hget).
    + intros i k u Hi. apply lookup_app_Some in Hi as [Hi | [Hlen Hi]].
      * by apply Hnum.
      * destruct (i - length db)%nat eqn:Hdiff; [| done].
        simpl in Hi. injection Hi as <- <-. simpl.
        split; [| done]. f_equal. lia.
  - unfold update_user_me.
    destruct (current_user !! "username") as [[| | | name |] |]; try done.
    destruct (PyDict.get name db) as [old |] eqn:Hget; [| done]. simpl.
    destruct (dict_set_present name
                (touch now (apply_update user_update old)) old db Hget)
      as (i & Hi & ->).
    split.
    + rewrite list_fmap_insert. simpl.
      rewrite list_insert_id; [done |].
      by rewrite list_lookup_fmap, Hi.
    + intros j k u Hj.
      destruct (decide (j = i)) as [-> | Hne].
      * rewrite list_lookup_insert_eq in Hj
          by (by eapply lookup_lt_Some).
        injection Hj as <- <-. simpl. by apply (Hnum i name old).
      * rewrite list_lookup_insert_ne in Hj by done. by apply Hnum.
Qed.

(** X20.  Ids are never handed out twice in the user service, where
    nothing is ever deleted: in every store reached from the empty one by
    registrations and updates, the user at position [i] carries the id
    [i + 1] and the username it is stored under, and two entries with the
    same id, or with the same username, are one entry. *)
Theorem user_ids_are_positions db :
  rtc step [] db →
  ∀ i k u,
    db !! i = Some (k, u) →
    id u = pretty (S i) ∧ user_name u = k
    ∧ ∀ j k' u',
        db !! j = Some (k', u') → id u' = id u ∨ k' = k → j = i.
Proof.
  intros Hreach.
  assert (Hnum : numbered db).
  { revert db Hreach. apply (rtc_ind_r (λ db, numbered db) []).
    - split; [apply NoDup_nil_2 | done].
    - intros db1 db2 _ Hstep IH. by apply (numbered_step db1 db2). }
  destruct Hnum as [Hnodup Hnum].
  intros i k u Hi. destruct (Hnum i k u Hi) as [Hid Hname].
  split; [done |]. split; [done |].
  intros j k' u' Hj [Hsame | ->].
  - destruct (Hnum j k' u' Hj) as [Hid' _].
    rewrite Hid, Hid' in Hsame.
    apply (inj pretty) in Hsame. lia.
  - apply (NoDup_lookup _ j i k Hnodup).
    + by rewrite list_lookup_fmap, Hj.
    + by rewrite list_lookup_fmap, Hi.
Qed.

Lemma create_user_upstream_failure_witness :
  (∀ json, UserService.Answered 409 ∅ ≠ UserService.Answered 201 json)
  ∧ http_status 201
      (create_user describe carol (UserService.Answered 409 ∅) 50 []).1
    = 500.
Proof.
  assert (H : ∀ json,
             UserService.Answered 409 ∅ ≠ UserService.Answered 201 json)
    by (intros json Heq; discriminate Heq).
  split; [exact H |].
  exact (proj1 (proj2 (create_user_upstream_failure describe carol
                         (UserService.Answered 409 ∅) 50 [] H))
           eq_refl).
Defined.

Lemma create_user_then_read_witness :
  PyDict.get (username carol) (V := User) [] = None
  ∧ ∃ u, read_users_me carol_identity accounts_with_carol = Ok u
         ∧ id u = pretty 1%nat.
Proof.
  split; [reflexivity |].
  destruct (create_user_then_read describe carol ∅ 50 [] eq_refl)
    as (u & db' & Hcreate & _ & Hid & _ & Hread).
  exists u. split; [| exact Hid].
  unfold accounts_with_carol. rewrite Hcreate. exact (Hread (VStr "user")).
Defined.

Lemma user_ids_are_positions_witness :
  rtc step [] accounts_with_carol
  ∧ ∃ u, accounts_with_carol !! 0%nat = Some ("carol", u)
         ∧ id u = pretty 1%nat.
Proof.
  assert (Hreach : rtc step [] accounts_with_carol)
    by (apply rtc_once; apply step_create_user).
  split; [exact Hreach |].
  eexists. split; [reflexivity |].
  exact (proj1 (user_ids_are_positions accounts_with_carol Hreach
                  0%nat "carol" _ eq_refl)).
Defined.

Lemma dict_set_present_keys {V} k (v old : V) d :
  PyDict.get k d = Some old → (PyDict.set k v d).*1 = d.*1.
Proof.
  intros Hget. destruct (dict_set_present k v old d Hget) as (i & Hi & ->).
  rewrite list_fmap_insert. simpl. apply list_insert_id.
  by rewrite list_lookup_fmap, Hi.
Qed.

(** X21.  [PUT /users/me] writes to the entry of the caller only: the
    usernames of the store and their order stay as they are, every entry
    under another name is untouched, and the caller's entry keeps its id,
    its username and its creation time and gets the time of the request
    as [updated_at]. *)
Theorem update_user_me_frame user_update current_user now db :
  let outcome := update_user_me user_update current_user now db in
  outcome.2.*1 = db.*1
  ∧ (∀ name, current_user !! "username" ≠ Some (VStr name) →
             PyDict.get name outcome.2 = PyDict.get name db)
  ∧ (∀ name old,
       current_user !! "username" = Some (VStr name) →
       PyDict.get name db = Some old →
       ∃ u, PyDict.get name outcome.2 = Some u
            ∧ id u = id old ∧ user_name u = user_name old
            ∧ created_at u = created_at old ∧ updated_at u = now).
Proof.
  intros outcome. unfold outcome, update_user_me.
  destruct (current_user !! "username") as [[| | | caller |] |] eqn:Hcaller;
    try (split; [done |]; split; [done |]; intros name old Hname; done).
  destruct (PyDict.get caller db) as [stored |] eqn:Hget; simpl.
  - split; [by eapply dict_set_present_keys |]. split.
    + intros name Hname. apply dict_get_set_ne.
      intros Heq. apply Hname. by rewrite Heq.
    + intros name old Hname Hold. injection Hname as <-.
      rewrite Hget in Hold. injection Hold as <-.
      eexists. split; [apply dict_get_set_eq | done].
  - split; [done |]. split; [done |].
    intros name old Hname Hold. injection Hname as <-.
    rewrite Hget in Hold. discriminate Hold.
Qed.

Lemma respond_Users_all l : respond_Users l = Ok l.
Proof. induction l as [| u l IH]; simpl; [done |]. by rewrite IH. Qed.

(** X22.  A user who sends [{"email": null}] to [PUT /users/me] gets the
    null stored ([setattr] does not validate) and handed out: the answer
    to the request, every later [GET /users/me] of that user and the
    listing [GET /users/] carry the user with a null e-mail, although
    [User.email] is declared an [EmailStr]. *)
Theorem null_email_stored_and_served
    user_update current_user name old now db :
  current_user !! "username" = Some (VStr name) →
  PyDict.get name db = Some old →
  upd_email user_update = Some None →
  let outcome := update_user_me user_update current_user now db in
  ∃ u,
    outcome.1 = Ok u
    ∧ user_email u = VNone
    ∧ PyDict.get name outcome.2 = Some u
    ∧ read_users_me current_user outcome.2 = Ok u
    ∧ ∃ l, read_users outcome.2 = Ok l ∧ u ∈ l.
Proof.
  intros Hcaller Hget Hemail outcome. unfold outcome, update_user_me.
  rewrite Hcaller, Hget. simpl.
  set (stored := touch now (apply_update user_update old)).
  assert (Hnull : user_email stored = VNone)
    by (unfold stored; simpl; by rewrite Hemail).
  assert (Hstored : PyDict.get name (PyDict.set name stored db) = Some stored)
    by apply dict_get_set_eq.
  exists stored. split; [done |]. split; [exact Hnull |].
  split; [exact Hstored |]. split.
  - unfold read_users_me. by rewrite Hcaller, Hstored.
  - eexists. split; [unfold read_users; apply respond_Users_all |].
    by apply (dict_get_values name).
Qed.

Lemma null_email_stored_and_served_witness :
  carol_identity !! "username" = Some (VStr "carol")
  ∧ (∃ old, PyDict.get "carol" accounts_with_carol = Some old)
  ∧ ∃ u,
      read_users_me carol_identity
        (update_user_me clear_email carol_identity 60 accounts_with_carol).2
      = Ok u
      ∧ user_email u = VNone.
Proof.
  split; [reflexivity |].
  split; [eexists; reflexivity |].
  destruct (null_email_stored_and_served clear_email carol_identity "carol"
              _ 60 accounts_with_carol eq_refl eq_refl eq_refl)
    as (u & _ & Hnull & _ & Hread & _).
  exists u. split; [exact Hread | exact Hnull].
Defined.

Lemma reachable_numbered db : rtc step [] db → numbered db.
Proof.
  revert db. apply (rtc_ind_r (λ db, numbered db) []).
  - split; [apply NoDup_nil_2 | done].
  - intros db1 db2 _ Hstep IH. by apply (numbered_step db1 db2).
Qed.

Lemma dict_get_lookup {V} (d : list (string * V)) i k v :
  NoDup d.*1 → d !! i = Some (k, v) → PyDict.get k d = Some v.
Proof.
  revert i. induction d as [| [k' v'] d IH]; intros i Hnodup Hi; [done |].
  apply NoDup_cons in Hnodup as [Hfresh Hnodup].
  destruct i as [| i]; simpl in Hi |- *.
  - injection Hi as -> ->. by rewrite bool_decide_eq_true_2.
  - rewrite bool_decide_eq_false_2; [by apply (IH i) |].
    intros ->. apply Hfresh.
    apply list_elem_of_fmap. exists (k, v). split; [done |].
    by apply (list_elem_of_lookup_2 _ i).
Qed.

(** X23.  The listing [GET /users/] of the user service gives, for every
    store reached from the empty one, all users in the order of their
    registration: the [i]-th carries the id [i + 1] and is the entry that
    is stored under its username. *)
Theorem read_users_in_registration_order db :
  rtc step [] db →
  ∃ l,
    read_users db = Ok l
    ∧ length l = length db
    ∧ ∀ i u, l !! i = Some u →
             id u = pretty (S i) ∧ PyDict.get (user_name u) db = Some u.
Proof.
  intros Hreach. destruct (reachable_numbered db Hreach) as [Hnodup Hnum].
  exists (PyDict.values db).
  split; [unfold read_users; apply respond_Users_all |].
  unfold PyDict.values. split; [apply length_fmap |].
  intros i u Hi. rewrite list_lookup_fmap in Hi.
  destruct (db !! i) as [[k u'] |] eqn:Hdb; [| done].
  injection Hi as <-. destruct (Hnum i k u' Hdb) as [Hid Hname].
  split; [exact Hid |]. rewrite Hname. by apply (dict_get_lookup db i).
Qed.

Lemma read_users_in_registration_order_witness :
  rtc step [] accounts_with_carol
  ∧ ∃ l, read_users accounts_with_carol = Ok l ∧ length l = 1%nat.
Proof.
  assert (Hreach : rtc step [] accounts_with_carol)
    by (apply rtc_once; apply step_create_user).
  split; [exact Hreach |].
  destruct (read_users_in_registration_order accounts_with_carol Hreach)
    as (l & Hl & Hlen & _).
  exists l. split; [exact Hl | exact Hlen].
Defined.

End Accounts.

(** ** The connection singleton *)

Section Singleton.
Import MongoDB.

Lemma accounted_declared : accounted declared.
Proof.
  unfold accounted, declared. simpl.
  split; [done |]. split; [done |]. split; [done |].
  split; [intros c Hc; lia |].
  split; [intros c Hc; by apply elem_of_nil in Hc | apply NoDup_nil_2].
Qed.

Lemma accounted_step cls cls' : step cls cls' → accounted cls → accounted cls'.
Proof.
  intros Hstep Hacc.
  pose proof Hacc as (Hdb & Hinst & Hcur & Hall & Hclosed & Hnodup).
  destruct Hstep as [cls | cls].
  - unfold new. destruct (_instance cls) as [instance |] eqn:Hi; simpl.
    + exact Hacc.
    + assert (Hnone : _client cls = None) by by apply Hinst.
      unfold accounted. simpl.
      split; [done |]. split; [done |]. split; [| split; [| split]].
      * intros c [= <-]. split; [lia |].
        intros Hin. apply Hclosed in Hin. lia.
      * intros c Hc. destruct (decide (c = constructed cls)) as [-> | Hne].
        { by right. }
        left. destruct (Hall c ltac:(lia)) as [Hin | Hsome]; [done |].
        rewrite Hnone in Hsome. discriminate Hsome.
      * intros c Hin. apply Hclosed in Hin. lia.
      * done.
  - unfold close. destruct (_client cls) as [current |] eqn:Hc; simpl.
    + destruct (Hcur current eq_refl) as [Hlt Hopen].
      unfold accounted. simpl.
      split; [done |]. split; [done |]. split; [done |].
      split; [| split].
      * intros c Hlt'. left.
        destruct (Hall c Hlt') as [Hin | [= ->]].
        { by apply list_elem_of_further. }
        apply list_elem_of_here.
      * intros c Hin. apply elem_of_cons in Hin as [-> | Hin];
          [done | by apply Hclosed].
      * by apply NoDup_cons_2.
    + exact Hacc.
Qed.

(** X24.  The connection singleton leaks no client: after any sequence of
    [MongoDB()] and [close()] calls, every client that was ever
    constructed has been closed exactly once, except the current one,
    which is open; a collection can be had exactly when there is a
    current instance; and one more [MongoDB()] then gives the current
    instance without constructing a client. *)
Theorem singleton_leaks_no_client cls :
  rtc step declared cls →
  (∀ c, (c < constructed cls)%nat →
        (c ∈ closed cls ∧ client cls ≠ Some c)
        ∨ ((c ∉ closed cls) ∧ client cls = Some c))
  ∧ NoDup (closed cls)
  ∧ (∀ name, is_Some (get_collection name cls) ↔ is_Some (_instance cls))
  ∧ (∀ instance, _instance cls = Some instance →
                 new cls = (instance, cls)).
Proof.
  intros Hreach.
  assert (Hacc : accounted cls).
  { revert cls Hreach. apply (rtc_ind_r (λ cls, accounted cls) declared).
    - apply accounted_declared.
    - intros cls1 cls2 _ Hstep IH. by apply (accounted_step cls1 cls2). }
  destruct Hacc as (Hdb & Hinst & Hcur & Hall & Hclosed & Hnodup).
  split; [| split; [done | split]].
  - intros c Hlt. unfold client.
    destruct (Hall c Hlt) as [Hin | Hsome].
    + left. split; [done |]. intros Hsome.
      by apply (proj2 (Hcur c Hsome)).
    + right. split; [| done]. by apply (proj2 (Hcur c Hsome)).
  - intros name. unfold get_collection. rewrite Hdb.
    destruct (_client cls) as [c |] eqn:Hc,
             (_instance cls) as [i |] eqn:Hi.
    + split; intros _; by eexists.
    + destruct Hinst as [Hnone _]. specialize (Hnone eq_refl).
      discriminate Hnone.
    + destruct Hinst as [_ Hnone]. specialize (Hnone eq_refl).
      discriminate Hnone.
    + split; intros [x Hx]; discriminate Hx.
  - intros instance Hi. unfold new. by rewrite Hi.
Qed.

Lemma singleton_leaks_no_client_witness :
  rtc step declared reopened
  ∧ NoDup (closed reopened)
  ∧ client reopened = Some 1%nat.
Proof.
  assert (Hreach : rtc step declared reopened).
  { apply (rtc_l _ _ loaded); [apply step_new |].
    apply (rtc_l _ _ (close loaded)); [apply step_close |].
    apply rtc_once. apply step_new. }
  split; [exact Hreach |].
  split; [exact (proj1 (proj2 (singleton_leaks_no_client reopened Hreach)))
         | reflexivity].
Defined.

End Singleton.

(** ** The tokens of the auth service in the other services *)

Section SharedKey.
Variable cfg : config.

(** X25.  The information and the user service check tokens under a key
    and an algorithm written into their source, whereas the auth service
    signs with its configuration.  A token that the auth service issues
    for a subject and a role is therefore taken by both, until it
    expires, as that user with that role when the auth service runs with
    that very key and algorithm, and is answered 401 by both, at any
    time, as soon as the auth service is configured with another key or
    algorithm.  (The user service asks the auth service first; this is
    about every answer other than status 200.) *)
Theorem issued_tokens_elsewhere
    subject role expires_delta issued now verify_token :
  (∀ json, verify_token ≠ UserService.Answered 200 json) →
  let token :=
    create_access_token cfg (subject_claims subject role) expires_delta
      issued in
  let current_user := InfoService.identity (VStr subject) (VStr role) in
  (SECRET_KEY cfg = InfoService.SECRET_KEY →
   ALGORITHM cfg = InfoService.ALGORITHM →
   now ≤ expire_at expires_delta issued →
   InfoService.get_current_user token now = Ok current_user
   ∧ UserService.get_current_user verify_token token now = Ok current_user)
  ∧ (SECRET_KEY cfg ≠ InfoService.SECRET_KEY
     ∨ ALGORITHM cfg ≠ InfoService.ALGORITHM →
     InfoService.get_current_user token now
     = Raise InfoService.credentials_exception
     ∧ UserService.get_current_user verify_token token now
       = Raise UserService.credentials_exception).
Proof.
  intros Hverify token current_user.
  assert (Hfallback :
            UserService.get_current_user verify_token token now
            = UserService.fallback token now).
  { unfold UserService.get_current_user.
    destruct verify_token as [| status_code json]; [done |].
    case_bool_decide as Hstatus; [done |].
    exfalso. apply (Hverify json). f_equal.
    destruct (decide (status_code = 200)); [done | by destruct Hstatus]. }
  rewrite Hfallback. unfold UserService.fallback, InfoService.get_current_user.
  change UserService.SECRET_KEY with InfoService.SECRET_KEY.
  change UserService.ALGORITHM with InfoService.ALGORITHM.
  change UserService.credentials_exception
    with InfoService.credentials_exception.
  set (claims := <["exp" := VInt (expire_at expires_delta issued)]>
                   (subject_claims subject role)).
  assert (Hexp : claims !! "exp"
                 = Some (VInt (expire_at expires_delta issued)))
    by apply lookup_insert_eq.
  assert (Hsub : claims !! "sub" = Some (VStr subject)).
  { unfold claims, subject_claims.
    rewrite lookup_insert_ne by done. apply lookup_insert_eq. }
  assert (Hrole : claims !! "role" = Some (VStr role)).
  { unfold claims, subject_claims.
    rewrite !lookup_insert_ne by done. apply lookup_insert_eq. }
  split.
  - intros Hkey Halg Hfresh.
    assert (Hdecode :
              Jose.decode token InfoService.SECRET_KEY
                [InfoService.ALGORITHM] now = Ok claims).
    { unfold token, create_access_token. fold claims.
      rewrite Hkey, Halg.
      rewrite (decode_signed_by_clock claims _ _ _ subject now Hexp Hsub)
        by apply plain_with_exp, plain_subject_claims.
      destruct (Z.ltb_spec (expire_at expires_delta issued) now); [lia |].
      done. }
    rewrite Hdecode.
    rewrite (get_Some _ _ _ _ Hsub), (get_Some _ _ _ _ Hrole).
    by rewrite bool_decide_eq_false_2.
  - intros Hother.
    assert (Hdecode :
              Jose.decode token InfoService.SECRET_KEY
                [InfoService.ALGORITHM] now = Raise JWTError).
    { apply decode_foreign. unfold token, create_access_token, Jose.encode.
      simpl. apply andb_false_iff. destruct Hother as [Hkey | Halg].
      - right. by apply bool_decide_eq_false_2.
      - left. by apply bool_decide_eq_false_2. }
    by rewrite Hdecode.
Qed.

End SharedKey.

Lemma issued_tokens_elsewhere_witness :
  (∀ json, UserService.Unreachable ≠ UserService.Answered 200 json)
  ∧ UserService.get_current_user UserService.Unreachable
      (create_access_token default_config (subject_claims "carol" "user")
         None 0) 900
    = Ok carol_identity.
Proof.
  assert (H : ∀ json,
             UserService.Unreachable ≠ UserService.Answered 200 json)
    by (intros json Heq; discriminate Heq).
  split; [exact H |].
  refine (proj2 (proj1 (issued_tokens_elsewhere default_config
                          "carol" "user" None 0 900 UserService.Unreachable
                          H)
                   eq_refl eq_refl _)).
  vm_compute. discriminate.
Defined.
